(** * The AppSheet client for Apps Script: a shallow embedding

    The repository holds three generations of one Apps Script client for
    the AppSheet REST API:

    - [Library]: the published library (version 1.0.0) with the [app]
      factory, the [App] class and the resilient [makeRequest];
    - [Script]: the stand-alone script [main.js] with [find] and
      [findByKey] over a module-level [CONFIG];
    - [Legacy]: the first script, whose [findByKey] filters on the client.

    JavaScript data is embedded as the inductive type [JS.value]; the
    network and the clock are embedded as a trace of events threaded
    through a small state-and-exception monad [Net.M]. *)

From Stdlib Require Import String Ascii List ZArith QArith Lia Bool.
From Stdlib Require Import DecimalString Qround.
Import ListNotations.
Local Close Scope Q_scope.
Local Open Scope string_scope.
Set Warnings "-register-all".

(* ================================================================= *)
(** ** JavaScript values and the coercions the client relies on *)

Module JS.

(** A JavaScript number.  The finite ones are kept as rationals: the
    client only compares numbers and counts upwards from zero.  The
    comparison is exact on doubles; the count is exact up to [2^53],
    where a double stops counting (see [Net.increment]). *)
Inductive number : Type :=
| NaN
| PosInf
| NegInf
| Fin (q : Q).

(** The values the client handles: [undefined], JSON data, and what a
    property read may find in a prototype, a function or an object of
    the engine's own, known by its name ([Object],
    [Object.prototype.toString], [String.prototype]).  A text holds the
    bytes of its UTF-8 encoding. *)
Inductive value : Type :=
| VUndefined
| VNull
| VBool (b : bool)
| VNum (n : number)
| VStr (s : string)
| VArr (elems : list value)
| VObj (fields : list (string * value))
| VNative (name : string).

Definition is_native (v : value) : bool :=
  match v with
  | VNative _ => true
  | _ => false
  end.

(** An exception object: its [name] and its [message]. *)
Record exn : Type := Exn { exn_name : string; exn_message : string }.

Definition Error (msg : string) : exn := Exn "Error" msg.
Definition TypeError (msg : string) : exn := Exn "TypeError" msg.
Definition SyntaxError (msg : string) : exn := Exn "SyntaxError" msg.

(** [Error.prototype.toString]. *)
Definition exn_toString (e : exn) : string :=
  if (exn_name e =? EmptyString) then exn_message e
  else if (exn_message e =? EmptyString) then exn_name e
  else exn_name e ++ ": " ++ exn_message e.

(** The outcome of an expression that may throw. *)
Inductive result (A : Type) : Type :=
| Ok (a : A)
| Throw (e : exn).
Arguments Ok {A} a.
Arguments Throw {A} e.

Definition rbind {A B : Type} (r : result A) (k : A -> result B) : result B :=
  match r with
  | Ok a => k a
  | Throw e => Throw e
  end.

(** What the host engine provides and the client does not define. *)
Class Runtime : Type := {
  (** [Number::toString] outside the safe integers (fractions, large
      magnitudes), where the shortest round-trip digits are printed. *)
  Number_toString_other : Q -> string;
  (** [StringToNumber], the numeric reading of a string. *)
  StringToNumber : string -> number;
  (** [JSON.parse]; it throws a [SyntaxError] on malformed text. *)
  JSON_parse : string -> result value;
  (** [JSON.stringify] on the payload object. *)
  JSON_stringify : value -> string;
  (** The prototype chain: the function or object, by its name, that a
      datum inherits under a key it does not own, if there is one. *)
  Inherited : value -> string -> option string;
  (** [ToString], [ToNumber] and the members of a function or object
      of the engine's own. *)
  Native_toString : string -> string;
  Native_toNumber : string -> number;
  Native_get : string -> string -> value;
  (** What [JSON.parse] returns is JSON data. *)
  JSON_parse_data : forall s v, JSON_parse s = Ok v -> is_native v = false
}.

Definition num_of_Z (z : Z) : number := Fin (inject_Z z).
Definition num_of_nat (n : nat) : number := num_of_Z (Z.of_nat n).

Definition Qlt_bool (a b : Q) : bool := negb (Qle_bool b a).

(** [a < b] on numbers: false as soon as one side is [NaN]. *)
Definition num_lt (a b : number) : bool :=
  match a, b with
  | NaN, _ | _, NaN => false
  | _, NegInf => false
  | NegInf, _ => true
  | PosInf, _ => false
  | Fin _, PosInf => true
  | Fin x, Fin y => Qlt_bool x y
  end.

(** [a <= b] on numbers. *)
Definition num_le (a b : number) : bool :=
  match a, b with
  | NaN, _ | _, NaN => false
  | NegInf, _ => true
  | _, NegInf => false
  | _, PosInf => true
  | PosInf, Fin _ => false
  | Fin x, Fin y => Qle_bool x y
  end.

Definition num_gt (a b : number) : bool := num_lt b a.
Definition num_ge (a b : number) : bool := num_le b a.

(** [ToBoolean]. *)
Definition truthy (v : value) : bool :=
  match v with
  | VUndefined | VNull => false
  | VBool b => b
  | VNum NaN => false
  | VNum (Fin q) => negb (Qeq_bool q 0)
  | VNum _ => true
  | VStr s => negb (s =? EmptyString)
  | VArr _ | VObj _ | VNative _ => true
  end.

Definition falsy (v : value) : bool := negb (truthy v).

(** The prototypes that a datum can reach; every other object of the
    engine's own that it can reach is a function. *)
Definition prototype_objects : list string :=
  ["Object.prototype"; "Array.prototype"; "String.prototype"; "Number.prototype";
   "Boolean.prototype"].

(** The [typeof] operator. *)
Definition typeof (v : value) : string :=
  match v with
  | VUndefined => "undefined"
  | VNull => "object"
  | VBool _ => "boolean"
  | VNum _ => "number"
  | VStr _ => "string"
  | VArr _ | VObj _ => "object"
  | VNative name =>
      if existsb (String.eqb name) prototype_objects then "object" else "function"
  end.

(** [Array.isArray]. *)
Definition isArray (v : value) : bool :=
  match v with
  | VArr _ => true
  | _ => false
  end.

(** A parameter default: it replaces [undefined] and nothing else. *)
Definition default_to (d v : value) : value :=
  match v with
  | VUndefined => d
  | _ => v
  end.

Definition string_of_nat (n : nat) : string :=
  NilZero.string_of_uint (Nat.to_uint n).

Definition string_of_Z (z : Z) : string :=
  NilZero.string_of_int (Z.to_int z).

(** The largest safe integer, [2^53 - 1]. *)
Definition MAX_SAFE_INTEGER : Z := 9007199254740991.

(** [Number::toString]: decimal digits on the safe integers. *)
Definition Number_toString {RT : Runtime} (n : number) : string :=
  match n with
  | NaN => "NaN"
  | PosInf => "Infinity"
  | NegInf => "-Infinity"
  | Fin q =>
      let r := Qred q in
      if (Qden r =? 1)%positive && (Z.abs (Qnum r) <=? MAX_SAFE_INTEGER)%Z
      then string_of_Z (Qnum r)
      else Number_toString_other q
  end.

Definition join (sep : string) (parts : list string) : string :=
  String.concat sep parts.

(** [ToString], as a template literal applies it.  An array prints its
    elements separated by commas, [null] and [undefined] printing as
    nothing; a plain object prints as [[object Object]]. *)
Fixpoint ToString {RT : Runtime} (v : value) : string :=
  match v with
  | VUndefined => "undefined"
  | VNull => "null"
  | VBool true => "true"
  | VBool false => "false"
  | VNum n => Number_toString n
  | VStr s => s
  | VArr elems =>
      join "," (map (fun e => match e with
                              | VUndefined | VNull => EmptyString
                              | _ => ToString e
                              end) elems)
  | VObj _ => "[object Object]"
  | VNative name => Native_toString name
  end.

(** [ToNumber]. *)
Definition ToNumber {RT : Runtime} (v : value) : number :=
  match v with
  | VUndefined => NaN
  | VNull => num_of_Z 0
  | VBool true => num_of_Z 1
  | VBool false => num_of_Z 0
  | VNum n => n
  | VStr s => StringToNumber s
  | VArr _ => StringToNumber (ToString v)
  | VObj _ => NaN
  | VNative name => Native_toNumber name
  end.

(** Own-property lookup in a plain object. *)
Fixpoint lookup (k : string) (fields : list (string * value)) : option value :=
  match fields with
  | [] => None
  | (k', v) :: rest => if k' =? k then Some v else lookup k rest
  end.

(** The array index a property key denotes, if it is one. *)
Definition index_of_key (k : string) : option nat :=
  match NilZero.uint_of_string k with
  | Some u =>
      let i := Nat.of_uint u in
      if string_of_nat i =? k then Some i else None
  | None => None
  end.

(** JavaScript counts and indexes a text by UTF-16 code units.
    [code_units s] lists the code units of [s], each as the text that
    holds it alone: a character of one, two or three bytes is one unit;
    a character of four bytes is two units, the high and the low
    surrogate, each written in three bytes as its code would be.  A
    byte that starts no character is a unit of its own. *)
Definition surrogate (u : N) : string :=
  String (ascii_of_N (224 + u / 4096))
    (String (ascii_of_N (128 + (u / 64) mod 64))
       (String (ascii_of_N (128 + u mod 64)) EmptyString)).

Definition surrogates (b0 b1 b2 b3 : ascii) : list string :=
  let code := ((N_of_ascii b0 mod 8) * 262144 + (N_of_ascii b1 mod 64) * 4096 +
               (N_of_ascii b2 mod 64) * 64 + N_of_ascii b3 mod 64)%N in
  let above := (code - 65536)%N in
  [surrogate (55296 + above / 1024)%N; surrogate (56320 + above mod 1024)%N].

Fixpoint code_units (s : string) : list string :=
  match s with
  | EmptyString => []
  | String b0 rest =>
      let alone := String b0 EmptyString :: code_units rest in
      if (N_of_ascii b0 <? 192)%N then alone
      else if (N_of_ascii b0 <? 224)%N then
        match rest with
        | String b1 rest' => String b0 (String b1 EmptyString) :: code_units rest'
        | _ => alone
        end
      else if (N_of_ascii b0 <? 240)%N then
        match rest with
        | String b1 (String b2 rest') =>
            String b0 (String b1 (String b2 EmptyString)) :: code_units rest'
        | _ => alone
        end
      else
        match rest with
        | String b1 (String b2 (String b3 rest')) =>
            (surrogates b0 b1 b2 b3 ++ code_units rest')%list
        | _ => alone
        end
  end.

(** [s[i]]: the code unit at an index, if the text is that long. *)
Definition char_at (s : string) (i : nat) : option value :=
  option_map VStr (nth_error (code_units s) i).

(** What a datum holds itself under a key: a field of an object, an
    element or the [length] of an array, a code unit or the [length]
    of a text. *)
Definition own_property (v : value) (k : string) : option value :=
  match v with
  | VStr s =>
      if k =? "length" then Some (VNum (num_of_nat (List.length (code_units s))))
      else match index_of_key k with
           | Some i => char_at s i
           | None => None
           end
  | VArr elems =>
      if k =? "length" then Some (VNum (num_of_nat (List.length elems)))
      else match index_of_key k with
           | Some i => nth_error elems i
           | None => None
           end
  | VObj fields => lookup k fields
  | _ => None
  end.

(** Property access [v.k] or [v[k]].  It throws on [null] and
    [undefined]; it finds what the value holds itself, or else what
    its prototypes give, or else [undefined].  The one array among the
    prototypes, [Array.prototype], is the empty array. *)
Definition get_member {RT : Runtime} (v : value) (k : string) : result value :=
  match v with
  | VUndefined =>
      Throw (TypeError ("Cannot read properties of undefined (reading '" ++ k ++ "')"))
  | VNull =>
      Throw (TypeError ("Cannot read properties of null (reading '" ++ k ++ "')"))
  | VNative name => Ok (Native_get name k)
  | _ =>
      match own_property v k with
      | Some x => Ok x
      | None =>
          match Inherited v k with
          | Some name => Ok (if name =? "Array.prototype" then VArr [] else VNative name)
          | None => Ok VUndefined
          end
      end
  end.

(** [s.startsWith(p)]: only a string has the method. *)
Definition startsWith (v : value) (p : string) : result bool :=
  match v with
  | VStr s => Ok (String.prefix p s)
  | VUndefined | VNull =>
      Throw (TypeError "Cannot read properties of undefined (reading 'startsWith')")
  | _ => Throw (TypeError "startsWith is not a function")
  end.

Definition num_eq (a b : number) : bool :=
  match a, b with
  | PosInf, PosInf | NegInf, NegInf => true
  | Fin x, Fin y => Qeq_bool x y
  | _, _ => false
  end.

(** Strict equality [a === b].  Arrays and objects compare by identity;
    wherever the client compares, one operand is a literal or a value
    fresh from the parser, so two of them are never the same object.
    A function or object of the engine's own is the one its name says. *)
Definition strict_eq (a b : value) : bool :=
  match a, b with
  | VUndefined, VUndefined | VNull, VNull => true
  | VBool x, VBool y => Bool.eqb x y
  | VNum x, VNum y => num_eq x y
  | VStr x, VStr y => x =? y
  | VNative x, VNative y => x =? y
  | _, _ => false
  end.

(** [a || b] where evaluating an operand may throw. *)
Definition or_else (a b : result bool) : result bool :=
  rbind a (fun x => if x then Ok true else b).

(** Assignment [obj.k = v] on the fields of a plain object. *)
Fixpoint set_field (k : string) (v : value) (fields : list (string * value))
    : list (string * value) :=
  match fields with
  | [] => [(k, v)]
  | (k', v') :: rest =>
      if k' =? k then (k, v) :: rest else (k', v') :: set_field k v rest
  end.

(** The double-quote character, and a text between two of them. *)
Definition dquote : string := String "034"%char EmptyString.
Definition quoted (s : string) : string := dquote ++ s ++ dquote.

End JS.

(* ================================================================= *)
(** ** The network and the clock *)

Module Net.
Import JS.

(** One [UrlFetchApp.fetch(url, options)] call as it leaves the client. *)
Record request : Type := {
  req_url : string;
  req_method : value;
  req_contentType : string;
  req_muteHttpExceptions : bool;
  req_payload : string;
  req_ApplicationAccessKey : value
}.

(** An [HTTPResponse] with the two getters the client reads. *)
Record HTTPResponse : Type := {
  getResponseCode : Z;
  getContentText : string
}.

(** A call either yields a response, of any status since
    [muteHttpExceptions] is set, or throws. *)
Inductive fetch_outcome : Type :=
| Responds (r : HTTPResponse)
| Fails (e : exn).

(** A transport answers the [n]-th call of a session. *)
Definition transport : Type := nat -> request -> fetch_outcome.

(** What the outside world observes, in order. *)
Inductive event : Type :=
| Fetch (rq : request)
| Sleep (ms : Z).

Definition trace : Type := list event.

Definition is_fetch (ev : event) : bool :=
  match ev with
  | Fetch _ => true
  | Sleep _ => false
  end.

(** The network calls issued so far. *)
Definition calls (tr : trace) : nat := List.length (filter is_fetch tr).

(** How a computation ends: normally, by an exception, or not within
    the steps it was given. *)
Inductive completion (A : Type) : Type :=
| Return (a : A)
| Raise (e : exn)
| Diverge.
Arguments Return {A} a.
Arguments Raise {A} e.
Arguments Diverge {A}.

(** Computations over the trace. *)
Definition M (A : Type) : Type := trace -> completion A * trace.

Definition ret {A : Type} (a : A) : M A := fun tr => (Return a, tr).

Definition throw {A : Type} (e : exn) : M A := fun tr => (Raise e, tr).

Definition diverge {A : Type} : M A := fun tr => (Diverge, tr).

Definition bind {A B : Type} (m : M A) (k : A -> M B) : M B :=
  fun tr =>
    match m tr with
    | (Return a, tr') => k a tr'
    | (Raise e, tr') => (Raise e, tr')
    | (Diverge, tr') => (Diverge, tr')
    end.

(** [try { body } catch (e) { handler e }]. *)
Definition try_catch {A : Type} (body : M A) (handler : exn -> M A) : M A :=
  fun tr =>
    match body tr with
    | (Raise e, tr') => handler e tr'
    | other => other
    end.

Definition lift {A : Type} (r : result A) : M A :=
  match r with
  | Ok a => ret a
  | Throw e => throw e
  end.

Notation "x <- c1 ;; c2" := (bind c1 (fun x => c2))
  (at level 61, c1 at next level, right associativity).
Notation "c1 ;; c2" := (bind c1 (fun _ => c2))
  (at level 61, right associativity).

(** [UrlFetchApp.fetch]: one more call on the trace, answered by the
    transport. *)
Definition UrlFetchApp_fetch (T : transport) (rq : request) : M HTTPResponse :=
  fun tr =>
    match T (calls tr) rq with
    | Responds r => (Return r, (tr ++ [Fetch rq])%list)
    | Fails e => (Raise e, (tr ++ [Fetch rq])%list)
    end.

(** [Utilities.sleep]. *)
Definition Utilities_sleep (ms : Z) : M unit :=
  fun tr => (Return tt, (tr ++ [Sleep ms])%list).

(** [attempts++] on the double that counts the attempts: up to [2^53]
    the next whole number is a double; there the sum rounds back and
    the counter stays. *)
Definition increment (attempts : nat) : nat :=
  if (Z.of_nat attempts <=? MAX_SAFE_INTEGER)%Z then S attempts else attempts.

(** How one turn of the retry loop ends. *)
Inductive turn : Type :=
| Break (response : HTTPResponse)
| Continue (attempts : nat).

(** The retry loop the three scripts share:
<<
    let response; let attempts = 0;
    while (attempts < maxRetries) {
      try { response = UrlFetchApp.fetch(url, options); break; }
      catch (e) {
        attempts++;
        if (attempts >= maxRetries) throw new Error(`... ${maxRetries} attempts: ${e}`);
        Utilities.sleep(500);
      }
    }
>>
    It yields [response], which is still [undefined] (here [None]) when
    the loop body never ran.  [fuel] bounds the turns. *)
Fixpoint retry_loop {RT : Runtime} (T : transport) (rq : request)
    (maxRetries : value) (fuel attempts : nat) : M (option HTTPResponse) :=
  match fuel with
  | O => diverge
  | S fuel' =>
      if num_lt (num_of_nat attempts) (ToNumber maxRetries) then
        step <- try_catch
                  (response <- UrlFetchApp_fetch T rq ;; ret (Break response))
                  (fun e =>
                     let attempts := increment attempts in
                     if num_ge (num_of_nat attempts) (ToNumber maxRetries)
                     then throw (Error ("AppSheet API failed after " ++
                                        ToString maxRetries ++ " attempts: " ++
                                        exn_toString e))
                     else Utilities_sleep 500 ;; ret (Continue attempts)) ;;
        match step with
        | Break response => ret (Some response)
        | Continue attempts => retry_loop T rq maxRetries fuel' attempts
        end
      else ret None
  end.

(** The object every operation returns. *)
Record ApiResponse : Type := {
  code : Z;
  content : value;
  rowsReturned : value
}.

End Net.

(* ================================================================= *)
(** ** The library: [app], [App] and [makeRequest] *)

Module Library.
Import JS Net.

Definition Version : string := "1.0.0".

Definition normalizeRecords (input : value) : value :=
  if negb (truthy input) then VArr []
  else if isArray input then input else VArr [input].

Definition parseRowsReturned {RT : Runtime} (content : value) : result value :=
  if isArray content then get_member content "length"
  else if truthy content then
    rbind (get_member content "rows") (fun rows =>
      if isArray rows then get_member rows "length"
      else Ok (VNum (num_of_Z 0)))
  else Ok (VNum (num_of_Z 0)).

(** An [App] instance is its [CONFIG] object. *)
Record App : Type := {
  CONFIG_appId : value;
  CONFIG_applicationAccessKey : value;
  CONFIG_appsheetRegion : value;
  CONFIG_baseUrl : string;
  CONFIG_maxRetries : value
}.

(** The constructor of [App]. *)
Definition new_App {RT : Runtime}
    (appId applicationAccessKey appsheetRegion maxRetries : value) : App :=
  {| CONFIG_appId := appId;
     CONFIG_applicationAccessKey := applicationAccessKey;
     CONFIG_appsheetRegion := appsheetRegion;
     CONFIG_baseUrl := "https://" ++ ToString appsheetRegion ++
                       "/api/v2/apps/" ++ ToString appId ++ "/tables";
     CONFIG_maxRetries := maxRetries |}.

(** The factory [app], with its two defaulted parameters. *)
Definition app {RT : Runtime}
    (appId applicationAccessKey appsheetRegion maxRetries : value) : result App :=
  let appsheetRegion := default_to (VStr "www.appsheet.com") appsheetRegion in
  let maxRetries := default_to (VNum (num_of_Z 2)) maxRetries in
  rbind (or_else (Ok (negb (truthy appId)))
          (or_else (Ok (negb (typeof appId =? "string")))
             (rbind (get_member appId "length") (fun len =>
                Ok (strict_eq len (VNum (num_of_Z 0))))))) (fun bad_appId =>
  if bad_appId then
    Throw (Error ("[AppSheet] - " ++ quoted "appId" ++
                  " must be a valid string. Received " ++ quoted (typeof appId)))
  else
  rbind (or_else (Ok (negb (truthy applicationAccessKey)))
          (or_else (Ok (negb (typeof applicationAccessKey =? "string")))
             (rbind (get_member applicationAccessKey "length") (fun len =>
                Ok (strict_eq len (VNum (num_of_Z 0))))))) (fun bad_key =>
  if bad_key then
    Throw (Error ("[AppSheet] - " ++ quoted "applicationAccessKey" ++
                  " must be a valid, non-empty string. Received " ++
                  quoted (ToString applicationAccessKey)))
  else
  if negb (strict_eq appsheetRegion (VStr "www.appsheet.com")) &&
     negb (strict_eq appsheetRegion (VStr "eu.appsheet.com")) then
    Throw (Error ("[AppSheet] - " ++ quoted "appsheetRegion" ++
                  " must be either " ++ quoted "www.appsheet.com" ++ " or " ++
                  quoted "eu.appsheet.com" ++ ". Received " ++
                  quoted (ToString appsheetRegion)))
  else
  if negb (typeof maxRetries =? "number") ||
     num_lt (ToNumber maxRetries) (num_of_Z 1) then
    Throw (Error ("[AppSheet] - " ++ quoted "maxRetries" ++
                  " must be a valid non-zero number. Received " ++
                  quoted (ToString maxRetries)))
  else
  Ok (new_App appId applicationAccessKey appsheetRegion maxRetries))).

(** The argument object of [makeRequest]; an omitted key is [undefined]. *)
Record params : Type := {
  baseUrl : value;
  applicationAccessKey : value;
  maxRetries : value;
  table : value;
  action : value;
  rows : value;
  selector : value;
  method : value
}.

(** Lines 242 to 249 of [makeRequest]: the payload object. *)
Definition build_payload (action rows selector : value) : value :=
  let payload := [("Action", action); ("Rows", rows)] in
  let payload :=
    if truthy selector
    then set_field "Properties" (VObj [("Selector", selector)]) payload
    else payload in
  VObj payload.

(** Lines 240 and 251 to 259: the call as it goes out. *)
Definition build_request {RT : Runtime} (baseUrl applicationAccessKey table method : value)
    (payload : value) : request :=
  {| req_url := ToString baseUrl ++ "/" ++ ToString table ++ "/Action";
     req_method := method;
     req_contentType := "application/json";
     req_muteHttpExceptions := true;
     req_payload := JSON_stringify payload;
     req_ApplicationAccessKey := applicationAccessKey |}.

(** Lines 277 to 289: from the response to the returned object. *)
Definition interpret {RT : Runtime} (response : HTTPResponse) : M ApiResponse :=
  let code := getResponseCode response in
  let contentText := getContentText response in
  content <- try_catch (lift (JSON_parse contentText))
               (fun _ => ret (if negb (contentText =? EmptyString)
                              then VStr contentText else VNull)) ;;
  rowsReturned <- lift (parseRowsReturned content) ;;
  ret {| code := code; content := content; rowsReturned := rowsReturned |}.

(** Lines 239 to 259: the destructured arguments with their defaults,
    and the [url] and [options] built from them. *)
Definition options_of {RT : Runtime} (p : params) : request :=
  let rows := default_to (VArr []) (rows p) in
  let selector := default_to VNull (selector p) in
  let method := default_to (VStr "post") (method p) in
  let payload := build_payload (action p) rows selector in
  build_request (baseUrl p) (applicationAccessKey p) (table p) method payload.

Definition makeRequest {RT : Runtime} (T : transport) (fuel : nat) (p : params)
    : M ApiResponse :=
  let options := options_of p in
  response <- retry_loop T options (maxRetries p) fuel 0 ;;
  match response with
  | None =>
      throw (TypeError
               "Cannot read properties of undefined (reading 'getResponseCode')")
  | Some response => interpret response
  end.

(** Lines 89 to 100 of [find]: the selector expression. *)
Definition buildSelector {RT : Runtime}
    (tableName filterCondition orderBy desc limit : value) : result string :=
  let desc := default_to (VBool false) desc in
  let filter := if truthy filterCondition then filterCondition else VStr "TRUE" in
  let selector := "Filter(" ++ ToString tableName ++ ", " ++ ToString filter ++ ")" in
  rbind (if truthy orderBy then
           rbind (startsWith orderBy "[") (fun bracketed =>
             let col := if bracketed then ToString orderBy
                        else "[" ++ ToString orderBy ++ "]" in
             let isAsc := if truthy desc then "FALSE" else "TRUE" in
             Ok ("OrderBy(" ++ selector ++ ", " ++ col ++ ", " ++ isAsc ++ ")"))
         else Ok selector) (fun selector =>
  if (typeof limit =? "number") && num_gt (ToNumber limit) (num_of_Z 0)
  then Ok ("Top(" ++ selector ++ ", " ++ ToString limit ++ ")")
  else Ok selector).

Definition request_of (this : App) (tableName action rows selector : value)
    : params :=
  {| baseUrl := VStr (CONFIG_baseUrl this);
     applicationAccessKey := CONFIG_applicationAccessKey this;
     maxRetries := CONFIG_maxRetries this;
     table := tableName;
     action := action;
     rows := rows;
     selector := selector;
     method := VUndefined |}.

Definition find {RT : Runtime} (T : transport) (fuel : nat) (this : App)
    (tableName filterCondition orderBy desc limit : value) : M ApiResponse :=
  selector <- lift (buildSelector tableName filterCondition orderBy desc limit) ;;
  makeRequest T fuel
    (request_of this tableName (VStr "Find") VUndefined (VStr selector)).

Definition add {RT : Runtime} (T : transport) (fuel : nat) (this : App)
    (tableName records : value) : M ApiResponse :=
  let normalized := normalizeRecords records in
  makeRequest T fuel (request_of this tableName (VStr "Add") normalized VUndefined).

Definition update {RT : Runtime} (T : transport) (fuel : nat) (this : App)
    (tableName records : value) : M ApiResponse :=
  let normalized := normalizeRecords records in
  makeRequest T fuel (request_of this tableName (VStr "Edit") normalized VUndefined).

Definition deleteRows {RT : Runtime} (T : transport) (fuel : nat) (this : App)
    (tableName records : value) : M ApiResponse :=
  let normalized := normalizeRecords records in
  makeRequest T fuel (request_of this tableName (VStr "Delete") normalized VUndefined).

End Library.

(* ================================================================= *)
(** ** The stand-alone script [main.js] *)

Module Script.
Import JS Net.

(** The module-level [CONFIG] object.  The script exports it as
    [_config], so its fields are whatever the caller last stored. *)
Record CONFIG : Type := {
  apiKey : value;
  appId : value;
  region : value;
  maxRetries : value
}.

(** [CONFIG] as the script is loaded. *)
Definition CONFIG_initial : CONFIG :=
  {| apiKey := VStr EmptyString;
     appId := VStr "98c5f507-7163-4f46-ab8b-f946a9839222";
     region := VStr "www.appsheet.com";
     maxRetries := VNum (num_of_Z 2) |}.

(** [BASE_URL] is computed once, from the initial [CONFIG]. *)
Definition BASE_URL {RT : Runtime} : string :=
  "https://" ++ ToString (region CONFIG_initial) ++ "/api/v2/apps/" ++
  ToString (appId CONFIG_initial) ++ "/tables".

(** The argument object of [makeRequest]. *)
Record params : Type := {
  table : value;
  action : value;
  rows : value;
  selector : value;
  method : value
}.

(** Lines 33 to 53 of [makeRequest]: the arguments with their
    defaults, the payload, and the [url] and [options] of the call. *)
Definition options_of {RT : Runtime} (cfg : CONFIG) (p : params) : request :=
  let rows := default_to (VArr []) (rows p) in
  let selector := default_to VNull (selector p) in
  let method := default_to (VStr "post") (method p) in
  let url := BASE_URL ++ "/" ++ ToString (table p) ++ "/Action" in
  let payload := [("Action", action p); ("Rows", rows)] in
  let payload :=
    if truthy selector
    then set_field "Properties" (VObj [("Selector", selector)]) payload
    else payload in
  {| req_url := url;
     req_method := method;
     req_contentType := "application/json";
     req_muteHttpExceptions := true;
     req_payload := JSON_stringify (VObj payload);
     req_ApplicationAccessKey := apiKey cfg |}.

(** Lines 71 to 76: from the response to the returned object.  The
    body is parsed with no handler around it. *)
Definition interpret {RT : Runtime} (response : HTTPResponse) : M ApiResponse :=
  let code := getResponseCode response in
  let contentText := getContentText response in
  content <- lift (JSON_parse contentText) ;;
  rowsReturned <- (if isArray content then lift (get_member content "length")
                   else ret (VNum (num_of_Z 0))) ;;
  ret {| code := code; content := content; rowsReturned := rowsReturned |}.

Definition makeRequest {RT : Runtime} (cfg : CONFIG) (T : transport) (fuel : nat)
    (p : params) : M ApiResponse :=
  let options := options_of cfg p in
  response <- retry_loop T options (maxRetries cfg) fuel 0 ;;
  match response with
  | None =>
      throw (TypeError
               "Cannot read properties of undefined (reading 'getResponseCode')")
  | Some response => interpret response
  end.

(** Lines 90 to 101 of [find]: the selector expression. *)
Definition buildSelector {RT : Runtime}
    (tableName filterCondition orderBy desc limit : value) : result string :=
  let desc := default_to (VBool false) desc in
  let filter := if truthy filterCondition then filterCondition else VStr "TRUE" in
  let selector := "Filter(" ++ ToString tableName ++ ", " ++ ToString filter ++ ")" in
  rbind (if truthy orderBy then
           rbind (startsWith orderBy "[") (fun bracketed =>
             let col := if bracketed then ToString orderBy
                        else "[" ++ ToString orderBy ++ "]" in
             let isAsc := if truthy desc then "FALSE" else "TRUE" in
             Ok ("OrderBy(" ++ selector ++ ", " ++ col ++ ", " ++ isAsc ++ ")"))
         else Ok selector) (fun selector =>
  if (typeof limit =? "number") && num_gt (ToNumber limit) (num_of_Z 0)
  then Ok ("Top(" ++ selector ++ ", " ++ ToString limit ++ ")")
  else Ok selector).

Definition find {RT : Runtime} (cfg : CONFIG) (T : transport) (fuel : nat)
    (tableName filterCondition orderBy desc limit : value) : M ApiResponse :=
  selector <- lift (buildSelector tableName filterCondition orderBy desc limit) ;;
  makeRequest cfg T fuel
    {| table := tableName;
       action := VStr "Find";
       rows := VUndefined;
       selector := VStr selector;
       method := VUndefined |}.

(** The filter condition [findByKey] writes: [[keyColumn] = "keyValue"]. *)
Definition key_filter {RT : Runtime} (keyColumn keyValue : value) : string :=
  "[" ++ ToString keyColumn ++ "] = " ++ dquote ++ ToString keyValue ++ dquote.

(** Lines 127 to 129 of [findByKey]: what becomes of the result of [find]. *)
Definition first_match {RT : Runtime} (result : ApiResponse) : M ApiResponse :=
  if negb (code result =? 200)%Z then ret result
  else
    len <- lift (get_member (content result) "length") ;;
    match_ <- (if num_gt (ToNumber len) (num_of_Z 0)
               then lift (get_member (content result) "0")
               else ret VNull) ;;
    ret {| code := code result;
           content := match_;
           rowsReturned := if truthy match_ then VNum (num_of_Z 1)
                           else VNum (num_of_Z 0) |}.

Definition findByKey {RT : Runtime} (cfg : CONFIG) (T : transport) (fuel : nat)
    (tableName keyColumn keyValue : value) : M ApiResponse :=
  result <- find cfg T fuel tableName (VStr (key_filter keyColumn keyValue))
              VUndefined VUndefined VUndefined ;;
  first_match result.

Definition normalizeRecords (input : value) : value :=
  if negb (truthy input) then VArr []
  else if isArray input then input else VArr [input].

Definition add {RT : Runtime} (cfg : CONFIG) (T : transport) (fuel : nat)
    (tableName records : value) : M ApiResponse :=
  let normalized := normalizeRecords records in
  makeRequest cfg T fuel
    {| table := tableName;
       action := VStr "Add";
       rows := normalized;
       selector := VUndefined;
       method := VUndefined |}.

Definition update {RT : Runtime} (cfg : CONFIG) (T : transport) (fuel : nat)
    (tableName records : value) : M ApiResponse :=
  let normalized := normalizeRecords records in
  makeRequest cfg T fuel
    {| table := tableName;
       action := VStr "Edit";
       rows := normalized;
       selector := VUndefined;
       method := VUndefined |}.

Definition deleteRows {RT : Runtime} (cfg : CONFIG) (T : transport) (fuel : nat)
    (tableName records : value) : M ApiResponse :=
  let normalized := normalizeRecords records in
  makeRequest cfg T fuel
    {| table := tableName;
       action := VStr "Delete";
       rows := normalized;
       selector := VUndefined;
       method := VUndefined |}.

End Script.

(* ================================================================= *)
(** ** The first script, with [findAll] *)

Module Legacy.
Import JS Net.

(** The module-level [CONFIG] object, exported as [_config]. *)
Record CONFIG : Type := {
  apiKey : value;
  appId : value;
  region : value;
  maxRetries : value
}.

(** [CONFIG] as the script is loaded: the three texts are left for the
    user to fill in. *)
Definition CONFIG_initial : CONFIG :=
  {| apiKey := VStr EmptyString;
     appId := VStr EmptyString;
     region := VStr EmptyString;
     maxRetries := VNum (num_of_Z 2) |}.

Definition BASE_URL {RT : Runtime} : string :=
  "https://" ++ ToString (region CONFIG_initial) ++ "/api/v2/apps/" ++
  ToString (appId CONFIG_initial) ++ "/tables".

(** The global [JSONParser] that the script reads and does not define. *)
Inductive JSONParser_binding : Type :=
| Undeclared
| Nullish
| Parser (toParsed : string -> result value).

(** The argument object of [makeRequest]. *)
Record params : Type := {
  table : value;
  action : value;
  rows : value;
  method : value
}.

Definition options_of {RT : Runtime} (cfg : CONFIG) (p : params) : request :=
  let rows := default_to (VArr []) (rows p) in
  let method := default_to (VStr "post") (method p) in
  let url := BASE_URL ++ "/" ++ ToString (table p) ++ "/Action" in
  let payload := JSON_stringify (VObj [("Action", action p); ("Rows", rows)]) in
  {| req_url := url;
     req_method := method;
     req_contentType := "application/json";
     req_muteHttpExceptions := true;
     req_payload := payload;
     req_ApplicationAccessKey := apiKey cfg |}.

(** [JSONParser?.toParsed?.(contentText) ?? contentText]. *)
Definition parsed_or_text (JSONParser : JSONParser_binding) (contentText : string)
    : result value :=
  match JSONParser with
  | Undeclared => Throw (Exn "ReferenceError" "JSONParser is not defined")
  | Nullish => Ok (VStr contentText)
  | Parser toParsed =>
      rbind (toParsed contentText) (fun parsed =>
        match parsed with
        | VUndefined | VNull => Ok (VStr contentText)
        | _ => Ok parsed
        end)
  end.

Definition makeRequest {RT : Runtime} (JSONParser : JSONParser_binding) (cfg : CONFIG)
    (T : transport) (fuel : nat) (p : params) : M ApiResponse :=
  let options := options_of cfg p in
  response <- retry_loop T options (maxRetries cfg) fuel 0 ;;
  match response with
  | None =>
      throw (TypeError
               "Cannot read properties of undefined (reading 'getResponseCode')")
  | Some response =>
      let code := getResponseCode response in
      let contentText := getContentText response in
      content <- lift (parsed_or_text JSONParser contentText) ;;
      rowsReturned <- (if isArray content then lift (get_member content "length")
                       else ret (VNum (num_of_Z 0))) ;;
      ret {| code := code; content := content; rowsReturned := rowsReturned |}
  end.

Definition findAll {RT : Runtime} (JSONParser : JSONParser_binding) (cfg : CONFIG)
    (T : transport) (fuel : nat) (tableOrSlice : value) : M ApiResponse :=
  makeRequest JSONParser cfg T fuel
    {| table := tableOrSlice;
       action := VStr "Find";
       rows := VUndefined;
       method := VUndefined |}.

(** [Array.prototype.find] under a callback that may throw. *)
Fixpoint array_find (callback : value -> result bool) (elems : list value)
    : result value :=
  match elems with
  | [] => Ok VUndefined
  | r :: rest =>
      rbind (callback r) (fun found =>
        if found then Ok r else array_find callback rest)
  end.

(** [content.find(callback)]: only an array has the method. *)
Definition find_method (content : value) (callback : value -> result bool)
    : result value :=
  match content with
  | VArr elems => array_find callback elems
  | VUndefined =>
      Throw (TypeError "Cannot read properties of undefined (reading 'find')")
  | VNull => Throw (TypeError "Cannot read properties of null (reading 'find')")
  | _ => Throw (TypeError "result.content.find is not a function")
  end.

Definition findByKey {RT : Runtime} (JSONParser : JSONParser_binding) (cfg : CONFIG)
    (T : transport) (fuel : nat) (tableName keyColumn keyValue : value)
    : M ApiResponse :=
  result <- findAll JSONParser cfg T fuel tableName ;;
  if negb (code result =? 200)%Z then ret result
  else
    match_ <- lift (find_method (content result) (fun r =>
                rbind (get_member r (ToString keyColumn)) (fun field =>
                  Ok (strict_eq field keyValue)))) ;;
    ret {| code := code result;
           content := if truthy match_ then match_ else VNull;
           rowsReturned := rowsReturned result |}.

Definition normalizeRecords (input : value) : value :=
  if negb (truthy input) then VArr []
  else if isArray input then input else VArr [input].

Definition add {RT : Runtime} (JSONParser : JSONParser_binding) (cfg : CONFIG)
    (T : transport) (fuel : nat) (tableName records : value) : M ApiResponse :=
  let normalized := normalizeRecords records in
  makeRequest JSONParser cfg T fuel
    {| table := tableName;
       action := VStr "Add";
       rows := normalized;
       method := VUndefined |}.

Definition update {RT : Runtime} (JSONParser : JSONParser_binding) (cfg : CONFIG)
    (T : transport) (fuel : nat) (tableName records : value) : M ApiResponse :=
  let normalized := normalizeRecords records in
  makeRequest JSONParser cfg T fuel
    {| table := tableName;
       action := VStr "Edit";
       rows := normalized;
       method := VUndefined |}.

Definition deleteRows {RT : Runtime} (JSONParser : JSONParser_binding) (cfg : CONFIG)
    (T : transport) (fuel : nat) (tableName records : value) : M ApiResponse :=
  let normalized := normalizeRecords records in
  makeRequest JSONParser cfg T fuel
    {| table := tableName;
       action := VStr "Delete";
       rows := normalized;
       method := VUndefined |}.

End Legacy.

(* ================================================================= *)
(** ** The specification's own formulations *)

Module Spec.
Import JS Net.

(** The content of a response: the parsed body, or on a parse failure
    the raw text, or null if the body is empty. *)
Definition content_of (parsed : result value) (body : string) : value :=
  match parsed with
  | Ok v => v
  | Throw _ => if body =? EmptyString then VNull else VStr body
  end.

(** The row count: the length of a sequence, the length of the [rows]
    sequence of a mapping, and zero otherwise. *)
Definition row_count (content : value) : nat :=
  match content with
  | VArr elems => List.length elems
  | VObj fields =>
      match lookup "rows" fields with
      | Some (VArr rows) => List.length rows
      | _ => 0
      end
  | _ => 0
  end.

(** The returned object, from the status and the body of a response. *)
Definition api_response_of {RT : Runtime} (response : HTTPResponse) : ApiResponse :=
  let body := getContentText response in
  let c := content_of (JSON_parse body) body in
  {| code := getResponseCode response;
     content := c;
     rowsReturned := VNum (num_of_nat (row_count c)) |}.

(** What the world sees of [k] failed attempts: each is a call
    followed by the fixed backoff of 500 ms. *)
Definition backoffs (rq : request) (k : nat) : trace :=
  concat (repeat [Fetch rq; Sleep 500] k).

(** The message of the terminal error, from the ceiling and the cause. *)
Definition exhaustion_message {RT : Runtime} (maxRetries : value) (cause : exn)
    : string :=
  "AppSheet API failed after " ++ ToString maxRetries ++ " attempts: " ++
  exn_toString cause.

(** The four requirements on the arguments of the factory. *)
Definition nonempty_string (v : value) : bool :=
  match v with
  | VStr s => negb (s =? EmptyString)
  | _ => false
  end.

Definition accepted_region (v : value) : bool :=
  match v with
  | VStr s => (s =? "www.appsheet.com") || (s =? "eu.appsheet.com")
  | _ => false
  end.

Definition number_at_least_1 (v : value) : bool :=
  match v with
  | VNum n => num_ge n (num_of_Z 1)
  | _ => false
  end.

Definition valid_config (appId accessKey region maxRetries : value) : bool :=
  nonempty_string appId && nonempty_string accessKey &&
  accepted_region region && number_at_least_1 maxRetries.

(** The configuration error, naming the parameter at fault. *)
Definition configuration_error {RT : Runtime} (appId accessKey region maxRetries : value)
    : exn :=
  if negb (nonempty_string appId) then
    Error ("[AppSheet] - " ++ quoted "appId" ++
           " must be a valid string. Received " ++ quoted (typeof appId))
  else if negb (nonempty_string accessKey) then
    Error ("[AppSheet] - " ++ quoted "applicationAccessKey" ++
           " must be a valid, non-empty string. Received " ++
           quoted (ToString accessKey))
  else if negb (accepted_region region) then
    Error ("[AppSheet] - " ++ quoted "appsheetRegion" ++
           " must be either " ++ quoted "www.appsheet.com" ++ " or " ++
           quoted "eu.appsheet.com" ++ ". Received " ++ quoted (ToString region))
  else
    Error ("[AppSheet] - " ++ quoted "maxRetries" ++
           " must be a valid non-zero number. Received " ++
           quoted (ToString maxRetries)).

(** A record: a mapping from column names to values. *)
Definition is_record (v : value) : bool :=
  match v with
  | VObj _ => true
  | _ => false
  end.

(** The first record of a result, or null when there is none, and the
    count that goes with it. *)
Definition first_or_null (rows : list value) : value := hd VNull rows.

Definition one_or_zero (rows : list value) : value :=
  match rows with
  | [] => VNum (num_of_Z 0)
  | _ :: _ => VNum (num_of_Z 1)
  end.

(** A positive number, as the limit of a query must be. *)
Definition positive_number (v : value) : bool :=
  match v with
  | VNum n => num_lt (num_of_Z 0) n
  | _ => false
  end.

(** The selector as the specification composes it, filter then order
    then limit, from a table name, an optional condition, an optional
    column, the descending flag and a limit. *)
Definition selector_of {RT : Runtime} (t : string) (f c : option string) (d : bool)
    (n : value) : string :=
  let base := "Filter(" ++ t ++ ", " ++
              match f with Some cond => cond | None => "TRUE" end ++ ")" in
  let ordered :=
    match c with
    | Some col =>
        "OrderBy(" ++ base ++ ", " ++
        (if String.prefix "[" col then col else "[" ++ col ++ "]") ++ ", " ++
        (if d then "FALSE" else "TRUE") ++ ")"
    | None => base
    end in
  if positive_number n then "Top(" ++ ordered ++ ", " ++ ToString n ++ ")"
  else ordered.

(** An optional string as a JavaScript argument. *)
Definition arg (o : option string) : value :=
  match o with
  | Some s => VStr s
  | None => VUndefined
  end.

(** An optional string that is present and not empty. *)
Definition nonempty (o : option string) : option string :=
  match o with
  | Some s => if s =? EmptyString then None else Some s
  | None => None
  end.

(** Every call that a computation adds to the trace satisfies [P]. *)
Definition every_call {A : Type} (P : request -> Prop) (run : M A) (tr : trace)
    : Prop :=
  exists evs,
    snd (run tr) = (tr ++ evs)%list /\ forall rq, In (Fetch rq) evs -> P rq.

(** A call to the [Action] endpoint of a table: the address, the verb
    and the headers the client sets. *)
Definition table_action {RT : Runtime} (host appId : string) (key t : value)
    (rq : request) : Prop :=
  req_url rq = "https://" ++ host ++ "/api/v2/apps/" ++ appId ++
               "/tables/" ++ ToString t ++ "/Action" /\
  req_method rq = VStr "post" /\
  req_contentType rq = "application/json" /\
  req_muteHttpExceptions rq = true /\
  req_ApplicationAccessKey rq = key.

(** The time spent asleep on a trace, in milliseconds. *)
Fixpoint slept (tr : trace) : Z :=
  match tr with
  | [] => 0
  | Sleep ms :: rest => ms + slept rest
  | Fetch _ :: rest => slept rest
  end.

(** The value a record holds under a column, [undefined] if it has none. *)
Definition column (key : string) (r : value) : value :=
  match r with
  | VObj fields =>
      match lookup key fields with
      | Some x => x
      | None => VUndefined
      end
  | _ => VUndefined
  end.

(** The first record that holds [keyValue] under [key], or null. *)
Definition first_with_key (key : string) (keyValue : value) (rows : list value)
    : value :=
  match List.find (fun r => strict_eq (column key r) keyValue) rows with
  | Some r => r
  | None => VNull
  end.

End Spec.

(* ================================================================= *)
(** ** A small host and a few transports to run the client on *)

Module Fixtures.
Import JS Net.

(** A parser that knows three bodies and rejects every other text. *)
Definition parse_few (s : string) : result value :=
  if s =? "[]" then Ok (VArr [])
  else if s =? "[{},{}]" then Ok (VArr [VObj []; VObj []])
  else if s =? "null" then Ok VNull
  else Throw (SyntaxError "Unexpected token").

(** A printer that only lists the keys of an object. *)
Definition print_keys (v : value) : string :=
  match v with
  | VObj fields => "{" ++ join "," (map fst fields) ++ "}"
  | _ => "null"
  end.

(** The digits of the one fraction used below, [3/2]. *)
Definition print_halves (q : Q) : string :=
  if Qeq_bool q (3 # 2) then "1.5" else "?".

(** The names that the prototypes of the engine hold. *)
Definition Object_prototype : list string :=
  ["constructor"; "__defineGetter__"; "__defineSetter__"; "hasOwnProperty";
   "__lookupGetter__"; "__lookupSetter__"; "isPrototypeOf"; "propertyIsEnumerable";
   "toString"; "valueOf"; "toLocaleString"].

Definition Array_prototype : list string :=
  ["constructor"; "at"; "concat"; "copyWithin"; "fill"; "find"; "findIndex";
   "findLast"; "findLastIndex"; "lastIndexOf"; "pop"; "push"; "reverse"; "shift";
   "unshift"; "slice"; "sort"; "splice"; "includes"; "indexOf"; "join"; "keys";
   "entries"; "values"; "forEach"; "filter"; "flat"; "flatMap"; "map"; "every";
   "some"; "reduce"; "reduceRight"; "toLocaleString"; "toString"; "toReversed";
   "toSorted"; "toSpliced"; "with"].

Definition String_prototype : list string :=
  ["constructor"; "anchor"; "at"; "big"; "blink"; "bold"; "charAt"; "charCodeAt";
   "codePointAt"; "concat"; "endsWith"; "fontcolor"; "fontsize"; "fixed";
   "includes"; "indexOf"; "isWellFormed"; "italics"; "lastIndexOf"; "link";
   "localeCompare"; "match"; "matchAll"; "normalize"; "padEnd"; "padStart";
   "repeat"; "replace"; "replaceAll"; "search"; "slice"; "small"; "split";
   "strike"; "sub"; "substr"; "substring"; "sup"; "startsWith"; "toString";
   "toWellFormed"; "trim"; "trimStart"; "trimLeft"; "trimEnd"; "trimRight";
   "toLocaleLowerCase"; "toLocaleUpperCase"; "toLowerCase"; "toUpperCase";
   "valueOf"; "toLocaleString"].

Definition Number_prototype : list string :=
  ["constructor"; "toExponential"; "toFixed"; "toPrecision"; "toString"; "valueOf";
   "toLocaleString"].

Definition Boolean_prototype : list string :=
  ["constructor"; "toString"; "valueOf"].

(** The class of a datum and the names its own prototype holds. *)
Definition class_of (v : value) : string * list string :=
  match v with
  | VArr _ => ("Array", Array_prototype)
  | VStr _ => ("String", String_prototype)
  | VNum _ => ("Number", Number_prototype)
  | VBool _ => ("Boolean", Boolean_prototype)
  | _ => ("Object", Object_prototype)
  end.

(** What a prototype gives under one of its names: the constructor
    under [constructor], a method of its own otherwise. *)
Definition given_by (class k : string) : string :=
  if k =? "constructor" then class else class ++ ".prototype." ++ k.

(** The chain of a datum: its own prototype, then [Object.prototype];
    [__proto__] reads the former. *)
Definition inherited (v : value) (k : string) : option string :=
  let (class, names) := class_of v in
  if k =? "__proto__" then Some (class ++ ".prototype")
  else if existsb (String.eqb k) names then Some (given_by class k)
  else if existsb (String.eqb k) Object_prototype then Some (given_by "Object" k)
  else None.

(** A function prints as its name around [native code]. *)
Definition print_native (name : string) : string :=
  "function " ++ name ++ "() { [native code] }".

Definition host : Runtime :=
  {| Number_toString_other := print_halves;
     StringToNumber := fun _ => NaN;
     JSON_parse := parse_few;
     JSON_stringify := print_keys;
     Inherited := inherited;
     Native_toString := print_native;
     Native_toNumber := fun _ => NaN;
     Native_get := fun _ _ => VUndefined;
     JSON_parse_data :=
       ltac:(intros s v; unfold parse_few;
             repeat match goal with
                    | |- context [if ?c then _ else _] => destruct c
                    end;
             intros H; inversion H; reflexivity) |}.

Definition ok_200 (body : string) : fetch_outcome :=
  Responds {| getResponseCode := 200; getContentText := body |}.

Definition timeout : exn := Exn "Exception" "Timeout".

(** A transport that is always down. *)
Definition down : transport := fun _ _ => Fails timeout.

(** A transport that fails once and then answers with two rows. *)
Definition flaky : transport :=
  fun n _ => match n with
             | O => Fails timeout
             | _ => ok_200 "[{},{}]"
             end.

(** A transport that rejects every call with status 500 and a page. *)
Definition rejecting : transport :=
  fun _ _ => Responds {| getResponseCode := 500; getContentText := "Server Error" |}.

(** A client for the app [APP], allowed two attempts. *)
Definition two_tries : Library.App :=
  Library.new_App (RT := host) (VStr "APP") (VStr "KEY") (VStr "www.appsheet.com")
    (VNum (num_of_Z 2)).

(** The arguments [find] hands to [makeRequest] for the table [users]. *)
Definition find_users : Library.params :=
  Library.request_of two_tries (VStr "users") (VStr "Find") VUndefined
    (VStr "Filter(users, TRUE)").

Definition two_rows : HTTPResponse :=
  {| getResponseCode := 200; getContentText := "[{},{}]" |}.

(** The same client with the ceiling [1.5]. *)
Definition one_and_a_half : Library.App :=
  Library.new_App (RT := host) (VStr "APP") (VStr "KEY") (VStr "www.appsheet.com")
    (VNum (Fin (3 # 2))).

Definition find_users_eagerly : Library.params :=
  Library.request_of one_and_a_half (VStr "users") (VStr "Find") VUndefined
    (VStr "Filter(users, TRUE)").

(** A transport that answers every call with two rows. *)
Definition answering : transport := fun _ _ => ok_200 "[{},{}]".

(** A parser that also knows the answer to a change, [ack], and a
    table of two users, [users]. *)
Definition parse_more (s : string) : result value :=
  if s =? "ack" then Ok (VObj [("rows", VArr [VObj [("id", VStr "9")]])])
  else if s =? "users"
  then Ok (VArr [VObj [("id", VStr "7"); ("name", VStr "Ann")];
                 VObj [("id", VStr "8"); ("name", VStr "Bob")]])
  else parse_few s.

Definition host_more : Runtime :=
  {| Number_toString_other := print_halves;
     StringToNumber := fun _ => NaN;
     JSON_parse := parse_more;
     JSON_stringify := print_keys;
     Inherited := inherited;
     Native_toString := print_native;
     Native_toNumber := fun _ => NaN;
     Native_get := fun _ _ => VUndefined;
     JSON_parse_data :=
       ltac:(intros s v; unfold parse_more, parse_few;
             repeat match goal with
                    | |- context [if ?c then _ else _] => destruct c
                    end;
             intros H; inversion H; reflexivity) |}.

(** A transport that answers every call with the table of users. *)
Definition serving_users : transport := fun _ _ => ok_200 "users".

End Fixtures.

(* ================================================================= *)
(** ** Facts about the embedded values *)

Import JS Net.

(** A function or object of the engine's own is no number and no text. *)
Lemma typeof_native (name : string) :
  (typeof (VNative name) =? "number") = false /\
  (typeof (VNative name) =? "string") = false.
Proof.
  cbn [typeof]. destruct (existsb (String.eqb name) prototype_objects); split; reflexivity.
Qed.

(** An array holds its length and its first element itself. *)
Lemma array_length {RT : Runtime} (elems : list value) :
  get_member (VArr elems) "length" = Ok (VNum (num_of_nat (List.length elems))).
Proof. reflexivity. Qed.

Lemma array_head {RT : Runtime} (x : value) (elems : list value) :
  get_member (VArr (x :: elems)) "0" = Ok x.
Proof. reflexivity. Qed.

(** A text that is not empty has a first code unit, which is a text
    that is not empty. *)
Lemma code_units_first (ch : ascii) (s : string) :
  exists ch' u us, code_units (String ch s) = String ch' u :: us.
Proof.
  cbn [code_units].
  destruct (N_of_ascii ch <? 192)%N; [do 3 eexists; reflexivity |].
  destruct (N_of_ascii ch <? 224)%N.
  { destruct s as [| b1 s]; do 3 eexists; reflexivity. }
  destruct (N_of_ascii ch <? 240)%N.
  { destruct s as [| b1 [| b2 s]]; do 3 eexists; reflexivity. }
  destruct s as [| b1 [| b2 [| b3 s]]]; do 3 eexists; reflexivity.
Qed.

Lemma text_length {RT : Runtime} (s : string) :
  get_member (VStr s) "length" = Ok (VNum (num_of_nat (List.length (code_units s)))).
Proof. reflexivity. Qed.

Lemma text_head {RT : Runtime} (ch : ascii) (s : string) :
  get_member (VStr (String ch s)) "0" = Ok (hd VUndefined (map VStr (code_units (String ch s)))).
Proof.
  unfold get_member. cbn [own_property String.eqb Ascii.eqb Bool.eqb].
  change (index_of_key "0") with (Some 0). unfold char_at.
  destruct (code_units_first ch s) as (ch' & u & us & ->). reflexivity.
Qed.

Lemma Qle_bool_inject_Z (a b : Z) :
  Qle_bool (inject_Z a) (inject_Z b) = (a <=? b)%Z.
Proof.
  unfold Qle_bool, inject_Z; simpl. now rewrite !Z.mul_1_r.
Qed.

Lemma num_lt_of_nat (a b : nat) :
  num_lt (num_of_nat a) (num_of_nat b) = (a <? b)%nat.
Proof.
  unfold num_of_nat, num_of_Z, num_lt, Qlt_bool.
  rewrite Qle_bool_inject_Z.
  destruct (Nat.ltb_spec a b); destruct (Z.leb_spec (Z.of_nat b) (Z.of_nat a));
    simpl; try reflexivity; lia.
Qed.

Lemma num_le_of_nat (a b : nat) :
  num_le (num_of_nat a) (num_of_nat b) = (a <=? b)%nat.
Proof.
  unfold num_of_nat, num_of_Z, num_le.
  rewrite Qle_bool_inject_Z.
  destruct (Nat.leb_spec a b); destruct (Z.leb_spec (Z.of_nat a) (Z.of_nat b));
    simpl; try reflexivity; lia.
Qed.

(* ================================================================= *)
(** ** The record normalizer *)

(** C8. Every falsy input to [normalizeRecords] yields the empty
    sequence; every truthy input that is not a sequence yields the
    one-element sequence holding that very input; every sequence is
    returned as it came, elements and order untouched. *)
Theorem normalizeRecords_cases (input : value) :
  (truthy input = false -> Library.normalizeRecords input = VArr []) /\
  (truthy input = true -> isArray input = false ->
     Library.normalizeRecords input = VArr [input]) /\
  (forall elems, input = VArr elems ->
     Library.normalizeRecords input = VArr elems).
Proof.
  unfold Library.normalizeRecords. repeat split.
  - intros Hf. now rewrite Hf.
  - intros Ht Ha. now rewrite Ht, Ha.
  - intros elems ->. reflexivity.
Qed.

Lemma normalizeRecords_cases_witness :
  Library.normalizeRecords (VStr EmptyString) = VArr [] /\
  Library.normalizeRecords (VObj [("Name", VStr "Jane Doe")]) =
    VArr [VObj [("Name", VStr "Jane Doe")]] /\
  Library.normalizeRecords (VArr [VNull; VBool true]) = VArr [VNull; VBool true].
Proof.
  split; [| split].
  - apply (proj1 (normalizeRecords_cases (VStr EmptyString))). reflexivity.
  - apply (proj1 (proj2 (normalizeRecords_cases (VObj [("Name", VStr "Jane Doe")]))));
      reflexivity.
  - apply (proj2 (proj2 (normalizeRecords_cases (VArr [VNull; VBool true])))).
    reflexivity.
Defined.

(* ================================================================= *)
(** ** The response interpreter *)

(** What a prototype gives is no array that holds a row. *)
Lemma inherited_holds_no_row {RT : Runtime} (v : value) (k : string) :
  rbind (match Inherited v k with
         | Some name => Ok (if name =? "Array.prototype" then VArr [] else VNative name)
         | None => Ok VUndefined
         end)
    (fun rows => if isArray rows then get_member rows "length"
                 else Ok (VNum (num_of_Z 0))) = Ok (VNum (num_of_Z 0)).
Proof.
  destruct (Inherited v k) as [name |]; [| reflexivity].
  destruct (name =? "Array.prototype"); reflexivity.
Qed.

Lemma parseRowsReturned_row_count {RT : Runtime} (content : value) :
  is_native content = false ->
  Library.parseRowsReturned content = Ok (VNum (num_of_nat (Spec.row_count content))).
Proof.
  intros Hdata. unfold Library.parseRowsReturned.
  destruct content as [ | | b | n | s | elems | fields | name ];
    try discriminate Hdata; try reflexivity.
  - destruct b; [| reflexivity].
    cbn [isArray truthy]. unfold get_member at 1. cbn [own_property].
    apply inherited_holds_no_row.
  - cbn [isArray]. destruct (truthy (VNum n)); [| reflexivity].
    unfold get_member at 1. cbn [own_property]. apply inherited_holds_no_row.
  - cbn [isArray]. destruct (truthy (VStr s)); [| reflexivity].
    unfold get_member at 1. cbn [own_property String.eqb Ascii.eqb Bool.eqb].
    change (index_of_key "rows") with (@None nat).
    apply inherited_holds_no_row.
  - cbn [isArray truthy Spec.row_count]. unfold get_member at 1. cbn [own_property].
    destruct (lookup "rows" fields) as [ [ | | b | n | s | rows | fs | name ] | ];
      try reflexivity.
    apply inherited_holds_no_row.
Qed.

(** The content of a response is a datum: the parsed body, its text,
    or null. *)
Lemma content_is_data {RT : Runtime} (body : string) :
  is_native (Spec.content_of (JSON_parse body) body) = false.
Proof.
  destruct (JSON_parse body) as [v | e] eqn:Hparse; simpl.
  - exact (JSON_parse_data body v Hparse).
  - destruct (body =? EmptyString); reflexivity.
Qed.

(** The returned object, computed in one step from the response. *)
Lemma interpret_returns {RT : Runtime} (response : HTTPResponse) (tr : trace) :
  Library.interpret response tr = (Return (Spec.api_response_of response), tr).
Proof.
  pose proof (content_is_data (getContentText response)) as Hdata.
  unfold Library.interpret, Spec.api_response_of, bind, try_catch, lift.
  destruct (JSON_parse (getContentText response)) as [v | e];
    unfold ret, throw; cbn [Spec.content_of] in *.
  - now rewrite parseRowsReturned_row_count.
  - destruct (getContentText response =? EmptyString); cbn [negb];
      now rewrite parseRowsReturned_row_count.
Qed.

(** C3. Whatever the status and the body, [interpret] completes
    normally and touches neither network nor clock.  The content is
    the parsed body, or on a parse failure the raw text, or null when
    that text is empty; [rowsReturned] is the length of an array
    content, the length of the [rows] array of an object content, and
    zero in every other case, raw text and null among them. *)
Theorem interpret_never_throws {RT : Runtime} (response : HTTPResponse) (tr : trace) :
  exists (c : value) (n : nat),
    Library.interpret response tr =
      (Return {| code := getResponseCode response;
                 content := c;
                 rowsReturned := VNum (num_of_nat n) |}, tr) /\
    (forall v, JSON_parse (getContentText response) = Ok v -> c = v) /\
    (forall e, JSON_parse (getContentText response) = Throw e ->
       (getContentText response = EmptyString -> c = VNull) /\
       (getContentText response <> EmptyString ->
          c = VStr (getContentText response))) /\
    (forall elems, c = VArr elems -> n = List.length elems) /\
    (forall fields rows, c = VObj fields -> lookup "rows" fields = Some (VArr rows) ->
       n = List.length rows) /\
    ((forall elems, c <> VArr elems) ->
     (forall fields rows, c = VObj fields -> lookup "rows" fields <> Some (VArr rows)) ->
     n = 0) /\
    (forall s, c = VStr s -> n = 0) /\
    (c = VNull -> n = 0).
Proof.
  eexists; eexists. split; [apply interpret_returns |].
  set (body := getContentText response).
  split; [| split; [| split; [| split; [| split; [| split]]]]].
  - intros v Hparse. now rewrite Hparse.
  - intros e Hparse. rewrite Hparse. simpl. split.
    + intros Hempty. now rewrite Hempty.
    + intros Hne. destruct (body =? EmptyString) eqn:E; [| reflexivity].
      apply String.eqb_eq in E. contradiction.
  - intros elems Hc. now rewrite Hc.
  - intros fields rows Hc Hrows. rewrite Hc. simpl. now rewrite Hrows.
  - intros Harr Hobj.
    destruct (Spec.content_of (JSON_parse body) body)
      as [ | | b | m | s | elems | fields | name ] eqn:E; try reflexivity.
    + now destruct (Harr elems).
    + simpl.
      destruct (lookup "rows" fields) as [ [ | | b | m | s | rows | fs | name ] | ] eqn:L;
        try reflexivity.
      now destruct (Hobj fields rows eq_refl).
  - intros s Hc. now rewrite Hc.
  - intros Hc. now rewrite Hc.
Qed.

Lemma interpret_never_throws_witness :
  exists (c : value) (n : nat),
    Library.interpret (RT := Fixtures.host) Fixtures.two_rows [] =
      (Return {| code := 200; content := c; rowsReturned := VNum (num_of_nat n) |},
       []) /\
    c = VArr [VObj []; VObj []] /\ n = 2.
Proof.
  destruct (interpret_never_throws (RT := Fixtures.host) Fixtures.two_rows [])
    as (c & n & Hrun & Hparsed & _ & Harray & _).
  exists c, n. split; [exact Hrun |].
  assert (Hc : c = VArr [VObj []; VObj []]) by (apply Hparsed; reflexivity).
  split; [exact Hc |]. exact (Harray _ Hc).
Defined.

(* ================================================================= *)
(** ** The retry loop *)

Lemma calls_app (tr1 tr2 : trace) :
  calls (tr1 ++ tr2)%list = calls tr1 + calls tr2.
Proof. unfold calls. now rewrite filter_app, length_app. Qed.

Lemma calls_backoffs (rq : request) (k : nat) : calls (Spec.backoffs rq k) = k.
Proof.
  induction k as [| k IH]; [reflexivity |].
  unfold Spec.backoffs in *. simpl. unfold calls in *. simpl. now rewrite IH.
Qed.

Lemma backoffs_succ (rq : request) (k : nat) :
  Spec.backoffs rq (S k) = ([Fetch rq; Sleep 500] ++ Spec.backoffs rq k)%list.
Proof. reflexivity. Qed.

Section RetryLoop.
Context {RT : Runtime} (T : transport) (rq : request) (maxRetries : value).

(** One turn of the loop, spelled out. *)
Lemma retry_loop_turn (fuel attempts : nat) (tr : trace) :
  retry_loop T rq maxRetries (S fuel) attempts tr =
    if num_lt (num_of_nat attempts) (ToNumber maxRetries) then
      match T (calls tr) rq with
      | Responds r => (Return (Some r), (tr ++ [Fetch rq])%list)
      | Fails e =>
          if num_ge (num_of_nat (increment attempts)) (ToNumber maxRetries)
          then (Raise (Error (Spec.exhaustion_message maxRetries e)),
                (tr ++ [Fetch rq])%list)
          else retry_loop T rq maxRetries fuel (increment attempts)
                 (tr ++ [Fetch rq; Sleep 500])%list
      end
    else (Return None, tr).
Proof.
  cbn [retry_loop].
  destruct (num_lt (num_of_nat attempts) (ToNumber maxRetries)); [| reflexivity].
  unfold bind, try_catch, UrlFetchApp_fetch, ret, throw, Utilities_sleep.
  destruct (T (calls tr) rq) as [r | e]; [reflexivity |].
  destruct (num_ge (num_of_nat (increment attempts)) (ToNumber maxRetries));
    [reflexivity |].
  now rewrite <- app_assoc.
Qed.

(** The shape of every run: [k] failed attempts with their backoffs,
    and then either nothing more, or one last call that is answered,
    or one last call whose failure exhausts the ceiling. *)
Lemma retry_loop_shape (fuel : nat) : forall (attempts : nat) (tr : trace) out tr',
  retry_loop T rq maxRetries fuel attempts tr = (out, tr') ->
  exists k,
    (forall i, i < k -> exists e, T (calls tr + i) rq = Fails e) /\
    (((out = Diverge \/ out = Return None) /\
      tr' = (tr ++ Spec.backoffs rq k)%list) \/
     (exists r, T (calls tr + k) rq = Responds r /\ out = Return (Some r) /\
                tr' = (tr ++ Spec.backoffs rq k ++ [Fetch rq])%list) \/
     (exists e, T (calls tr + k) rq = Fails e /\
                out = Raise (Error (Spec.exhaustion_message maxRetries e)) /\
                tr' = (tr ++ Spec.backoffs rq k ++ [Fetch rq])%list)).
Proof.
  induction fuel as [| fuel IH]; intros attempts tr out tr' Hrun.
  - inversion Hrun; subst. exists 0. split; [intros i Hi; lia |].
    left. split; [now left |]. simpl. now rewrite app_nil_r.
  - rewrite retry_loop_turn in Hrun.
    destruct (num_lt (num_of_nat attempts) (ToNumber maxRetries)).
    + destruct (T (calls tr) rq) as [r | e] eqn:HT.
      * inversion Hrun; subst. exists 0. split; [intros i Hi; lia |].
        right; left. exists r. rewrite Nat.add_0_r. now repeat split.
      * destruct (num_ge (num_of_nat (increment attempts)) (ToNumber maxRetries)).
        -- inversion Hrun; subst. exists 0. split; [intros i Hi; lia |].
           right; right. exists e. rewrite Nat.add_0_r. now repeat split.
        -- apply IH in Hrun. destruct Hrun as (k & Hfail & Hend).
           assert (Hc : calls (tr ++ [Fetch rq; Sleep 500])%list = S (calls tr)).
           { rewrite calls_app. simpl. unfold calls at 2. simpl. lia. }
           rewrite Hc in *.
           exists (S k). split.
           ++ intros [| i] Hi.
              ** rewrite Nat.add_0_r. now exists e.
              ** replace (calls tr + S i) with (S (calls tr) + i) by lia.
                 apply Hfail. lia.
           ++ replace (calls tr + S k) with (S (calls tr) + k) by lia.
              rewrite backoffs_succ.
              repeat rewrite <- app_assoc in Hend.
              repeat rewrite <- app_assoc. exact Hend.
    + inversion Hrun; subst. exists 0. split; [intros i Hi; lia |].
      left. split; [now right |]. simpl. now rewrite app_nil_r.
Qed.

End RetryLoop.

Lemma calls_after_backoff (rq : request) (tr : trace) :
  calls (tr ++ [Fetch rq; Sleep 500])%list = S (calls tr).
Proof. rewrite calls_app. unfold calls at 2. simpl. lia. Qed.

(** Below [2^53] the counter counts. *)
Lemma increment_counts (attempts : nat) :
  (Z.of_nat attempts < 9007199254740992)%Z -> increment attempts = S attempts.
Proof.
  intros Hbelow. unfold increment, MAX_SAFE_INTEGER.
  destruct (Z.leb_spec (Z.of_nat attempts) 9007199254740991); [reflexivity | lia].
Qed.

(** The loop under a whole ceiling [n], as a count of attempts is: a
    whole number that the counter can reach, [2^53] at most. *)
Section WholeCeiling.
Context {RT : Runtime} (T : transport) (rq : request) (n : nat).
Hypothesis reachable : (Z.of_nat n <= 9007199254740992)%Z.

(** [k] failures below the ceiling and then an answer: the answer is
    what the loop yields, after [k + 1] calls. *)
Lemma retry_loop_succeeds (k : nat) : forall (fuel attempts : nat) (tr : trace) r,
  attempts + k < n -> k < fuel ->
  (forall i, i < k -> exists e, T (calls tr + i) rq = Fails e) ->
  T (calls tr + k) rq = Responds r ->
  retry_loop T rq (VNum (num_of_nat n)) fuel attempts tr =
    (Return (Some r), (tr ++ Spec.backoffs rq k ++ [Fetch rq])%list).
Proof.
  induction k as [| k IH]; intros fuel attempts tr r Hlt Hfuel Hfail Hok;
    (destruct fuel as [| fuel]; [lia |]);
    rewrite retry_loop_turn; change (ToNumber (VNum (num_of_nat n))) with (num_of_nat n);
    rewrite num_lt_of_nat;
    (destruct (Nat.ltb_spec attempts n) as [_ | Hge]; [| lia]).
  - rewrite Nat.add_0_r in Hok. now rewrite Hok.
  - destruct (Hfail 0 ltac:(lia)) as [e He]. rewrite Nat.add_0_r in He. rewrite He.
    rewrite increment_counts by lia.
    unfold num_ge. rewrite num_le_of_nat.
    destruct (Nat.leb_spec n (S attempts)) as [Hle | _]; [lia |].
    rewrite (IH fuel (S attempts) _ r).
    + rewrite backoffs_succ. now repeat rewrite <- app_assoc.
    + lia.
    + lia.
    + intros i Hi. rewrite calls_after_backoff.
      replace (S (calls tr) + i) with (calls tr + S i) by lia. apply Hfail. lia.
    + rewrite calls_after_backoff.
      now replace (S (calls tr) + k) with (calls tr + S k) by lia.
Qed.

(** Failures all the way up to the ceiling: the loop gives up with the
    terminal error, which carries the cause of the last attempt. *)
Lemma retry_loop_exhausts (m : nat) : forall (fuel attempts : nat) (tr : trace),
  attempts + S m = n -> m < fuel ->
  (forall i, i <= m -> exists e, T (calls tr + i) rq = Fails e) ->
  exists e, T (calls tr + m) rq = Fails e /\
    retry_loop T rq (VNum (num_of_nat n)) fuel attempts tr =
      (Raise (Error (Spec.exhaustion_message (VNum (num_of_nat n)) e)),
       (tr ++ Spec.backoffs rq m ++ [Fetch rq])%list).
Proof.
  induction m as [| m IH]; intros fuel attempts tr Hsum Hfuel Hfail;
    (destruct fuel as [| fuel]; [lia |]);
    rewrite retry_loop_turn; change (ToNumber (VNum (num_of_nat n))) with (num_of_nat n);
    rewrite num_lt_of_nat;
    (destruct (Nat.ltb_spec attempts n) as [_ | Hge]; [| lia]);
    destruct (Hfail 0 ltac:(lia)) as [e He]; rewrite Nat.add_0_r in He; rewrite He;
    rewrite increment_counts by lia;
    unfold num_ge; rewrite num_le_of_nat.
  - destruct (Nat.leb_spec n (S attempts)) as [_ | Hlt]; [| lia].
    exists e. rewrite Nat.add_0_r. split; [exact He | reflexivity].
  - destruct (Nat.leb_spec n (S attempts)) as [Hle | _]; [lia |].
    destruct (IH fuel (S attempts) (tr ++ [Fetch rq; Sleep 500])%list)
      as (e' & He' & Hrun).
    + lia.
    + lia.
    + intros i Hi. rewrite calls_after_backoff.
      replace (S (calls tr) + i) with (calls tr + S i) by lia. apply Hfail. lia.
    + rewrite calls_after_backoff in He'.
      replace (S (calls tr) + m) with (calls tr + S m) in He' by lia.
      exists e'. split; [exact He' |]. rewrite Hrun.
      rewrite backoffs_succ. now repeat rewrite <- app_assoc.
Qed.

(** Whatever the transport does, the loop issues at most the calls
    that the ceiling leaves. *)
Lemma retry_loop_bounded (fuel : nat) : forall (attempts : nat) (tr : trace) out tr',
  retry_loop T rq (VNum (num_of_nat n)) fuel attempts tr = (out, tr') ->
  calls tr' <= calls tr + (n - attempts).
Proof.
  induction fuel as [| fuel IH]; intros attempts tr out tr' Hrun.
  - inversion Hrun; subst. lia.
  - rewrite retry_loop_turn in Hrun.
    change (ToNumber (VNum (num_of_nat n))) with (num_of_nat n) in Hrun.
    rewrite num_lt_of_nat in Hrun.
    destruct (Nat.ltb_spec attempts n) as [Hlt | Hge].
    + destruct (T (calls tr) rq) as [r | e].
      * inversion Hrun; subst. rewrite calls_app. unfold calls at 2. simpl. lia.
      * rewrite increment_counts in Hrun by lia.
        destruct (num_ge (num_of_nat (S attempts)) (num_of_nat n)).
        -- inversion Hrun; subst. rewrite calls_app. unfold calls at 2. simpl. lia.
        -- apply IH in Hrun. rewrite calls_after_backoff in Hrun. lia.
    + inversion Hrun; subst. lia.
Qed.

End WholeCeiling.

(* ================================================================= *)
(** ** The request executor *)

Lemma Qred_inject_Z (z : Z) : Qred (inject_Z z) = inject_Z z.
Proof.
  unfold Qred, inject_Z.
  pose proof (Z.ggcd_correct_divisors z 1) as Hd.
  pose proof (Z.ggcd_gcd z 1) as Hg.
  destruct (Z.ggcd z 1) as [g [aa bb]]. simpl in *.
  rewrite Z.gcd_1_r in Hg. subst g. destruct Hd as [Ha Hb].
  rewrite Z.mul_1_l in Ha, Hb. subst. reflexivity.
Qed.

(** A whole number within the safe integers prints as its digits. *)
Lemma ToString_whole {RT : Runtime} (n : nat) :
  (Z.of_nat n <= MAX_SAFE_INTEGER)%Z ->
  ToString (VNum (num_of_nat n)) = string_of_Z (Z.of_nat n).
Proof.
  intros Hsafe. cbn [ToString]. unfold Number_toString, num_of_nat, num_of_Z.
  rewrite Qred_inject_Z. cbn [inject_Z Qnum Qden].
  rewrite Pos.eqb_refl, Z.abs_eq by lia.
  destruct (Z.leb_spec (Z.of_nat n) MAX_SAFE_INTEGER); [reflexivity | lia].
Qed.

(** [makeRequest] is the loop followed by the interpreter. *)
Lemma makeRequest_after_loop {RT : Runtime} (T : transport) (fuel : nat)
    (p : Library.params) (tr : trace) :
  Library.makeRequest T fuel p tr =
    match retry_loop T (Library.options_of p) (Library.maxRetries p) fuel 0 tr with
    | (Return (Some r), tr') => (Return (Spec.api_response_of r), tr')
    | (Return None, tr') =>
        (Raise (TypeError
                  "Cannot read properties of undefined (reading 'getResponseCode')"),
         tr')
    | (Raise e, tr') => (Raise e, tr')
    | (Diverge, tr') => (Diverge, tr')
    end.
Proof.
  unfold Library.makeRequest, bind.
  destruct (retry_loop T (Library.options_of p) (Library.maxRetries p) fuel 0 tr)
    as [[[r |] | e |] tr']; try reflexivity.
  apply interpret_returns.
Qed.

(** The script's [makeRequest] is the same loop followed by its own
    reading of the response. *)
Lemma script_makeRequest_after_loop {RT : Runtime} (cfg : Script.CONFIG)
    (T : transport) (fuel : nat) (p : Script.params) (tr : trace) :
  Script.makeRequest cfg T fuel p tr =
    match retry_loop T (Script.options_of cfg p) (Script.maxRetries cfg) fuel 0 tr with
    | (Return (Some r), tr') => Script.interpret r tr'
    | (Return None, tr') =>
        (Raise (TypeError
                  "Cannot read properties of undefined (reading 'getResponseCode')"),
         tr')
    | (Raise e, tr') => (Raise e, tr')
    | (Diverge, tr') => (Diverge, tr')
    end.
Proof.
  unfold Script.makeRequest, bind.
  destruct (retry_loop T (Script.options_of cfg p) (Script.maxRetries cfg) fuel 0 tr)
    as [[[r |] | e |] tr']; reflexivity.
Qed.

(** The script's reading of a response whose body parses. *)
Lemma script_interpret_parsed {RT : Runtime} (r : HTTPResponse) (v : value)
    (tr : trace) :
  JSON_parse (getContentText r) = Ok v ->
  Script.interpret r tr =
    (Return {| code := getResponseCode r;
               content := v;
               rowsReturned :=
                 VNum (num_of_nat (match v with
                                   | VArr elems => List.length elems
                                   | _ => 0
                                   end)) |}, tr).
Proof.
  intros Hparse. unfold Script.interpret, bind, lift. rewrite Hparse.
  unfold ret at 1. destruct v; reflexivity.
Qed.

(** Reading a response adds no event, in the library and in the script. *)
Lemma interpret_is_silent {RT : Runtime} (r : HTTPResponse) (tr : trace) :
  snd (Library.interpret r tr) = tr /\ snd (Script.interpret r tr) = tr.
Proof.
  split; [now rewrite interpret_returns |].
  unfold Script.interpret, bind, lift.
  destruct (JSON_parse (getContentText r)) as [v | e]; [| reflexivity].
  unfold ret at 1. destruct (isArray v); [| reflexivity].
  destruct (get_member v "length"); reflexivity.
Qed.

Lemma calls_after_attempts (rq : request) (tr : trace) (k : nat) :
  calls (tr ++ Spec.backoffs rq k ++ [Fetch rq])%list = calls tr + (k + 1).
Proof. rewrite !calls_app, calls_backoffs. unfold calls at 2. simpl. lia. Qed.

(** The script's reading of a response whose body does not parse. *)
Lemma script_interpret_unparsed {RT : Runtime} (r : HTTPResponse) (e : exn)
    (tr : trace) :
  JSON_parse (getContentText r) = Throw e ->
  Script.interpret r tr = (Raise e, tr).
Proof.
  intros Hparse. unfold Script.interpret, bind, lift. now rewrite Hparse.
Qed.

(** C1, for a ceiling that is a whole number [n] from 1 to [2^53],
    as far as the counter of attempts, a double, counts.  When the
    transport throws on the first [k < n] attempts and answers the next
    one, the library's [makeRequest] returns the object read off that
    answer after exactly [k + 1] calls; when the transport throws on
    all of the first [n] attempts it raises the terminal error after
    exactly [n] calls, the message naming the ceiling, in digits, and
    the cause of the last attempt; and no run, finished or not, issues
    more than [n] calls.  The script [main.js] runs the same loop: the
    counts and the terminal error are the same; after the [k + 1] calls
    it returns the object read off the answer when the body parses as
    JSON, and throws what [JSON.parse] threw when it does not. *)
Theorem attempts_bounded_by_maxRetries {RT : Runtime} (T : transport) (n : nat)
    (tr : trace) :
  1 <= n ->
  (Z.of_nat n <= 9007199254740992)%Z ->
  (forall p : Library.params,
     Library.maxRetries p = VNum (num_of_nat n) ->
     (forall k r fuel,
        k < n -> k < fuel ->
        (forall i, i < k ->
           exists e, T (calls tr + i) (Library.options_of p) = Fails e) ->
        T (calls tr + k) (Library.options_of p) = Responds r ->
        exists tr',
          Library.makeRequest T fuel p tr = (Return (Spec.api_response_of r), tr') /\
          calls tr' = calls tr + (k + 1)) /\
     (forall fuel,
        n <= fuel ->
        (forall i, i < n ->
           exists e, T (calls tr + i) (Library.options_of p) = Fails e) ->
        exists e tr',
          T (calls tr + (n - 1)) (Library.options_of p) = Fails e /\
          Library.makeRequest T fuel p tr =
            (Raise (Error ("AppSheet API failed after " ++
                           ToString (VNum (num_of_nat n)) ++
                           " attempts: " ++ exn_toString e)), tr') /\
          calls tr' = calls tr + n /\
          ((Z.of_nat n <= MAX_SAFE_INTEGER)%Z ->
           ToString (VNum (num_of_nat n)) = string_of_Z (Z.of_nat n))) /\
     (forall fuel out tr',
        Library.makeRequest T fuel p tr = (out, tr') -> calls tr' <= calls tr + n)) /\
  (forall (cfg : Script.CONFIG) (p : Script.params),
     Script.maxRetries cfg = VNum (num_of_nat n) ->
     (forall k r fuel,
        k < n -> k < fuel ->
        (forall i, i < k ->
           exists e, T (calls tr + i) (Script.options_of cfg p) = Fails e) ->
        T (calls tr + k) (Script.options_of cfg p) = Responds r ->
        exists tr',
          calls tr' = calls tr + (k + 1) /\
          (forall v, JSON_parse (getContentText r) = Ok v ->
             Script.makeRequest cfg T fuel p tr =
               (Return {| code := getResponseCode r;
                          content := v;
                          rowsReturned :=
                            VNum (num_of_nat (match v with
                                              | VArr elems => List.length elems
                                              | _ => 0
                                              end)) |}, tr')) /\
          (forall e, JSON_parse (getContentText r) = Throw e ->
             Script.makeRequest cfg T fuel p tr = (Raise e, tr'))) /\
     (forall fuel,
        n <= fuel ->
        (forall i, i < n ->
           exists e, T (calls tr + i) (Script.options_of cfg p) = Fails e) ->
        exists e tr',
          T (calls tr + (n - 1)) (Script.options_of cfg p) = Fails e /\
          Script.makeRequest cfg T fuel p tr =
            (Raise (Error ("AppSheet API failed after " ++
                           ToString (VNum (num_of_nat n)) ++
                           " attempts: " ++ exn_toString e)), tr') /\
          calls tr' = calls tr + n) /\
     (forall fuel out tr',
        Script.makeRequest cfg T fuel p tr = (out, tr') -> calls tr' <= calls tr + n)).
Proof.
  intros Hn Hreach. split.
  - intros p Hmax. split; [| split].
    + intros k r fuel Hk Hfuel Hfail Hok.
      eexists. rewrite makeRequest_after_loop, Hmax.
      rewrite (retry_loop_succeeds T _ n Hreach k fuel 0 tr r) by (assumption || lia).
      split; [reflexivity | apply calls_after_attempts].
    + intros fuel Hfuel Hfail.
      destruct (retry_loop_exhausts T (Library.options_of p) n Hreach (n - 1) fuel 0 tr)
        as (e & He & Hrun); [lia | lia | intros i Hi; apply Hfail; lia |].
      exists e. eexists. split; [exact He |].
      rewrite makeRequest_after_loop, Hmax, Hrun.
      split; [reflexivity |]. split.
      * rewrite calls_after_attempts. lia.
      * apply ToString_whole.
    + intros fuel out tr' Hrun.
      rewrite makeRequest_after_loop, Hmax in Hrun.
      destruct (retry_loop T (Library.options_of p) (VNum (num_of_nat n)) fuel 0 tr)
        as [out0 tr0] eqn:Hloop.
      apply (retry_loop_bounded T _ n Hreach) in Hloop. rewrite Nat.sub_0_r in Hloop.
      destruct out0 as [[r |] | e |]; inversion Hrun; subst; exact Hloop.
  - intros cfg p Hmax. split; [| split].
    + intros k r fuel Hk Hfuel Hfail Hok.
      exists (tr ++ Spec.backoffs (Script.options_of cfg p) k ++
              [Fetch (Script.options_of cfg p)])%list.
      split; [apply calls_after_attempts |].
      rewrite script_makeRequest_after_loop, Hmax.
      rewrite (retry_loop_succeeds T _ n Hreach k fuel 0 tr r) by (assumption || lia).
      split.
      * intros v Hparse. apply (script_interpret_parsed r v _ Hparse).
      * intros e Hparse. apply (script_interpret_unparsed r e _ Hparse).
    + intros fuel Hfuel Hfail.
      destruct (retry_loop_exhausts T (Script.options_of cfg p) n Hreach (n - 1) fuel 0
                  tr)
        as (e & He & Hrun); [lia | lia | intros i Hi; apply Hfail; lia |].
      exists e. eexists. split; [exact He |].
      rewrite script_makeRequest_after_loop, Hmax, Hrun.
      split; [reflexivity |]. rewrite calls_after_attempts. lia.
    + intros fuel out tr' Hrun.
      rewrite script_makeRequest_after_loop, Hmax in Hrun.
      destruct (retry_loop T (Script.options_of cfg p) (VNum (num_of_nat n)) fuel 0 tr)
        as [out0 tr0] eqn:Hloop.
      apply (retry_loop_bounded T _ n Hreach) in Hloop. rewrite Nat.sub_0_r in Hloop.
      destruct out0 as [[r |] | e |].
      * assert (Hsnd : snd (Script.interpret r tr0) = tr0)
          by apply interpret_is_silent.
        rewrite Hrun in Hsnd. simpl in Hsnd. subst. exact Hloop.
      * inversion Hrun; subst; exact Hloop.
      * inversion Hrun; subst; exact Hloop.
      * inversion Hrun; subst; exact Hloop.
Qed.

Lemma attempts_bounded_by_maxRetries_witness :
  (exists tr',
     Library.makeRequest (RT := Fixtures.host) Fixtures.flaky 2 Fixtures.find_users [] =
       (Return {| code := 200;
                  content := VArr [VObj []; VObj []];
                  rowsReturned := VNum (num_of_nat 2) |}, tr') /\
     calls tr' = 2) /\
  (exists tr',
     Library.makeRequest (RT := Fixtures.host) Fixtures.down 2 Fixtures.find_users [] =
       (Raise (Error "AppSheet API failed after 2 attempts: Exception: Timeout"), tr') /\
     calls tr' = 2) /\
  (forall out tr',
     Library.makeRequest (RT := Fixtures.host) Fixtures.rejecting 5 Fixtures.find_users [] =
       (out, tr') -> calls tr' <= 2).
Proof.
  split; [| split].
  - destruct (attempts_bounded_by_maxRetries (RT := Fixtures.host) Fixtures.flaky
                2 [] ltac:(lia) ltac:(lia)) as [Hlib _].
    destruct (Hlib Fixtures.find_users eq_refl) as [Hok _].
    destruct (Hok 1 Fixtures.two_rows 2) as (tr' & Hrun & Hcalls).
    + lia.
    + lia.
    + intros i Hi. exists Fixtures.timeout.
      destruct i as [| i]; [reflexivity | lia].
    + reflexivity.
    + exists tr'. split; [exact Hrun | exact Hcalls].
  - destruct (attempts_bounded_by_maxRetries (RT := Fixtures.host) Fixtures.down
                2 [] ltac:(lia) ltac:(lia)) as [Hlib _].
    destruct (Hlib Fixtures.find_users eq_refl) as (_ & Hdown & _).
    destruct (Hdown 2) as (e & tr' & He & Hrun & Hcalls & _).
    + lia.
    + intros i _. exists Fixtures.timeout. reflexivity.
    + exists tr'. split; [| exact Hcalls].
      rewrite Hrun. inversion He. reflexivity.
  - intros out tr'.
    destruct (attempts_bounded_by_maxRetries (RT := Fixtures.host) Fixtures.rejecting
                2 [] ltac:(lia) ltac:(lia)) as [Hlib _].
    destruct (Hlib Fixtures.find_users eq_refl) as (_ & _ & Hbound).
    apply Hbound.
Defined.

(** C1 as the claim words it, for every ceiling of at least 1, fails
    on a ceiling that is not whole.  [app] accepts 1.5; against a
    transport that is down the client then makes two attempts, more
    than the ceiling, before it reports a failure after 1.5 attempts. *)
Lemma fractional_ceiling_is_exceeded :
  Library.app (RT := Fixtures.host) (VStr "APP") (VStr "KEY") VUndefined
    (VNum (Fin (3 # 2))) = Ok Fixtures.one_and_a_half /\
  num_ge (Fin (3 # 2)) (num_of_Z 1) = true /\
  Library.makeRequest (RT := Fixtures.host) Fixtures.down 5
    Fixtures.find_users_eagerly [] =
    (Raise (Error "AppSheet API failed after 1.5 attempts: Exception: Timeout"),
     [Fetch (Library.options_of (RT := Fixtures.host) Fixtures.find_users_eagerly);
      Sleep 500;
      Fetch (Library.options_of (RT := Fixtures.host) Fixtures.find_users_eagerly)]) /\
  calls [Fetch (Library.options_of (RT := Fixtures.host) Fixtures.find_users_eagerly);
         Sleep 500;
         Fetch (Library.options_of (RT := Fixtures.host) Fixtures.find_users_eagerly)] = 2 /\
  num_lt (Fin (3 # 2)) (num_of_nat 2) = true.
Proof. repeat split. Qed.

(** Every run of [makeRequest], finished or not, in terms of the loop:
    [k] failed attempts with their backoffs, then at most one more call. *)
Lemma makeRequest_shape {RT : Runtime} (T : transport) (fuel : nat)
    (p : Library.params) (tr : trace) out tr' :
  Library.makeRequest T fuel p tr = (out, tr') ->
  exists k,
    (forall i, i < k -> exists e, T (calls tr + i) (Library.options_of p) = Fails e) /\
    ((tr' = (tr ++ Spec.backoffs (Library.options_of p) k)%list /\
      forall a, out <> Return a) \/
     (exists r, T (calls tr + k) (Library.options_of p) = Responds r /\
                out = Return (Spec.api_response_of r) /\
                tr' = (tr ++ Spec.backoffs (Library.options_of p) k ++
                       [Fetch (Library.options_of p)])%list) \/
     (exists e, T (calls tr + k) (Library.options_of p) = Fails e /\
                out = Raise (Error (Spec.exhaustion_message (Library.maxRetries p) e)) /\
                tr' = (tr ++ Spec.backoffs (Library.options_of p) k ++
                       [Fetch (Library.options_of p)])%list)).
Proof.
  intros Hrun. rewrite makeRequest_after_loop in Hrun.
  destruct (retry_loop T (Library.options_of p) (Library.maxRetries p) fuel 0 tr)
    as [out0 tr0] eqn:Hloop.
  apply retry_loop_shape in Hloop. destruct Hloop as (k & Hfail & Hend).
  exists k. split; [exact Hfail |].
  destruct Hend as [[[-> | ->] ->] | [(r & Hr & -> & ->) | (e & He & -> & ->)]];
    inversion Hrun; subst.
  - left. split; [reflexivity | discriminate].
  - left. split; [reflexivity | discriminate].
  - right; left. exists r. now repeat split.
  - right; right. exists e. now repeat split.
Qed.

(** C5. In every run of [makeRequest], a call that the transport
    answers with a response, of whatever status, is the last thing the
    run does: it is the final call, the trace ends with it, and the run
    completes normally with the object read off that response, whose
    code is the status received.  A further call is issued only after
    a call that threw. *)
Theorem no_call_after_a_response {RT : Runtime} (T : transport) (fuel : nat)
    (p : Library.params) (tr : trace) out tr' :
  Library.makeRequest T fuel p tr = (out, tr') ->
  (forall i r,
     calls tr <= i < calls tr' ->
     T i (Library.options_of p) = Responds r ->
     S i = calls tr' /\
     (exists before, tr' = (before ++ [Fetch (Library.options_of p)])%list) /\
     (exists answer, out = Return answer /\ code answer = getResponseCode r)) /\
  (forall i,
     calls tr <= i -> S i < calls tr' ->
     exists e, T i (Library.options_of p) = Fails e).
Proof.
  intros Hrun. apply makeRequest_shape in Hrun.
  destruct Hrun as (k & Hfail & Hend).
  assert (Hearly : forall i, calls tr <= i < calls tr + k ->
                     exists e, T i (Library.options_of p) = Fails e).
  { intros i Hi. replace i with (calls tr + (i - calls tr)) by lia.
    apply Hfail. lia. }
  assert (Hcalls : forall rq, calls (tr ++ Spec.backoffs rq k ++ [Fetch rq])%list =
                              calls tr + k + 1).
  { intros rq. rewrite !calls_app, calls_backoffs. unfold calls at 2. simpl. lia. }
  destruct Hend as [[-> Hnot] | [(r0 & Hr0 & -> & ->) | (e0 & He0 & -> & ->)]].
  - rewrite calls_app, calls_backoffs. split.
    + intros i r Hi Hr. destruct (Hearly i Hi) as [e He]. congruence.
    + intros i Hlo Hhi. apply Hearly. lia.
  - rewrite Hcalls. split.
    + intros i r Hi Hr.
      destruct (Nat.eq_dec i (calls tr + k)) as [-> | Hne].
      * rewrite Hr0 in Hr. inversion Hr; subst r0. split; [lia |]. split.
        -- exists (tr ++ Spec.backoffs (Library.options_of p) k)%list.
           now rewrite app_assoc.
        -- eexists. split; reflexivity.
      * destruct (Hearly i ltac:(lia)) as [e He]. congruence.
    + intros i Hlo Hhi. apply Hearly. lia.
  - rewrite Hcalls. split.
    + intros i r Hi Hr.
      destruct (Nat.eq_dec i (calls tr + k)) as [-> | Hne]; [congruence |].
      destruct (Hearly i ltac:(lia)) as [e He]. congruence.
    + intros i Hlo Hhi. apply Hearly. lia.
Qed.

Lemma no_call_after_a_response_witness :
  Library.makeRequest (RT := Fixtures.host) Fixtures.rejecting 2 Fixtures.find_users [] =
    (Return {| code := 500;
               content := VStr "Server Error";
               rowsReturned := VNum (num_of_nat 0) |},
     [Fetch (Library.options_of (RT := Fixtures.host) Fixtures.find_users)]) /\
  1 = calls [Fetch (Library.options_of (RT := Fixtures.host) Fixtures.find_users)] /\
  (exists answer,
     Return {| code := 500;
               content := VStr "Server Error";
               rowsReturned := VNum (num_of_nat 0) |} = Return answer /\
     code answer = 500%Z).
Proof.
  assert (Hrun :
    Library.makeRequest (RT := Fixtures.host) Fixtures.rejecting 2 Fixtures.find_users [] =
      (Return {| code := 500;
                 content := VStr "Server Error";
                 rowsReturned := VNum (num_of_nat 0) |},
       [Fetch (Library.options_of (RT := Fixtures.host) Fixtures.find_users)]))
    by reflexivity.
  split; [exact Hrun |].
  destruct (no_call_after_a_response (RT := Fixtures.host) _ _ _ _ _ _ Hrun)
    as [Hlast _].
  destruct (Hlast 0 {| getResponseCode := 500; getContentText := "Server Error" |})
    as (Hone & _ & Hanswer).
  - unfold calls; simpl; lia.
  - reflexivity.
  - split; [exact Hone | exact Hanswer].
Defined.

(* ================================================================= *)
(** ** The wire payload *)

Lemma In_backoffs (rq : request) (k : nat) (ev : event) :
  In ev (Spec.backoffs rq k) -> ev = Fetch rq \/ ev = Sleep 500.
Proof.
  induction k as [| k IH]; simpl; [tauto |].
  intros [<- | [<- | Hin]]; auto.
Qed.

(** Every call of one run of the loop is the same request. *)
Lemma retry_loop_same_request {RT : Runtime} (T : transport) (rq : request)
    (maxRetries : value) (fuel attempts : nat) (tr : trace) :
  exists evs,
    snd (retry_loop T rq maxRetries fuel attempts tr) = (tr ++ evs)%list /\
    forall rq', In (Fetch rq') evs -> rq' = rq.
Proof.
  destruct (retry_loop T rq maxRetries fuel attempts tr) as [out tr'] eqn:Hrun.
  apply retry_loop_shape in Hrun. destruct Hrun as (k & _ & Hend).
  assert (Hback : forall rq', In (Fetch rq') (Spec.backoffs rq k) -> rq' = rq).
  { intros rq' Hin. apply In_backoffs in Hin. destruct Hin as [Heq | Heq]; congruence. }
  assert (Hlast : forall rq',
            In (Fetch rq') (Spec.backoffs rq k ++ [Fetch rq])%list -> rq' = rq).
  { intros rq' Hin. apply in_app_or in Hin. destruct Hin as [Hin | [Heq | []]].
    - now apply Hback.
    - congruence. }
  destruct Hend as [[_ ->] | [(r & _ & _ & ->) | (e & _ & _ & ->)]]; simpl;
    eexists; (split; [reflexivity | assumption]).
Qed.

Lemma makeRequest_calls {RT : Runtime} (T : transport) (fuel : nat)
    (p : Library.params) (tr : trace) :
  exists evs,
    snd (Library.makeRequest T fuel p tr) = (tr ++ evs)%list /\
    forall rq, In (Fetch rq) evs -> rq = Library.options_of p.
Proof.
  destruct (retry_loop_same_request T (Library.options_of p) (Library.maxRetries p)
              fuel 0 tr) as (evs & Htr & Hrq).
  exists evs. split; [| exact Hrq].
  rewrite makeRequest_after_loop.
  destruct (retry_loop T (Library.options_of p) (Library.maxRetries p) fuel 0 tr)
    as [[[r |] | e |] tr']; exact Htr.
Qed.

Lemma script_makeRequest_calls {RT : Runtime} (cfg : Script.CONFIG) (T : transport)
    (fuel : nat) (p : Script.params) (tr : trace) :
  exists evs,
    snd (Script.makeRequest cfg T fuel p tr) = (tr ++ evs)%list /\
    forall rq, In (Fetch rq) evs -> rq = Script.options_of cfg p.
Proof.
  destruct (retry_loop_same_request T (Script.options_of cfg p) (Script.maxRetries cfg)
              fuel 0 tr) as (evs & Htr & Hrq).
  exists evs. split; [| exact Hrq].
  rewrite script_makeRequest_after_loop.
  destruct (retry_loop T (Script.options_of cfg p) (Script.maxRetries cfg) fuel 0 tr)
    as [[[r |] | e |] tr']; try exact Htr.
  simpl in Htr. subst tr'. apply interpret_is_silent.
Qed.

(** C6. For an action, rows and a selector as the caller passes them
    (an omitted one is [undefined]; rows default to the empty array and
    the selector to null), the payload is the object with [Action] and
    [Rows], in that order, followed by [Properties] holding the
    selector exactly when the selector is truthy.  So [Properties]
    appears only when a selector was supplied, it is absent when none
    was supplied ([undefined] or [null]), and it never holds null.
    Every call of a run of [makeRequest], in the library and in the
    script, carries that object, serialized. *)
Theorem properties_only_with_selector {RT : Runtime} (action rows selector : value) :
  exists fields,
    Library.build_payload action (default_to (VArr []) rows)
      (default_to VNull selector) = VObj fields /\
    fields = ([("Action", action); ("Rows", default_to (VArr []) rows)] ++
              (if truthy selector
               then [("Properties", VObj [("Selector", selector)])]
               else []))%list /\
    (forall x, lookup "Properties" fields = Some x ->
       x = VObj [("Selector", selector)] /\
       selector <> VUndefined /\ selector <> VNull) /\
    (selector = VUndefined \/ selector = VNull ->
     lookup "Properties" fields = None) /\
    lookup "Properties" fields <> Some VNull /\
    (forall (T : transport) (fuel : nat) (p : Library.params) (tr : trace),
       Library.action p = action -> Library.rows p = rows ->
       Library.selector p = selector ->
       exists evs,
         snd (Library.makeRequest T fuel p tr) = (tr ++ evs)%list /\
         forall rq, In (Fetch rq) evs ->
                    req_payload rq = JSON_stringify (VObj fields)) /\
    (forall (cfg : Script.CONFIG) (T : transport) (fuel : nat) (p : Script.params)
            (tr : trace),
       Script.action p = action -> Script.rows p = rows ->
       Script.selector p = selector ->
       exists evs,
         snd (Script.makeRequest cfg T fuel p tr) = (tr ++ evs)%list /\
         forall rq, In (Fetch rq) evs ->
                    req_payload rq = JSON_stringify (VObj fields)).
Proof.
  eexists. split; [reflexivity |].
  assert (Hsel : truthy (default_to VNull selector) = truthy selector).
  { destruct selector; reflexivity. }
  assert (Hval : truthy selector = true -> default_to VNull selector = selector).
  { destruct selector; simpl; congruence. }
  rewrite Hsel. split.
  { destruct (truthy selector) eqn:Ht; simpl; [| reflexivity]. now rewrite Hval. }
  split; [| split; [| split; [| split]]].
  - destruct (truthy selector) eqn:Ht; simpl.
    + rewrite Hval by reflexivity. intros x Hx. split; [congruence |].
      split; intros Heq; rewrite Heq in Ht; discriminate Ht.
    + intros x Hx. discriminate Hx.
  - destruct (truthy selector) eqn:Ht; simpl; [| reflexivity].
    intros [Heq | Heq]; rewrite Heq in Ht; discriminate Ht.
  - destruct (truthy selector); simpl; discriminate.
  - intros T fuel p tr <- <- <-.
    destruct (makeRequest_calls T fuel p tr) as (evs & Htr & Hrq).
    exists evs. split; [exact Htr |].
    intros rq Hin. rewrite (Hrq rq Hin).
    unfold Library.options_of, Library.build_request, Library.build_payload.
    cbn [req_payload]. now rewrite Hsel.
  - intros cfg T fuel p tr <- <- <-.
    destruct (script_makeRequest_calls cfg T fuel p tr) as (evs & Htr & Hrq).
    exists evs. split; [exact Htr |].
    intros rq Hin. rewrite (Hrq rq Hin).
    unfold Script.options_of. cbn [req_payload]. now rewrite Hsel.
Qed.

Lemma properties_only_with_selector_witness :
  (exists fields,
     Library.build_payload (VStr "Find") (VArr []) (VStr "Filter(users, TRUE)") =
       VObj fields /\
     lookup "Properties" fields =
       Some (VObj [("Selector", VStr "Filter(users, TRUE)")])) /\
  (exists fields,
     Library.build_payload (VStr "Add") (VArr [VObj []]) VNull = VObj fields /\
     lookup "Properties" fields = None).
Proof.
  split.
  - destruct (properties_only_with_selector (RT := Fixtures.host) (VStr "Find")
                VUndefined (VStr "Filter(users, TRUE)"))
      as (fields & Hbuilt & Hfields & _).
    exists fields. split; [exact Hbuilt |]. rewrite Hfields. reflexivity.
  - destruct (properties_only_with_selector (RT := Fixtures.host) (VStr "Add")
                (VArr [VObj []]) VUndefined)
      as (fields & Hbuilt & _ & _ & Habsent & _).
    exists fields. split; [exact Hbuilt |]. apply Habsent. now left.
Defined.

(* ================================================================= *)
(** ** The selector of [find] *)

(** The library and the script build the selector by the same text. *)
Lemma buildSelector_same {RT : Runtime} (t f c d n : value) :
  Script.buildSelector t f c d n = Library.buildSelector t f c d n.
Proof. reflexivity. Qed.

(** The selector of the library on well-typed arguments: an empty
    condition or column counts as none. *)
Lemma buildSelector_typed {RT : Runtime} (t : string) (f c : option string)
    (d : bool) (n : value) :
  Library.buildSelector (VStr t) (Spec.arg f) (Spec.arg c) (VBool d) n =
    Ok (Spec.selector_of t (Spec.nonempty f) (Spec.nonempty c) d n).
Proof.
  unfold Library.buildSelector, Spec.selector_of.
  assert (Hlimit : (typeof n =? "number") && num_gt (ToNumber n) (num_of_Z 0) =
                   Spec.positive_number n).
  { destruct n as [ | | b | m | s | l | fs | name ]; try reflexivity.
    now rewrite (proj1 (typeof_native name)). }
  rewrite Hlimit. cbn [default_to truthy].
  destruct f as [f |], c as [c |]; cbn [Spec.arg Spec.nonempty truthy ToString];
    try destruct (f =? EmptyString); try destruct (c =? EmptyString);
    cbn [negb rbind startsWith ToString];
    try destruct (String.prefix "[" c); destruct d;
    destruct (Spec.positive_number n); reflexivity.
Qed.

(** C2, as the code has it. The selector is composed in the order
    filter, order, limit.  The base is [Filter(t, f)], with the literal
    [TRUE] for a condition that is absent or empty.  A column that is
    given and not empty wraps the base as [OrderBy(base, [c], TRUE)]
    when [d] is false and [OrderBy(base, [c], FALSE)] when [d] is true,
    bracketing [c] unless it starts with a bracket; an absent or empty
    column adds no [OrderBy].  A limit that is a number above zero
    wraps the result as [Top(expr, n)], and nothing else adds a [Top].
    The library and the script agree, and
    [buildSelector("T", "X=1", "name", false, 5)] is
    [Top(OrderBy(Filter(T, X=1), [name], TRUE), 5)]. *)
Theorem selector_filter_order_limit {RT : Runtime} (t : string) (f c : option string)
    (d : bool) (n : value) :
  Library.buildSelector (VStr t) (Spec.arg f) (Spec.arg c) (VBool d) n =
    Ok (Spec.selector_of t (Spec.nonempty f) (Spec.nonempty c) d n) /\
  Script.buildSelector (VStr t) (Spec.arg f) (Spec.arg c) (VBool d) n =
    Ok (Spec.selector_of t (Spec.nonempty f) (Spec.nonempty c) d n) /\
  Library.buildSelector (VStr "T") (VStr "X=1") (VStr "name") (VBool false)
    (VNum (num_of_Z 5)) = Ok "Top(OrderBy(Filter(T, X=1), [name], TRUE), 5)".
Proof.
  split; [| split].
  - apply buildSelector_typed.
  - rewrite buildSelector_same. apply buildSelector_typed.
  - reflexivity.
Qed.

(** C2 as the claim words it fails on an empty condition and on an
    empty column: the claim keeps both, the code drops both. *)
Lemma selector_keeps_no_empty_part :
  Library.buildSelector (RT := Fixtures.host) (VStr "T") (Spec.arg (Some EmptyString))
    (Spec.arg None) (VBool false) VUndefined = Ok "Filter(T, TRUE)" /\
  Spec.selector_of (RT := Fixtures.host) "T" (Some EmptyString) None false VUndefined =
    "Filter(T, )" /\
  Library.buildSelector (RT := Fixtures.host) (VStr "T") (Spec.arg (Some "X=1"))
    (Spec.arg (Some EmptyString)) (VBool false) VUndefined = Ok "Filter(T, X=1)" /\
  Spec.selector_of (RT := Fixtures.host) "T" (Some "X=1") (Some EmptyString) false
    VUndefined = "OrderBy(Filter(T, X=1), [], TRUE)" /\
  ("Filter(T, TRUE)" =? "Filter(T, )") = false /\
  ("Filter(T, X=1)" =? "OrderBy(Filter(T, X=1), [], TRUE)") = false.
Proof. repeat split. Qed.

(** C9. [find] puts the default condition [TRUE] in place of every
    falsy condition, not only of an omitted one: with a falsy condition
    the library and the script build the selector, and run the whole
    [find], exactly as they do with no condition at all; and the empty
    string gives [Filter(table, TRUE)]. *)
Theorem falsy_filter_is_no_filter {RT : Runtime} (T : transport) (fuel : nat)
    (this : Library.App) (cfg : Script.CONFIG) (t f c d n : value) :
  truthy f = false ->
  Library.buildSelector t f c d n = Library.buildSelector t VUndefined c d n /\
  Script.buildSelector t f c d n = Script.buildSelector t VUndefined c d n /\
  Library.find T fuel this t f c d n = Library.find T fuel this t VUndefined c d n /\
  Script.find cfg T fuel t f c d n = Script.find cfg T fuel t VUndefined c d n /\
  Library.buildSelector t (VStr EmptyString) VUndefined VUndefined VUndefined =
    Ok ("Filter(" ++ ToString t ++ ", TRUE)") /\
  Script.buildSelector t (VStr EmptyString) VUndefined VUndefined VUndefined =
    Ok ("Filter(" ++ ToString t ++ ", TRUE)").
Proof.
  intros Hf.
  assert (Hsel : Library.buildSelector t f c d n =
                 Library.buildSelector t VUndefined c d n).
  { unfold Library.buildSelector. now rewrite Hf. }
  assert (Hsel' : Script.buildSelector t f c d n =
                  Script.buildSelector t VUndefined c d n).
  { now rewrite !buildSelector_same. }
  repeat split.
  - exact Hsel.
  - exact Hsel'.
  - unfold Library.find. now rewrite Hsel.
  - unfold Script.find. now rewrite Hsel'.
Qed.

Lemma falsy_filter_is_no_filter_witness :
  Library.buildSelector (RT := Fixtures.host) (VStr "users") (VStr EmptyString)
    VUndefined VUndefined VUndefined = Ok "Filter(users, TRUE)" /\
  Library.buildSelector (RT := Fixtures.host) (VStr "users") (VNum (num_of_Z 0))
    VUndefined VUndefined VUndefined =
  Library.buildSelector (RT := Fixtures.host) (VStr "users") VUndefined
    VUndefined VUndefined VUndefined.
Proof.
  split.
  - apply (falsy_filter_is_no_filter (RT := Fixtures.host) Fixtures.down 0
             Fixtures.two_tries Script.CONFIG_initial (VStr "users")
             (VStr EmptyString) VUndefined VUndefined VUndefined eq_refl).
  - apply (falsy_filter_is_no_filter (RT := Fixtures.host) Fixtures.down 0
             Fixtures.two_tries Script.CONFIG_initial (VStr "users")
             (VNum (num_of_Z 0)) VUndefined VUndefined VUndefined eq_refl).
Defined.

(* ================================================================= *)
(** ** [findByKey] *)

Lemma append_assoc (a b c : string) : (a ++ b) ++ c = a ++ (b ++ c).
Proof. induction a as [| ch a IH]; simpl; [reflexivity | now rewrite IH]. Qed.

(** The selector [findByKey] has [find] send. *)
Lemma key_selector {RT : Runtime} (t keyColumn keyValue : value) :
  Script.buildSelector t (VStr (Script.key_filter keyColumn keyValue))
    VUndefined VUndefined VUndefined =
  Ok ("Filter(" ++ ToString t ++ ", " ++ Script.key_filter keyColumn keyValue ++ ")").
Proof. reflexivity. Qed.

(** C10. [findByKey] writes its filter condition by plain
    concatenation: for strings [keyColumn] and [keyValue] it is exactly
    [[] then [keyColumn] then [] = "] then [keyValue] then ["], and
    that text reaches the selector as it is.  Nothing is escaped: a
    double quote inside [keyValue] ends the quoted literal, so the
    condition for [a"rest] is the whole condition for [a] followed by
    [rest"] as further expression text. *)
Theorem key_filter_is_plain_concatenation {RT : Runtime} (cfg : Script.CONFIG)
    (T : transport) (fuel : nat) (t : value) (keyColumn keyValue : string) :
  Script.key_filter (VStr keyColumn) (VStr keyValue) =
    "[" ++ keyColumn ++ "] = " ++ dquote ++ keyValue ++ dquote /\
  Script.findByKey cfg T fuel t (VStr keyColumn) (VStr keyValue) =
    bind (Script.find cfg T fuel t
            (VStr ("[" ++ keyColumn ++ "] = " ++ dquote ++ keyValue ++ dquote))
            VUndefined VUndefined VUndefined)
         Script.first_match /\
  Script.buildSelector t (VStr (Script.key_filter (VStr keyColumn) (VStr keyValue)))
    VUndefined VUndefined VUndefined =
    Ok ("Filter(" ++ ToString t ++ ", [" ++ keyColumn ++ "] = " ++
        dquote ++ keyValue ++ dquote ++ ")") /\
  (forall a rest,
     keyValue = a ++ dquote ++ rest ->
     Script.key_filter (VStr keyColumn) (VStr keyValue) =
       Script.key_filter (VStr keyColumn) (VStr a) ++ rest ++ dquote).
Proof.
  split; [reflexivity |]. split; [reflexivity |]. split.
  - rewrite key_selector. unfold Script.key_filter. cbn [ToString].
    now rewrite !append_assoc.
  - intros a rest ->. unfold Script.key_filter. cbn [ToString].
    now rewrite !append_assoc.
Qed.

Lemma key_filter_is_plain_concatenation_witness :
  Script.key_filter (RT := Fixtures.host) (VStr "id") (VStr ("x" ++ dquote ++ "y")) =
  Script.key_filter (RT := Fixtures.host) (VStr "id") (VStr "x") ++ "y" ++ dquote.
Proof.
  apply (key_filter_is_plain_concatenation (RT := Fixtures.host) Script.CONFIG_initial
           Fixtures.down 0 (VStr "users") "id" ("x" ++ dquote ++ "y")).
  reflexivity.
Defined.

(** An injected condition, spelled out: the key value [x" OR "1"="1]
    yields the condition [[id] = "x" OR "1"="1"]. *)
Lemma key_filter_injection :
  Script.key_filter (RT := Fixtures.host) (VStr "id")
    (VStr ("x" ++ dquote ++ " OR " ++ quoted "1" ++ "=" ++ dquote ++ "1")) =
  "[id] = " ++ quoted "x" ++ " OR " ++ quoted "1" ++ "=" ++ quoted "1".
Proof. reflexivity. Qed.

(** What [first_match] makes of a successful result holding rows. *)
Lemma first_match_rows {RT : Runtime} (result : ApiResponse) (rows : list value)
    (tr : trace) :
  code result = 200%Z ->
  content result = VArr rows ->
  forallb Spec.is_record rows = true ->
  Script.first_match result tr =
    (Return {| code := 200;
               content := Spec.first_or_null rows;
               rowsReturned := Spec.one_or_zero rows |}, tr).
Proof.
  intros Hcode Hcontent Hrec. unfold Script.first_match.
  rewrite Hcode, Hcontent. cbn [Z.eqb Pos.eqb negb].
  unfold bind, lift. rewrite array_length.
  unfold ret at 1. cbn [ToNumber].
  change (num_gt (num_of_nat (Datatypes.length rows)) (num_of_Z 0))
    with (num_lt (num_of_nat 0) (num_of_nat (Datatypes.length rows))).
  rewrite num_lt_of_nat.
  destruct rows as [| row rest]; [reflexivity |].
  cbn [Datatypes.length Nat.ltb Nat.leb]. rewrite array_head.
  simpl in Hrec. apply andb_true_iff in Hrec. destruct Hrec as [Hrow _].
  destruct row; try discriminate Hrow. reflexivity.
Qed.

(** C4. [findByKey] is a [find] on the condition
    [[keyColumn] = "keyValue"] followed by a reading of its result that
    touches neither network nor clock.  A result whose code is not 200
    is returned as it is.  A result of code 200 whose content is a
    sequence of records comes back with the first record as content, or
    null when the sequence is empty, and with [rowsReturned] set to 1
    in the first case and to 0 in the second. *)
Theorem findByKey_first_match_of_find {RT : Runtime} (cfg : Script.CONFIG)
    (T : transport) (fuel : nat) (t keyColumn keyValue : value) (tr : trace) :
  Script.key_filter keyColumn keyValue =
    "[" ++ ToString keyColumn ++ "] = " ++ dquote ++ ToString keyValue ++ dquote /\
  Script.findByKey cfg T fuel t keyColumn keyValue =
    bind (Script.find cfg T fuel t (VStr (Script.key_filter keyColumn keyValue))
            VUndefined VUndefined VUndefined)
         Script.first_match /\
  (forall result tr',
     Script.find cfg T fuel t (VStr (Script.key_filter keyColumn keyValue))
       VUndefined VUndefined VUndefined tr = (Return result, tr') ->
     (code result <> 200%Z ->
      Script.findByKey cfg T fuel t keyColumn keyValue tr = (Return result, tr')) /\
     (code result = 200%Z ->
      forall rows,
        content result = VArr rows -> forallb Spec.is_record rows = true ->
        Script.findByKey cfg T fuel t keyColumn keyValue tr =
          (Return {| code := 200;
                     content := Spec.first_or_null rows;
                     rowsReturned := Spec.one_or_zero rows |}, tr'))) /\
  (forall out tr',
     Script.find cfg T fuel t (VStr (Script.key_filter keyColumn keyValue))
       VUndefined VUndefined VUndefined tr = (out, tr') ->
     snd (Script.findByKey cfg T fuel t keyColumn keyValue tr) = tr').
Proof.
  split; [reflexivity |]. split; [reflexivity |]. split.
  - intros result tr' Hfind. split.
    + intros Hcode. unfold Script.findByKey, bind at 1. rewrite Hfind.
      unfold Script.first_match.
      destruct (Z.eqb_spec (code result) 200) as [Heq | _]; [contradiction |].
      reflexivity.
    + intros Hcode rows Hcontent Hrec.
      unfold Script.findByKey, bind at 1. rewrite Hfind.
      now apply first_match_rows.
  - intros out tr' Hfind. unfold Script.findByKey, bind at 1. rewrite Hfind.
    destruct out as [result | e |]; try reflexivity.
    unfold Script.first_match.
    destruct (negb (code result =? 200)%Z); [reflexivity |].
    unfold bind, lift.
    destruct (get_member (content result) "length") as [len | e]; [| reflexivity].
    unfold ret at 1.
    destruct (num_gt (ToNumber len) (num_of_Z 0)); [| reflexivity].
    destruct (get_member (content result) "0"); reflexivity.
Qed.

Lemma findByKey_first_match_of_find_witness :
  exists tr',
    Script.findByKey (RT := Fixtures.host) Script.CONFIG_initial Fixtures.flaky 2
      (VStr "users") (VStr "id") (VStr "7") [] =
      (Return {| code := 200; content := VObj []; rowsReturned := VNum (num_of_Z 1) |},
       tr') /\
    calls tr' = 2.
Proof.
  destruct (findByKey_first_match_of_find (RT := Fixtures.host) Script.CONFIG_initial
              Fixtures.flaky 2 (VStr "users") (VStr "id") (VStr "7") [])
    as (_ & _ & Hread & _).
  eexists. split.
  - refine (proj2 (Hread {| code := 200;
                            content := VArr [VObj []; VObj []];
                            rowsReturned := VNum (num_of_nat 2) |} _ _)
                  eq_refl [VObj []; VObj []] eq_refl eq_refl).
    reflexivity.
  - reflexivity.
Defined.

(* ================================================================= *)
(** ** The factory [app] *)

(** The first test of [app] on [appId] and on the access key. *)
Lemma rejects_all_but_nonempty_strings {RT : Runtime} (v : value) :
  or_else (Ok (negb (truthy v)))
    (or_else (Ok (negb (typeof v =? "string")))
       (rbind (get_member v "length") (fun len =>
          Ok (strict_eq len (VNum (num_of_Z 0)))))) =
  Ok (negb (Spec.nonempty_string v)).
Proof.
  destruct v as [ | | b | n | s | elems | fields | name ]; try reflexivity.
  - destruct b; reflexivity.
  - destruct n as [ | | | q ]; try reflexivity.
    simpl. destruct (Qeq_bool q 0); reflexivity.
  - destruct s as [| ch s]; [reflexivity |].
    rewrite text_length. destruct (code_units_first ch s) as (ch' & u & us & ->).
    reflexivity.
  - cbn [truthy negb or_else rbind]. now rewrite (proj2 (typeof_native name)).
Qed.

Lemma rejects_other_regions (v : value) :
  negb (strict_eq v (VStr "www.appsheet.com")) &&
  negb (strict_eq v (VStr "eu.appsheet.com")) = negb (Spec.accepted_region v).
Proof.
  destruct v; try reflexivity. simpl. now rewrite negb_orb.
Qed.

Lemma rejects_numbers_below_1 {RT : Runtime} (v : value) :
  v <> VNum NaN ->
  negb (typeof v =? "number") || num_lt (ToNumber v) (num_of_Z 1) =
  negb (Spec.number_at_least_1 v).
Proof.
  intros Hnan. destruct v as [ | | b | n | s | elems | fields | name ];
    try reflexivity.
  - destruct n as [ | | | q ]; try reflexivity.
    now destruct Hnan.
  - now rewrite (proj1 (typeof_native name)).
Qed.

(** [app] in one step, for every ceiling but [NaN]. *)
Lemma app_decides {RT : Runtime} (appId accessKey region maxRetries : value) :
  default_to (VNum (num_of_Z 2)) maxRetries <> VNum NaN ->
  Library.app appId accessKey region maxRetries =
    if Spec.valid_config appId accessKey
         (default_to (VStr "www.appsheet.com") region)
         (default_to (VNum (num_of_Z 2)) maxRetries)
    then Ok (Library.new_App appId accessKey
               (default_to (VStr "www.appsheet.com") region)
               (default_to (VNum (num_of_Z 2)) maxRetries))
    else Throw (Spec.configuration_error appId accessKey
                  (default_to (VStr "www.appsheet.com") region)
                  (default_to (VNum (num_of_Z 2)) maxRetries)).
Proof.
  intros Hnan. unfold Library.app, Spec.valid_config, Spec.configuration_error.
  rewrite !rejects_all_but_nonempty_strings.
  rewrite rejects_other_regions, (rejects_numbers_below_1 _ Hnan).
  cbn [rbind].
  destruct (Spec.nonempty_string appId); [| reflexivity].
  destruct (Spec.nonempty_string accessKey); [| reflexivity].
  destruct (Spec.accepted_region _); [| reflexivity].
  destruct (Spec.number_at_least_1 _); reflexivity.
Qed.

(** C7, as the code has it. With an omitted region standing for
    [www.appsheet.com] and an omitted ceiling for 2, and for every
    ceiling but [NaN]: [app] raises an error at once if and only if
    [appId] is not a non-empty string, or the access key is not a
    non-empty string, or the region is neither of the two accepted
    hosts, or the ceiling is not a number that is at least 1.  The error
    names the first parameter at fault; in every other case [app]
    returns the client built from the four arguments. *)
Theorem app_validates_at_construction {RT : Runtime}
    (appId accessKey region maxRetries : value) :
  default_to (VNum (num_of_Z 2)) maxRetries <> VNum NaN ->
  ((exists e, Library.app appId accessKey region maxRetries = Throw e) <->
   (Spec.nonempty_string appId = false \/
    Spec.nonempty_string accessKey = false \/
    Spec.accepted_region (default_to (VStr "www.appsheet.com") region) = false \/
    Spec.number_at_least_1 (default_to (VNum (num_of_Z 2)) maxRetries) = false)) /\
  (forall e,
     Library.app appId accessKey region maxRetries = Throw e ->
     e = Spec.configuration_error appId accessKey
           (default_to (VStr "www.appsheet.com") region)
           (default_to (VNum (num_of_Z 2)) maxRetries)) /\
  ((forall e, Library.app appId accessKey region maxRetries <> Throw e) ->
   Library.app appId accessKey region maxRetries =
     Ok (Library.new_App appId accessKey
           (default_to (VStr "www.appsheet.com") region)
           (default_to (VNum (num_of_Z 2)) maxRetries))).
Proof.
  intros Hnan. rewrite (app_decides _ _ _ _ Hnan). unfold Spec.valid_config.
  destruct (Spec.nonempty_string appId);
    destruct (Spec.nonempty_string accessKey);
    destruct (Spec.accepted_region _);
    destruct (Spec.number_at_least_1 _); cbn [andb];
    (split; [split | split]);
    try (intros [e He]; discriminate He);
    try (intros [H | [H | [H | H]]]; discriminate H);
    try (intros _; eexists; reflexivity);
    try (intros _; now auto);
    try (intros e He; now inversion He);
    try (intros Hno; exfalso; eapply Hno; reflexivity);
    try reflexivity.
Qed.

Lemma app_validates_at_construction_witness :
  Library.app (RT := Fixtures.host) (VStr "APP") (VStr "KEY") (VStr "eu.appsheet.com")
    (VNum (num_of_Z 3)) =
    Ok (Library.new_App (RT := Fixtures.host) (VStr "APP") (VStr "KEY")
          (VStr "eu.appsheet.com") (VNum (num_of_Z 3))) /\
  (exists e,
     Library.app (RT := Fixtures.host) (VStr "APP") (VStr EmptyString) VUndefined
       (VNum (num_of_Z 0)) = Throw e).
Proof.
  split.
  - apply (app_validates_at_construction (RT := Fixtures.host) (VStr "APP") (VStr "KEY")
             (VStr "eu.appsheet.com") (VNum (num_of_Z 3))).
    + discriminate.
    + intros e He. discriminate He.
  - apply (app_validates_at_construction (RT := Fixtures.host) (VStr "APP")
             (VStr EmptyString) VUndefined (VNum (num_of_Z 0))).
    + discriminate.
    + right. left. reflexivity.
Defined.

(** C7 as the claim words it fails on the documented call
    [AppSheet.app('APP', 'KEY')]: no region and no ceiling are given,
    so neither is an accepted host or a number, and yet the call
    returns a client, for [www.appsheet.com] and two attempts. *)
Lemma app_defaults_are_accepted :
  Library.app (RT := Fixtures.host) (VStr "APP") (VStr "KEY") VUndefined VUndefined =
    Ok (Library.new_App (RT := Fixtures.host) (VStr "APP") (VStr "KEY")
          (VStr "www.appsheet.com") (VNum (num_of_Z 2))) /\
  Spec.accepted_region VUndefined = false /\
  Spec.number_at_least_1 VUndefined = false /\
  Spec.valid_config (VStr "APP") (VStr "KEY") VUndefined VUndefined = false.
Proof. repeat split. Qed.

(** The ceiling [NaN] is a number, and not below 1 as [<] reads it:
    [app] lets it through, although it is not at least 1.  The client
    it returns never reaches the network: the loop of [makeRequest]
    does not run once, and reading the response that is not there
    throws. *)
Lemma app_accepts_NaN (T : transport) (fuel : nat) :
  Library.app (RT := Fixtures.host) (VStr "APP") (VStr "KEY") VUndefined (VNum NaN) =
    Ok (Library.new_App (RT := Fixtures.host) (VStr "APP") (VStr "KEY")
          (VStr "www.appsheet.com") (VNum NaN)) /\
  Spec.number_at_least_1 (VNum NaN) = false /\
  Library.find (RT := Fixtures.host) T (S fuel)
    (Library.new_App (RT := Fixtures.host) (VStr "APP") (VStr "KEY")
       (VStr "www.appsheet.com") (VNum NaN))
    (VStr "users") VUndefined VUndefined VUndefined VUndefined [] =
    (Raise (TypeError "Cannot read properties of undefined (reading 'getResponseCode')"),
     []).
Proof. repeat split. Qed.

(* ================================================================= *)
(** ** The first script's [findByKey] *)

(** C4 as the claim words it fails on the first script, which has no
    [find]: its [findByKey] asks for every row, with no selector in
    the payload, looks for the key on the client, and hands back the
    row count of the whole answer.  Here the table answers with two
    records, neither of which has the key. *)
Lemma legacy_findByKey_fetches_all_rows :
  Legacy.findByKey (RT := Fixtures.host) (Legacy.Parser Fixtures.parse_few)
    Legacy.CONFIG_initial Fixtures.answering 2 (VStr "users") (VStr "id") (VStr "7") [] =
    (Return {| code := 200; content := VNull; rowsReturned := VNum (num_of_nat 2) |},
     [Fetch (Legacy.options_of (RT := Fixtures.host) Legacy.CONFIG_initial
               {| Legacy.table := VStr "users";
                  Legacy.action := VStr "Find";
                  Legacy.rows := VUndefined;
                  Legacy.method := VUndefined |})]) /\
  req_payload (Legacy.options_of (RT := Fixtures.host) Legacy.CONFIG_initial
                 {| Legacy.table := VStr "users";
                    Legacy.action := VStr "Find";
                    Legacy.rows := VUndefined;
                    Legacy.method := VUndefined |}) =
    JSON_stringify (Runtime := Fixtures.host)
      (VObj [("Action", VStr "Find"); ("Rows", VArr [])]) /\
  Spec.one_or_zero [] = VNum (num_of_nat 0).
Proof. repeat split. Qed.

(* ================================================================= *)
(** ** Further properties of the client *)

(** A selector is never empty, so [find] always sends [Properties]. *)
Lemma buildSelector_truthy {RT : Runtime} (t f c d n : value) (sel : string) :
  Library.buildSelector t f c d n = Ok sel -> truthy (VStr sel) = true.
Proof.
  unfold Library.buildSelector.
  set (top := (typeof n =? "number") && num_gt (ToNumber n) (num_of_Z 0)).
  destruct (truthy c).
  - destruct (startsWith c "[") as [bracketed | e]; cbn [rbind]; [| discriminate].
    destruct top; intros Hsel; inversion Hsel; reflexivity.
  - cbn [rbind]. destruct top; intros Hsel; inversion Hsel; reflexivity.
Qed.

(** The three operations on records run [makeRequest] on their
    normalized rows; this closes the goal for each of them. *)
Ltac rows_on_the_wire T fuel tr Hrows :=
  match goal with
  | |- exists evs, snd (Library.makeRequest T fuel ?p tr) = _ /\ _ =>
      let evs := fresh "evs" in
      let Htr := fresh "Htr" in
      let Hrq := fresh "Hrq" in
      let rq := fresh "rq" in
      let Hin := fresh "Hin" in
      destruct (makeRequest_calls T fuel p tr) as (evs & Htr & Hrq);
      exists evs; split; [exact Htr |];
      intros rq Hin; rewrite (Hrq rq Hin);
      unfold Library.options_of, Library.build_request, Library.build_payload;
      cbn [req_payload Library.request_of Library.selector Library.rows
           Library.action];
      now rewrite Hrows
  end.

(** X2. What each operation of the facade puts on the wire: [find] sends
    the action [Find], no rows and the selector; [add], [update] and
    [deleteRows] send their action and the normalized records, and no
    [Properties] at all. *)
Theorem facade_payloads {RT : Runtime} (T : transport) (fuel : nat) (this : Library.App)
    (t : value) (tr : trace) :
  (forall f c d n sel,
     Library.buildSelector t f c d n = Ok sel ->
     exists evs,
       snd (Library.find T fuel this t f c d n tr) = (tr ++ evs)%list /\
       forall rq, In (Fetch rq) evs ->
         req_payload rq =
           JSON_stringify (VObj [("Action", VStr "Find"); ("Rows", VArr []);
                                 ("Properties", VObj [("Selector", VStr sel)])])) /\
  (forall records,
     exists evs,
       snd (Library.add T fuel this t records tr) = (tr ++ evs)%list /\
       forall rq, In (Fetch rq) evs ->
         req_payload rq =
           JSON_stringify (VObj [("Action", VStr "Add");
                                 ("Rows", Library.normalizeRecords records)])) /\
  (forall records,
     exists evs,
       snd (Library.update T fuel this t records tr) = (tr ++ evs)%list /\
       forall rq, In (Fetch rq) evs ->
         req_payload rq =
           JSON_stringify (VObj [("Action", VStr "Edit");
                                 ("Rows", Library.normalizeRecords records)])) /\
  (forall records,
     exists evs,
       snd (Library.deleteRows T fuel this t records tr) = (tr ++ evs)%list /\
       forall rq, In (Fetch rq) evs ->
         req_payload rq =
           JSON_stringify (VObj [("Action", VStr "Delete");
                                 ("Rows", Library.normalizeRecords records)])).
Proof.
  assert (Hrows : forall records,
            default_to (VArr []) (Library.normalizeRecords records) =
            Library.normalizeRecords records).
  { intros records. unfold Library.normalizeRecords.
    destruct (truthy records) eqn:Ht; simpl; [| reflexivity].
    destruct records; try reflexivity; discriminate Ht. }
  split; [| split; [| split]].
  - intros f c d n sel Hsel. unfold Library.find, bind at 1, lift. rewrite Hsel.
    unfold ret at 1.
    destruct (makeRequest_calls T fuel
                (Library.request_of this t (VStr "Find") VUndefined (VStr sel)) tr)
      as (evs & Htr & Hrq).
    exists evs. split; [exact Htr |]. intros rq Hin. rewrite (Hrq rq Hin).
    unfold Library.options_of, Library.build_request, Library.build_payload.
    cbn [req_payload Library.request_of Library.selector Library.rows Library.action
         default_to].
    now rewrite (buildSelector_truthy _ _ _ _ _ _ Hsel).
  - intros records. unfold Library.add. rows_on_the_wire T fuel tr Hrows.
  - intros records. unfold Library.update. rows_on_the_wire T fuel tr Hrows.
  - intros records. unfold Library.deleteRows. rows_on_the_wire T fuel tr Hrows.
Qed.

(** X3. The script reads the body with no handler.  In every run of
    [makeRequest] whose last call the transport answered with a
    response that [JSON.parse] rejects, the script throws what the
    parser threw, where the library returns the status with the raw
    text as content, or null when the text is empty, and no rows. *)
Theorem script_throws_on_unparsed_body {RT : Runtime} (T : transport) (fuel : nat)
    (r : HTTPResponse) (e : exn) (tr : trace) :
  JSON_parse (getContentText r) = Throw e ->
  (forall cfg p out tr',
     Script.makeRequest cfg T fuel p tr = (out, tr') ->
     calls tr < calls tr' ->
     T (calls tr' - 1) (Script.options_of cfg p) = Responds r ->
     out = Raise e) /\
  (forall p out tr',
     Library.makeRequest T fuel p tr = (out, tr') ->
     calls tr < calls tr' ->
     T (calls tr' - 1) (Library.options_of p) = Responds r ->
     out = Return {| code := getResponseCode r;
                     content := if getContentText r =? EmptyString then VNull
                                else VStr (getContentText r);
                     rowsReturned := VNum (num_of_Z 0) |}).
Proof.
  intros Hparse.
  assert (Hlast : forall rq k tr' r0,
            (forall i, i < k -> exists e0, T (calls tr + i) rq = Fails e0) ->
            tr' = (tr ++ Spec.backoffs rq k ++ [Fetch rq])%list ->
            T (calls tr + k) rq = Responds r0 ->
            T (calls tr' - 1) rq = Responds r -> r0 = r).
  { intros rq k tr' r0 _ -> Hr0 Hr. rewrite calls_after_attempts in Hr.
    replace (calls tr + (k + 1) - 1) with (calls tr + k) in Hr by lia. congruence. }
  assert (Hnone : forall rq k tr',
            (forall i, i < k -> exists e0, T (calls tr + i) rq = Fails e0) ->
            tr' = (tr ++ Spec.backoffs rq k)%list ->
            calls tr < calls tr' ->
            T (calls tr' - 1) rq = Responds r -> False).
  { intros rq k tr' Hfail -> Hmore Hr. rewrite calls_app, calls_backoffs in Hmore, Hr.
    destruct (Hfail (k - 1) ltac:(lia)) as [e0 He0].
    replace (calls tr + k - 1) with (calls tr + (k - 1)) in Hr by lia. congruence. }
  assert (Hdown : forall rq k tr' e0,
            tr' = (tr ++ Spec.backoffs rq k ++ [Fetch rq])%list ->
            T (calls tr + k) rq = Fails e0 ->
            T (calls tr' - 1) rq = Responds r -> False).
  { intros rq k tr' e0 -> He0 Hr. rewrite calls_after_attempts in Hr.
    replace (calls tr + (k + 1) - 1) with (calls tr + k) in Hr by lia. congruence. }
  split.
  - intros cfg p out tr' Hrun Hmore Hr.
    rewrite script_makeRequest_after_loop in Hrun.
    destruct (retry_loop T (Script.options_of cfg p) (Script.maxRetries cfg) fuel 0 tr)
      as [out0 tr0] eqn:Hloop.
    apply retry_loop_shape in Hloop. destruct Hloop as (k & Hfail & Hend).
    destruct Hend as [[Hout Htr] | [(r0 & Hr0 & -> & Htr) | (e0 & He0 & -> & Htr)]].
    + exfalso. apply (Hnone _ k tr' Hfail); try assumption.
      destruct Hout as [-> | ->]; inversion Hrun; subst; reflexivity.
    + assert (Hsame : tr' = tr0).
      { pose proof (proj2 (interpret_is_silent r0 tr0)) as Hsnd.
        rewrite Hrun in Hsnd. exact Hsnd. }
      subst tr'. rewrite (Hlast _ k tr0 r0 Hfail Htr Hr0 Hr) in Hrun.
      rewrite (script_interpret_unparsed r e _ Hparse) in Hrun. now inversion Hrun.
    + exfalso. inversion Hrun; subst tr'. exact (Hdown _ k tr0 e0 Htr He0 Hr).
  - intros p out tr' Hrun Hmore Hr.
    apply makeRequest_shape in Hrun. destruct Hrun as (k & Hfail & Hend).
    destruct Hend as [[Htr _] | [(r0 & Hr0 & -> & Htr) | (e0 & He0 & _ & Htr)]].
    + exfalso. exact (Hnone _ k tr' Hfail Htr Hmore Hr).
    + rewrite (Hlast _ k tr' r0 Hfail Htr Hr0 Hr).
      unfold Spec.api_response_of. rewrite Hparse. cbn [Spec.content_of].
      destruct (getContentText r =? EmptyString); reflexivity.
    + exfalso. exact (Hdown _ k tr' e0 Htr He0 Hr).
Qed.

Lemma script_throws_on_unparsed_body_witness :
  Script.makeRequest (RT := Fixtures.host) Script.CONFIG_initial Fixtures.rejecting 2
    {| Script.table := VStr "users"; Script.action := VStr "Find";
       Script.rows := VUndefined; Script.selector := VUndefined;
       Script.method := VUndefined |} [] =
    (Raise (SyntaxError "Unexpected token"),
     [Fetch (Script.options_of (RT := Fixtures.host) Script.CONFIG_initial
               {| Script.table := VStr "users"; Script.action := VStr "Find";
                  Script.rows := VUndefined; Script.selector := VUndefined;
                  Script.method := VUndefined |})]) /\
  Library.makeRequest (RT := Fixtures.host) Fixtures.rejecting 2 Fixtures.find_users [] =
    (Return {| code := 500; content := VStr "Server Error";
               rowsReturned := VNum (num_of_Z 0) |},
     [Fetch (Library.options_of (RT := Fixtures.host) Fixtures.find_users)]).
Proof.
  destruct (script_throws_on_unparsed_body (RT := Fixtures.host) Fixtures.rejecting 2
              {| getResponseCode := 500; getContentText := "Server Error" |}
              (SyntaxError "Unexpected token") [] eq_refl) as [Hscript Hlibrary].
  split.
  - match goal with |- ?run = _ => rewrite (surjective_pairing run) end.
    rewrite (Hscript Script.CONFIG_initial
               {| Script.table := VStr "users"; Script.action := VStr "Find";
                  Script.rows := VUndefined; Script.selector := VUndefined;
                  Script.method := VUndefined |}
               _ _ (surjective_pairing _) ltac:(vm_compute; lia) eq_refl).
    reflexivity.
  - match goal with |- ?run = _ => rewrite (surjective_pairing run) end.
    rewrite (Hlibrary Fixtures.find_users _ _ (surjective_pairing _)
               ltac:(vm_compute; lia) eq_refl).
    reflexivity.
Defined.

(** X4. The loop has no bound of its own.  Under the ceiling [Infinity],
    which [app] accepts, and a transport that is down, it is still
    retrying after any number of turns. *)
Theorem unbounded_ceiling_never_gives_up {RT : Runtime} (rq : request) (e : exn)
    (fuel : nat) : forall (attempts : nat) (tr : trace),
  retry_loop (fun _ _ => Fails e) rq (VNum PosInf) fuel attempts tr =
    (Diverge, (tr ++ Spec.backoffs rq fuel)%list).
Proof.
  induction fuel as [| fuel IH]; intros attempts tr.
  - simpl. unfold diverge. now rewrite app_nil_r.
  - rewrite retry_loop_turn. cbn [ToNumber num_lt num_of_nat num_of_Z num_ge num_le].
    rewrite IH, backoffs_succ. now rewrite <- app_assoc.
Qed.

(** The worked examples of the specification, on the small host. *)
Example specification_examples :
  Library.buildSelector (RT := Fixtures.host) (VStr "T")
    VUndefined VUndefined VUndefined VUndefined = Ok "Filter(T, TRUE)" /\
  Library.buildSelector (RT := Fixtures.host) (VStr "T") (VStr "X=1") (VStr "name")
    (VBool true) VUndefined = Ok "OrderBy(Filter(T, X=1), [name], FALSE)" /\
  Library.interpret (RT := Fixtures.host)
    {| getResponseCode := 200; getContentText := "[{},{}]" |} [] =
    (Return {| code := 200; content := VArr [VObj []; VObj []];
               rowsReturned := VNum (num_of_nat 2) |}, []) /\
  Library.interpret (RT := Fixtures.host)
    {| getResponseCode := 200; getContentText := EmptyString |} [] =
    (Return {| code := 200; content := VNull; rowsReturned := VNum (num_of_nat 0) |},
     []) /\
  Library.interpret (RT := Fixtures.host)
    {| getResponseCode := 200; getContentText := "not json" |} [] =
    (Return {| code := 200; content := VStr "not json";
               rowsReturned := VNum (num_of_nat 0) |}, []).
Proof. repeat split. Qed.

(* ================================================================= *)
(** ** The client [app] builds, and where its calls go *)

(** Whenever [app] returns, it returns the client built from its
    arguments, the two defaults put in. *)
Lemma app_returns_new_App {RT : Runtime} (appId key region maxRetries : value)
    (this : Library.App) :
  Library.app appId key region maxRetries = Ok this ->
  this = Library.new_App appId key
           (default_to (VStr "www.appsheet.com") region)
           (default_to (VNum (num_of_Z 2)) maxRetries) /\
  Spec.nonempty_string appId = true /\
  Spec.nonempty_string key = true /\
  Spec.accepted_region (default_to (VStr "www.appsheet.com") region) = true.
Proof.
  unfold Library.app.
  rewrite !rejects_all_but_nonempty_strings, rejects_other_regions. cbn [rbind].
  destruct (Spec.nonempty_string appId); [| discriminate].
  destruct (Spec.nonempty_string key); [| discriminate].
  destruct (Spec.accepted_region _); [| discriminate].
  cbn [negb].
  destruct (negb (typeof (default_to (VNum (num_of_Z 2)) maxRetries) =? "number") ||
            num_lt (ToNumber (default_to (VNum (num_of_Z 2)) maxRetries)) (num_of_Z 1));
    [discriminate |].
  intros Hok. inversion Hok. now repeat split.
Qed.

(** What [makeRequest] sends for a client, whatever the action. *)
Lemma client_calls {RT : Runtime} (T : transport) (fuel : nat) (this : Library.App)
    (t action rows selector : value) (tr : trace) :
  Spec.every_call
    (fun rq =>
       req_url rq = Library.CONFIG_baseUrl this ++ "/" ++ ToString t ++ "/Action" /\
       req_method rq = VStr "post" /\
       req_contentType rq = "application/json" /\
       req_muteHttpExceptions rq = true /\
       req_ApplicationAccessKey rq = Library.CONFIG_applicationAccessKey this)
    (Library.makeRequest T fuel (Library.request_of this t action rows selector)) tr.
Proof.
  destruct (makeRequest_calls T fuel
              (Library.request_of this t action rows selector) tr)
    as (evs & Htr & Hrq).
  exists evs. split; [exact Htr |].
  intros rq Hin. rewrite (Hrq rq Hin). now repeat split.
Qed.

(** X5. A client that [app] returned for the texts [appId] and [key]
    sends every call of [find], [add], [update] and [deleteRows], first
    attempt and retries alike, to
    [https://<region>/api/v2/apps/<appId>/tables/<table>/Action], as a
    [post] of JSON with HTTP errors muted and with [key] in the
    [ApplicationAccessKey] header; the region is one of the two
    accepted hosts. *)
Theorem calls_go_to_the_table_action {RT : Runtime} (T : transport) (fuel : nat)
    (appId key : string) (region maxRetries : value) (this : Library.App)
    (t : value) (tr : trace) :
  Library.app (VStr appId) (VStr key) region maxRetries = Ok this ->
  exists host,
    (host = "www.appsheet.com" \/ host = "eu.appsheet.com") /\
    default_to (VStr "www.appsheet.com") region = VStr host /\
    (forall f c d n,
       Spec.every_call (Spec.table_action host appId (VStr key) t)
         (Library.find T fuel this t f c d n) tr) /\
    (forall records,
       Spec.every_call (Spec.table_action host appId (VStr key) t)
         (Library.add T fuel this t records) tr) /\
    (forall records,
       Spec.every_call (Spec.table_action host appId (VStr key) t)
         (Library.update T fuel this t records) tr) /\
    (forall records,
       Spec.every_call (Spec.table_action host appId (VStr key) t)
         (Library.deleteRows T fuel this t records) tr).
Proof.
  intros Happ. apply app_returns_new_App in Happ.
  destruct Happ as (-> & _ & _ & Hregion).
  destruct (default_to (VStr "www.appsheet.com") region) as [ | | b | m | host | l | fs | native ];
    try discriminate Hregion.
  exists host. split.
  { simpl in Hregion. apply orb_true_iff in Hregion.
    destruct Hregion as [H | H]; apply String.eqb_eq in H; auto. }
  split; [reflexivity |].
  assert (Hurl : forall action rows selector,
            Spec.every_call (Spec.table_action host appId (VStr key) t)
              (Library.makeRequest T fuel
                 (Library.request_of
                    (Library.new_App (VStr appId) (VStr key) (VStr host)
                       (default_to (VNum (num_of_Z 2)) maxRetries))
                    t action rows selector)) tr).
  { intros action rows selector.
    destruct (client_calls T fuel
                (Library.new_App (VStr appId) (VStr key) (VStr host)
                   (default_to (VNum (num_of_Z 2)) maxRetries))
                t action rows selector tr) as (evs & Htr & Hrq).
    exists evs. split; [exact Htr |].
    intros rq Hin. destruct (Hrq rq Hin) as (Hu & Hrest).
    split; [| exact Hrest].
    rewrite Hu. cbn [Library.CONFIG_baseUrl Library.new_App ToString].
    now rewrite !append_assoc. }
  split; [| split; [| split]].
  - intros f c d n. unfold Library.find, bind at 1, lift.
    destruct (Library.buildSelector t f c d n) as [sel | e].
    + apply Hurl.
    + exists []. split; [simpl; now rewrite app_nil_r | intros rq []].
  - intros records. apply Hurl.
  - intros records. apply Hurl.
  - intros records. apply Hurl.
Qed.

Lemma calls_go_to_the_table_action_witness :
  Spec.every_call
    (Spec.table_action (RT := Fixtures.host) "www.appsheet.com" "APP" (VStr "KEY")
       (VStr "users"))
    (Library.add (RT := Fixtures.host) Fixtures.flaky 2 Fixtures.two_tries
       (VStr "users") (VObj [("Name", VStr "Jane Doe")])) [].
Proof.
  destruct (calls_go_to_the_table_action (RT := Fixtures.host) Fixtures.flaky 2
              "APP" "KEY" VUndefined VUndefined Fixtures.two_tries (VStr "users") []
              eq_refl) as (host & _ & Hhost & _ & Hadd & _).
  inversion Hhost; subst host.
  exact (Hadd (VObj [("Name", VStr "Jane Doe")])).
Defined.

(* ================================================================= *)
(** ** Ceilings that let no attempt through *)

(** X8. A ceiling that is not above zero as a number (zero, a negative
    number, [NaN], [undefined], [null], [false]) lets the loop body
    never run: [makeRequest] issues no call and does not sleep, and it
    throws the [TypeError] of reading [getResponseCode] off the
    response that was never assigned.  So it is in the library and in
    [main.js], whose ceiling is the exported [CONFIG.maxRetries]. *)
Theorem no_attempt_under_a_ceiling_of_zero {RT : Runtime} (T : transport) (fuel : nat)
    (tr : trace) :
  (forall p : Library.params,
     num_lt (num_of_Z 0) (ToNumber (Library.maxRetries p)) = false ->
     Library.makeRequest T (S fuel) p tr =
       (Raise (TypeError
                 "Cannot read properties of undefined (reading 'getResponseCode')"),
        tr)) /\
  (forall (cfg : Script.CONFIG) (p : Script.params),
     num_lt (num_of_Z 0) (ToNumber (Script.maxRetries cfg)) = false ->
     Script.makeRequest cfg T (S fuel) p tr =
       (Raise (TypeError
                 "Cannot read properties of undefined (reading 'getResponseCode')"),
        tr)).
Proof.
  split.
  - intros p Hzero. rewrite makeRequest_after_loop, retry_loop_turn.
    change (num_of_nat 0) with (num_of_Z 0). now rewrite Hzero.
  - intros cfg p Hzero. rewrite script_makeRequest_after_loop, retry_loop_turn.
    change (num_of_nat 0) with (num_of_Z 0). now rewrite Hzero.
Qed.

Lemma no_attempt_under_a_ceiling_of_zero_witness :
  Script.makeRequest (RT := Fixtures.host)
    {| Script.apiKey := VStr "KEY"; Script.appId := VStr "APP";
       Script.region := VStr "www.appsheet.com";
       Script.maxRetries := VNum (num_of_Z 0) |}
    Fixtures.answering 3
    {| Script.table := VStr "users"; Script.action := VStr "Find";
       Script.rows := VUndefined; Script.selector := VUndefined;
       Script.method := VUndefined |} [] =
    (Raise (TypeError
              "Cannot read properties of undefined (reading 'getResponseCode')"),
     []).
Proof.
  apply (proj2 (no_attempt_under_a_ceiling_of_zero (RT := Fixtures.host)
                  Fixtures.answering 2 [])).
  reflexivity.
Defined.

(** X1. The ceiling [NaN] passes the validation of [app]: for every
    non-empty [appId] and access key and every accepted or omitted
    region, [app] returns a client, although [NaN] is not a number that
    is at least 1.  Every [find] of that client then throws the
    [TypeError] above without a single call. *)
Theorem NaN_ceiling_passes_validation {RT : Runtime} (T : transport) (fuel : nat)
    (appId key region : value) (tr : trace) :
  Spec.nonempty_string appId = true ->
  Spec.nonempty_string key = true ->
  Spec.accepted_region (default_to (VStr "www.appsheet.com") region) = true ->
  Spec.number_at_least_1 (VNum NaN) = false /\
  Library.app appId key region (VNum NaN) =
    Ok (Library.new_App appId key (default_to (VStr "www.appsheet.com") region)
          (VNum NaN)) /\
  forall t f c d n sel,
    Library.buildSelector t f c d n = Ok sel ->
    Library.find T (S fuel)
      (Library.new_App appId key (default_to (VStr "www.appsheet.com") region)
         (VNum NaN)) t f c d n tr =
      (Raise (TypeError
                "Cannot read properties of undefined (reading 'getResponseCode')"),
       tr).
Proof.
  intros Hid Hkey Hregion. split; [reflexivity |]. split.
  - unfold Library.app.
    rewrite !rejects_all_but_nonempty_strings, rejects_other_regions.
    now rewrite Hid, Hkey, Hregion.
  - intros t f c d n sel Hsel. unfold Library.find, bind at 1, lift.
    rewrite Hsel. unfold ret at 1.
    rewrite makeRequest_after_loop, retry_loop_turn. reflexivity.
Qed.

Lemma NaN_ceiling_passes_validation_witness :
  Library.app (RT := Fixtures.host) (VStr "APP") (VStr "KEY")
    (VStr "eu.appsheet.com") (VNum NaN) =
    Ok (Library.new_App (RT := Fixtures.host) (VStr "APP") (VStr "KEY")
          (VStr "eu.appsheet.com") (VNum NaN)).
Proof.
  apply (NaN_ceiling_passes_validation (RT := Fixtures.host) Fixtures.answering 0
           (VStr "APP") (VStr "KEY") (VStr "eu.appsheet.com") [] eq_refl eq_refl
           eq_refl).
Defined.

(* ================================================================= *)
(** ** Records on their way to the wire *)

(** X9. [normalizeRecords] always yields an array and is idempotent,
    and the three operations on records see their argument only
    through it: [add], [update] and [deleteRows] run alike on the
    records and on the normalized records, on a single record and on
    the array that holds just that record, and on a falsy argument and
    on the empty array.  The script [main.js] normalizes by the same
    text. *)
Theorem operations_see_normalized_records {RT : Runtime} (T : transport) (fuel : nat)
    (this : Library.App) (cfg : Script.CONFIG) (t records : value) :
  isArray (Library.normalizeRecords records) = true /\
  Library.normalizeRecords (Library.normalizeRecords records) =
    Library.normalizeRecords records /\
  Script.normalizeRecords records = Library.normalizeRecords records /\
  Library.add T fuel this t (Library.normalizeRecords records) =
    Library.add T fuel this t records /\
  Library.update T fuel this t (Library.normalizeRecords records) =
    Library.update T fuel this t records /\
  Library.deleteRows T fuel this t (Library.normalizeRecords records) =
    Library.deleteRows T fuel this t records /\
  Script.add cfg T fuel t (Script.normalizeRecords records) =
    Script.add cfg T fuel t records /\
  (truthy records = true -> isArray records = false ->
   Library.add T fuel this t records = Library.add T fuel this t (VArr [records])) /\
  (truthy records = false ->
   Library.add T fuel this t records = Library.add T fuel this t (VArr [])).
Proof.
  assert (Hidem : Library.normalizeRecords (Library.normalizeRecords records) =
                  Library.normalizeRecords records).
  { unfold Library.normalizeRecords.
    destruct (truthy records); [| reflexivity].
    destruct (isArray records) eqn:Harr; cbn [negb].
    - destruct records; try discriminate Harr; reflexivity.
    - reflexivity. }
  split.
  { unfold Library.normalizeRecords.
    destruct (truthy records); [| reflexivity].
    destruct (isArray records) eqn:Harr; [exact Harr | reflexivity]. }
  split; [exact Hidem |]. split; [reflexivity |].
  split; [unfold Library.add; now rewrite Hidem |].
  split; [unfold Library.update; now rewrite Hidem |].
  split; [unfold Library.deleteRows; now rewrite Hidem |].
  split.
  { unfold Script.add. change Script.normalizeRecords with Library.normalizeRecords.
    now rewrite Hidem. }
  split.
  - intros Ht Harr. unfold Library.add, Library.normalizeRecords.
    now rewrite Ht, Harr.
  - intros Hf. unfold Library.add, Library.normalizeRecords. now rewrite Hf.
Qed.

Lemma operations_see_normalized_records_witness :
  Library.add (RT := Fixtures.host) Fixtures.flaky 2 Fixtures.two_tries (VStr "users")
    (VObj [("Name", VStr "Jane Doe")]) =
  Library.add (RT := Fixtures.host) Fixtures.flaky 2 Fixtures.two_tries (VStr "users")
    (VArr [VObj [("Name", VStr "Jane Doe")]]).
Proof.
  destruct (operations_see_normalized_records (RT := Fixtures.host) Fixtures.flaky 2
              Fixtures.two_tries Script.CONFIG_initial (VStr "users")
              (VObj [("Name", VStr "Jane Doe")]))
    as (_ & _ & _ & _ & _ & _ & _ & Hone & _).
  apply Hone; reflexivity.
Defined.

(* ================================================================= *)
(** ** Edge cases of the selector *)



(** X11. Brackets are put around a column once: a column given bare
    and the same column given in brackets build the same selector, for
    every table, condition, direction and limit. *)
Theorem bracketed_column_is_the_same_column {RT : Runtime} (t f d n : value)
    (col : string) :
  col <> EmptyString ->
  String.prefix "[" col = false ->
  Library.buildSelector t f (VStr col) d n =
    Library.buildSelector t f (VStr ("[" ++ col ++ "]")) d n /\
  Script.buildSelector t f (VStr col) d n =
    Script.buildSelector t f (VStr ("[" ++ col ++ "]")) d n.
Proof.
  intros Hne Hbare.
  assert (Hsel : Library.buildSelector t f (VStr col) d n =
                 Library.buildSelector t f (VStr ("[" ++ col ++ "]")) d n).
  { unfold Library.buildSelector.
    assert (Ht : truthy (VStr col) = true).
    { destruct col; [now destruct Hne | reflexivity]. }
    rewrite Ht. cbn [startsWith rbind ToString].
    rewrite Hbare.
    assert (Hb : String.prefix "[" ("[" ++ col ++ "]") = true).
    { simpl. destruct (col ++ "]"); reflexivity. }
    now rewrite Hb. }
  split; [exact Hsel |]. now rewrite !buildSelector_same.
Qed.

Lemma bracketed_column_is_the_same_column_witness :
  Library.buildSelector (RT := Fixtures.host) (VStr "T") (VStr "X=1") (VStr "name")
    (VBool true) VUndefined =
  Library.buildSelector (RT := Fixtures.host) (VStr "T") (VStr "X=1") (VStr "[name]")
    (VBool true) VUndefined.
Proof.
  apply (bracketed_column_is_the_same_column (RT := Fixtures.host) (VStr "T")
           (VStr "X=1") (VBool true) VUndefined "name").
  - discriminate.
  - reflexivity.
Defined.

(* ================================================================= *)
(** ** The schedule of the retries *)

Lemma slept_app (tr1 tr2 : trace) :
  Spec.slept (tr1 ++ tr2)%list = (Spec.slept tr1 + Spec.slept tr2)%Z.
Proof.
  induction tr1 as [| ev tr1 IH]; [reflexivity |].
  destruct ev as [rq | ms]; simpl; rewrite IH; lia.
Qed.

Lemma slept_backoffs (rq : request) (k : nat) :
  Spec.slept (Spec.backoffs rq k) = (500 * Z.of_nat k)%Z.
Proof.
  induction k as [| k IH]; [reflexivity |].
  rewrite backoffs_succ, slept_app, IH. cbn [Spec.slept]. lia.
Qed.

(** X6. The retries are spaced by the fixed backoff and by nothing
    else.  A run of [makeRequest] that returns, or that gives up with
    the terminal error, has made at least one call, ends with a call,
    and has slept 500 ms for each call but the last: there is no sleep
    before the first attempt and none after the last.  No run ever
    sleeps another amount. *)
Theorem backoff_between_attempts {RT : Runtime} (T : transport) (fuel : nat)
    (p : Library.params) (tr : trace) out tr' :
  Library.makeRequest T fuel p tr = (out, tr') ->
  (exists evs, tr' = (tr ++ evs)%list /\ forall ms, In (Sleep ms) evs -> ms = 500%Z) /\
  ((exists a, out = Return a) \/
   (exists e, out = Raise (Error (Spec.exhaustion_message (Library.maxRetries p) e))) ->
   calls tr < calls tr' /\
   Spec.slept tr' =
     (Spec.slept tr + 500 * (Z.of_nat (calls tr') - Z.of_nat (calls tr) - 1))%Z /\
   exists before, tr' = (before ++ [Fetch (Library.options_of p)])%list).
Proof.
  intros Hrun. rewrite makeRequest_after_loop in Hrun.
  destruct (retry_loop T (Library.options_of p) (Library.maxRetries p) fuel 0 tr)
    as [out0 tr0] eqn:Hloop.
  apply retry_loop_shape in Hloop. destruct Hloop as (k & _ & Hend).
  assert (Hsleeps : forall evs ms,
            (evs = Spec.backoffs (Library.options_of p) k \/
             evs = (Spec.backoffs (Library.options_of p) k ++
                    [Fetch (Library.options_of p)])%list) ->
            In (Sleep ms) evs -> ms = 500%Z).
  { intros evs ms [-> | ->] Hin.
    - apply In_backoffs in Hin. destruct Hin as [Heq | Heq]; congruence.
    - apply in_app_or in Hin. destruct Hin as [Hin | [Heq | []]]; [| discriminate Heq].
      apply In_backoffs in Hin. destruct Hin as [Heq | Heq]; congruence. }
  assert (Hlast : forall tr1,
            tr1 = (tr ++ Spec.backoffs (Library.options_of p) k ++
                   [Fetch (Library.options_of p)])%list ->
            calls tr < calls tr1 /\
            Spec.slept tr1 =
              (Spec.slept tr + 500 * (Z.of_nat (calls tr1) - Z.of_nat (calls tr) - 1))%Z /\
            exists before, tr1 = (before ++ [Fetch (Library.options_of p)])%list).
  { intros tr1 ->. rewrite calls_after_attempts. split; [lia |]. split.
    - rewrite !slept_app, slept_backoffs. cbn [Spec.slept]. lia.
    - exists (tr ++ Spec.backoffs (Library.options_of p) k)%list.
      now rewrite app_assoc. }
  destruct Hend as [[Hout ->] | [(r & _ & -> & ->) | (e & _ & -> & ->)]].
  - assert (Htr : tr' = (tr ++ Spec.backoffs (Library.options_of p) k)%list).
    { destruct Hout as [-> | ->]; now inversion Hrun. }
    split.
    + eexists. split; [exact Htr |]. intros ms. apply Hsleeps. now left.
    + intros [[a Ha] | [e He]]; destruct Hout as [-> | ->]; inversion Hrun; subst;
        discriminate.
  - inversion Hrun; subst. split.
    + eexists. split; [reflexivity |]. intros ms. apply Hsleeps. now right.
    + intros _. now apply Hlast.
  - inversion Hrun; subst. split.
    + eexists. split; [reflexivity |]. intros ms. apply Hsleeps. now right.
    + intros _. now apply Hlast.
Qed.

Lemma backoff_between_attempts_witness :
  Spec.slept
    [Fetch (Library.options_of (RT := Fixtures.host) Fixtures.find_users);
     Sleep 500;
     Fetch (Library.options_of (RT := Fixtures.host) Fixtures.find_users)] = 500%Z.
Proof.
  assert (Hrun :
    Library.makeRequest (RT := Fixtures.host) Fixtures.flaky 2 Fixtures.find_users [] =
      (Return (Spec.api_response_of (RT := Fixtures.host) Fixtures.two_rows),
       [Fetch (Library.options_of (RT := Fixtures.host) Fixtures.find_users);
        Sleep 500;
        Fetch (Library.options_of (RT := Fixtures.host) Fixtures.find_users)]))
    by reflexivity.
  destruct (backoff_between_attempts (RT := Fixtures.host) _ _ _ _ _ _ Hrun)
    as (_ & Hdone).
  destruct Hdone as (_ & Hslept & _); [left; eexists; reflexivity |].
  exact Hslept.
Defined.

(* ================================================================= *)
(** ** A ceiling that is not whole *)

(** Whether a rational is at most a whole number is decided by its
    ceiling. *)
Lemma Qle_bool_ceiling (q : Q) (a : Z) :
  Qle_bool q (inject_Z a) = (Qceiling q <=? a)%Z.
Proof.
  destruct (Z.leb_spec (Qceiling q) a) as [Hle | Hlt].
  - apply Qle_bool_iff. apply Qle_trans with (inject_Z (Qceiling q)).
    + apply Qle_ceiling.
    + now rewrite <- Zle_Qle.
  - destruct (Qle_bool q (inject_Z a)) eqn:Hb; [| reflexivity].
    apply Qle_bool_iff in Hb. apply Qceiling_resp_le in Hb.
    rewrite Qceiling_Z in Hb. lia.
Qed.

Lemma Qceiling_positive (q : Q) : (0 < q)%Q -> (0 < Qceiling q)%Z.
Proof.
  intros Hq. rewrite Zlt_Qlt.
  apply Qlt_le_trans with q; [exact Hq | apply Qle_ceiling].
Qed.

(** The loop under any ceiling that the counter reads as [n]. *)
Section ReadAs.
Context {RT : Runtime} (T : transport) (rq : request) (ceiling : value) (n : nat).
Hypothesis below : forall a,
  num_lt (num_of_nat a) (ToNumber ceiling) = (a <? n)%nat.
Hypothesis reached : forall a,
  num_ge (num_of_nat a) (ToNumber ceiling) = (n <=? a)%nat.
Hypothesis countable : (Z.of_nat n <= 9007199254740992)%Z.

Lemma read_as_succeeds (k : nat) : forall (fuel attempts : nat) (tr : trace) r,
  attempts + k < n -> k < fuel ->
  (forall i, i < k -> exists e, T (calls tr + i) rq = Fails e) ->
  T (calls tr + k) rq = Responds r ->
  retry_loop T rq ceiling fuel attempts tr =
    (Return (Some r), (tr ++ Spec.backoffs rq k ++ [Fetch rq])%list).
Proof.
  induction k as [| k IH]; intros fuel attempts tr r Hlt Hfuel Hfail Hok;
    (destruct fuel as [| fuel]; [lia |]);
    rewrite retry_loop_turn, below;
    (destruct (Nat.ltb_spec attempts n) as [_ | Hge]; [| lia]).
  - rewrite Nat.add_0_r in Hok. now rewrite Hok.
  - destruct (Hfail 0 ltac:(lia)) as [e He]. rewrite Nat.add_0_r in He. rewrite He.
    rewrite increment_counts by lia. rewrite reached.
    destruct (Nat.leb_spec n (S attempts)) as [Hle | _]; [lia |].
    rewrite (IH fuel (S attempts) _ r).
    + rewrite backoffs_succ. now repeat rewrite <- app_assoc.
    + lia.
    + lia.
    + intros i Hi. rewrite calls_after_backoff.
      replace (S (calls tr) + i) with (calls tr + S i) by lia. apply Hfail. lia.
    + rewrite calls_after_backoff.
      now replace (S (calls tr) + k) with (calls tr + S k) by lia.
Qed.

Lemma read_as_exhausts (m : nat) : forall (fuel attempts : nat) (tr : trace),
  attempts + S m = n -> m < fuel ->
  (forall i, i <= m -> exists e, T (calls tr + i) rq = Fails e) ->
  exists e, T (calls tr + m) rq = Fails e /\
    retry_loop T rq ceiling fuel attempts tr =
      (Raise (Error (Spec.exhaustion_message ceiling e)),
       (tr ++ Spec.backoffs rq m ++ [Fetch rq])%list).
Proof.
  induction m as [| m IH]; intros fuel attempts tr Hsum Hfuel Hfail;
    (destruct fuel as [| fuel]; [lia |]);
    rewrite retry_loop_turn, below;
    (destruct (Nat.ltb_spec attempts n) as [_ | Hge]; [| lia]);
    destruct (Hfail 0 ltac:(lia)) as [e He]; rewrite Nat.add_0_r in He; rewrite He;
    rewrite increment_counts by lia; rewrite reached.
  - destruct (Nat.leb_spec n (S attempts)) as [_ | Hlt]; [| lia].
    exists e. rewrite Nat.add_0_r. split; [exact He | reflexivity].
  - destruct (Nat.leb_spec n (S attempts)) as [Hle | _]; [lia |].
    destruct (IH fuel (S attempts) (tr ++ [Fetch rq; Sleep 500])%list)
      as (e' & He' & Hrun).
    + lia.
    + lia.
    + intros i Hi. rewrite calls_after_backoff.
      replace (S (calls tr) + i) with (calls tr + S i) by lia. apply Hfail. lia.
    + rewrite calls_after_backoff in He'.
      replace (S (calls tr) + m) with (calls tr + S m) in He' by lia.
      exists e'. split; [exact He' |]. rewrite Hrun.
      rewrite backoffs_succ. now repeat rewrite <- app_assoc.
Qed.

Lemma read_as_bounded (fuel : nat) : forall (attempts : nat) (tr : trace) out tr',
  retry_loop T rq ceiling fuel attempts tr = (out, tr') ->
  calls tr' <= calls tr + (n - attempts).
Proof.
  induction fuel as [| fuel IH]; intros attempts tr out tr' Hrun.
  - inversion Hrun; subst. lia.
  - rewrite retry_loop_turn, below in Hrun.
    destruct (Nat.ltb_spec attempts n) as [Hlt | Hge].
    + destruct (T (calls tr) rq) as [r | e].
      * inversion Hrun; subst. rewrite calls_app. unfold calls at 2. simpl. lia.
      * rewrite increment_counts in Hrun by lia.
        destruct (num_ge (num_of_nat (S attempts)) (ToNumber ceiling)).
        -- inversion Hrun; subst. rewrite calls_app. unfold calls at 2. simpl. lia.
        -- apply IH in Hrun. rewrite calls_after_backoff in Hrun. lia.
    + inversion Hrun; subst. lia.
Qed.

End ReadAs.

(** The counter reads a positive finite ceiling as its ceiling. *)
Lemma fraction_read_as_ceiling {RT : Runtime} (q : Q) :
  (0 < q)%Q ->
  (forall a, num_lt (num_of_nat a) (ToNumber (VNum (Fin q))) =
             (a <? Z.to_nat (Qceiling q))%nat) /\
  (forall a, num_ge (num_of_nat a) (ToNumber (VNum (Fin q))) =
             (Z.to_nat (Qceiling q) <=? a)%nat).
Proof.
  intros Hq. pose proof (Qceiling_positive q Hq) as Hpos.
  assert (Hle : forall a, Qle_bool q (inject_Z (Z.of_nat a)) =
                          (Z.to_nat (Qceiling q) <=? a)%nat).
  { intros a. rewrite Qle_bool_ceiling.
    destruct (Z.leb_spec (Qceiling q) (Z.of_nat a));
      destruct (Nat.leb_spec (Z.to_nat (Qceiling q)) a); try reflexivity; lia. }
  split; intros a; cbn [ToNumber]; unfold num_ge, num_lt, num_le, num_of_nat,
    num_of_Z, Qlt_bool; rewrite Hle; [| reflexivity].
  destruct (Nat.leb_spec (Z.to_nat (Qceiling q)) a);
    destruct (Nat.ltb_spec a (Z.to_nat (Qceiling q))); try reflexivity; lia.
Qed.

(** X7. A finite ceiling above zero counts for its next whole
    number, as far as the counter of attempts counts.  With
    [maxRetries = q] and [n] the least whole number that is not below
    [q], [n] being [2^53] at most, [makeRequest] behaves as under the
    ceiling [n]: it never issues more than [n] calls, it returns the
    answer to attempt [k + 1] for every [k < n], and against a
    transport that throws [n] times it gives up after exactly [n]
    calls, with a message that still quotes [q]. *)
Theorem fractional_ceiling_rounds_up {RT : Runtime} (T : transport)
    (p : Library.params) (q : Q) (tr : trace) :
  (0 < q)%Q ->
  (Qceiling q <= 9007199254740992)%Z ->
  Library.maxRetries p = VNum (Fin q) ->
  1 <= Z.to_nat (Qceiling q) /\
  (forall fuel out tr',
     Library.makeRequest T fuel p tr = (out, tr') ->
     calls tr' <= calls tr + Z.to_nat (Qceiling q)) /\
  (forall k r fuel,
     k < Z.to_nat (Qceiling q) -> k < fuel ->
     (forall i, i < k -> exists e, T (calls tr + i) (Library.options_of p) = Fails e) ->
     T (calls tr + k) (Library.options_of p) = Responds r ->
     exists tr',
       Library.makeRequest T fuel p tr = (Return (Spec.api_response_of r), tr') /\
       calls tr' = calls tr + (k + 1)) /\
  (forall fuel,
     Z.to_nat (Qceiling q) <= fuel ->
     (forall i, i < Z.to_nat (Qceiling q) ->
        exists e, T (calls tr + i) (Library.options_of p) = Fails e) ->
     exists e tr',
       Library.makeRequest T fuel p tr =
         (Raise (Error ("AppSheet API failed after " ++ ToString (VNum (Fin q)) ++
                        " attempts: " ++ exn_toString e)), tr') /\
       calls tr' = calls tr + Z.to_nat (Qceiling q)).
Proof.
  intros Hq Hcount Hmax.
  destruct (fraction_read_as_ceiling q Hq) as [Hbelow Hreached].
  pose proof (Qceiling_positive q Hq) as Hpos.
  assert (Hreach : (Z.of_nat (Z.to_nat (Qceiling q)) <= 9007199254740992)%Z) by lia.
  split; [lia |]. split; [| split].
  - intros fuel out tr' Hrun. rewrite makeRequest_after_loop, Hmax in Hrun.
    destruct (retry_loop T (Library.options_of p) (VNum (Fin q)) fuel 0 tr)
      as [out0 tr0] eqn:Hloop.
    apply (read_as_bounded T _ _ _ Hbelow Hreach) in Hloop.
    rewrite Nat.sub_0_r in Hloop.
    destruct out0 as [[r |] | e |]; inversion Hrun; subst; exact Hloop.
  - intros k r fuel Hk Hfuel Hfail Hok.
    eexists. rewrite makeRequest_after_loop, Hmax.
    rewrite (read_as_succeeds T _ _ _ Hbelow Hreached Hreach k fuel 0 tr r)
      by (assumption || lia).
    split; [reflexivity | apply calls_after_attempts].
  - intros fuel Hfuel Hfail.
    destruct (read_as_exhausts T (Library.options_of p) _ _ Hbelow Hreached Hreach
                (Z.to_nat (Qceiling q) - 1) fuel 0 tr)
      as (e & He & Hrun); [lia | lia | intros i Hi; apply Hfail; lia |].
    exists e. eexists. rewrite makeRequest_after_loop, Hmax, Hrun.
    split; [reflexivity |]. rewrite calls_after_attempts. lia.
Qed.

Lemma fractional_ceiling_rounds_up_witness :
  Z.to_nat (Qceiling (5 # 2)) = 3 /\
  forall out tr',
    Library.makeRequest (RT := Fixtures.host) Fixtures.down 9
      (Library.request_of
         (Library.new_App (RT := Fixtures.host) (VStr "APP") (VStr "KEY")
            (VStr "www.appsheet.com") (VNum (Fin (5 # 2))))
         (VStr "users") (VStr "Find") VUndefined VUndefined) [] = (out, tr') ->
    calls tr' <= 3.
Proof.
  split; [reflexivity |].
  destruct (fractional_ceiling_rounds_up (RT := Fixtures.host) Fixtures.down
              (Library.request_of
                 (Library.new_App (RT := Fixtures.host) (VStr "APP") (VStr "KEY")
                    (VStr "www.appsheet.com") (VNum (Fin (5 # 2))))
                 (VStr "users") (VStr "Find") VUndefined VUndefined)
              (5 # 2) [] eq_refl ltac:(vm_compute; discriminate) eq_refl)
    as (_ & Hbound & _).
  exact (Hbound 9).
Defined.

(* ================================================================= *)
(** ** How [main.js] reads an answer *)

(** X12. What [findByKey] of [main.js] makes of a result of code 200
    depends on the shape of its content alone, and adds no event.  Null
    content makes it throw a [TypeError].  An array gives its first
    element as content, or null when it is empty, with [rowsReturned] 1
    exactly when that content is truthy.  A text gives its first UTF-16
    code unit, or null when it is empty.  A number, a boolean and an
    object give null and 0 when they have no [length], neither of
    their own nor from a prototype. *)
Theorem first_match_by_shape {RT : Runtime} (result : ApiResponse) (tr : trace) :
  code result = 200%Z ->
  (content result = VNull ->
   Script.first_match result tr =
     (Raise (TypeError "Cannot read properties of null (reading 'length')"), tr)) /\
  (forall rows,
     content result = VArr rows ->
     Script.first_match result tr =
       (Return {| code := 200;
                  content := hd VNull rows;
                  rowsReturned := if truthy (hd VNull rows) then VNum (num_of_Z 1)
                                  else VNum (num_of_Z 0) |}, tr)) /\
  (forall s,
     content result = VStr s ->
     Script.first_match result tr =
       (Return {| code := 200;
                  content := hd VNull (map VStr (code_units s));
                  rowsReturned := match s with
                                  | EmptyString => VNum (num_of_Z 0)
                                  | String _ _ => VNum (num_of_Z 1)
                                  end |}, tr)) /\
  ((exists b, content result = VBool b) \/ (exists m, content result = VNum m) \/
   (exists fields, content result = VObj fields /\ lookup "length" fields = None) ->
   Inherited (content result) "length" = None ->
   Script.first_match result tr =
     (Return {| code := 200; content := VNull; rowsReturned := VNum (num_of_Z 0) |},
      tr)).
Proof.
  intros Hcode. unfold Script.first_match. rewrite Hcode. cbn [Z.eqb Pos.eqb negb].
  split; [| split; [| split]].
  - intros ->. reflexivity.
  - intros rows ->. unfold bind, lift. rewrite array_length.
    unfold ret at 1. cbn [ToNumber].
    change (num_gt (num_of_nat (Datatypes.length rows)) (num_of_Z 0))
      with (num_lt (num_of_nat 0) (num_of_nat (Datatypes.length rows))).
    rewrite num_lt_of_nat.
    destruct rows as [| row rest]; [reflexivity |].
    cbn [Datatypes.length Nat.ltb Nat.leb]. now rewrite array_head.
  - intros s ->. unfold bind, lift. rewrite text_length.
    unfold ret at 1. cbn [ToNumber].
    change (num_gt (num_of_nat (Datatypes.length (code_units s))) (num_of_Z 0))
      with (num_lt (num_of_nat 0) (num_of_nat (Datatypes.length (code_units s)))).
    rewrite num_lt_of_nat.
    destruct s as [| ch rest]; [reflexivity |].
    rewrite text_head.
    destruct (code_units_first ch rest) as (ch' & u & us & ->).
    reflexivity.
  - intros Hshape Hnone. unfold bind, lift.
    assert (Hlen : get_member (content result) "length" = Ok VUndefined).
    { unfold get_member. rewrite Hnone.
      destruct Hshape as [[b ->] | [[m ->] | (fields & -> & Hown)]]; try reflexivity.
      cbn [own_property]. now rewrite Hown. }
    rewrite Hlen. reflexivity.
Qed.

Lemma first_match_by_shape_witness :
  Script.findByKey (RT := Fixtures.host) Script.CONFIG_initial
    (fun _ _ => Fixtures.ok_200 "null") 2 (VStr "users") (VStr "id") (VStr "7") [] =
    (Raise (TypeError "Cannot read properties of null (reading 'length')"),
     [Fetch (Script.options_of (RT := Fixtures.host) Script.CONFIG_initial
               {| Script.table := VStr "users";
                  Script.action := VStr "Find";
                  Script.rows := VUndefined;
                  Script.selector :=
                    VStr ("Filter(users, " ++
                          Script.key_filter (RT := Fixtures.host) (VStr "id")
                            (VStr "7") ++ ")");
                  Script.method := VUndefined |})]) /\
  Script.first_match (RT := Fixtures.host)
    {| code := 200; content := VStr "日本"; rowsReturned := VNum (num_of_Z 0) |} [] =
    (Return {| code := 200; content := VStr "日"; rowsReturned := VNum (num_of_Z 1) |},
     []).
Proof.
  split;
    [| exact (proj1 (proj2 (proj2
         (first_match_by_shape (RT := Fixtures.host)
            {| code := 200; content := VStr "日本"; rowsReturned := VNum (num_of_Z 0) |}
            [] eq_refl))) "日本" eq_refl)].
  unfold Script.findByKey, bind at 1.
  change (Script.find (RT := Fixtures.host) Script.CONFIG_initial
            (fun _ _ => Fixtures.ok_200 "null") 2 (VStr "users")
            (VStr (Script.key_filter (RT := Fixtures.host) (VStr "id") (VStr "7")))
            VUndefined VUndefined VUndefined [])
    with (Return {| code := 200; content := VNull; rowsReturned := VNum (num_of_Z 0) |},
          [Fetch (Script.options_of (RT := Fixtures.host) Script.CONFIG_initial
                    {| Script.table := VStr "users";
                       Script.action := VStr "Find";
                       Script.rows := VUndefined;
                       Script.selector :=
                         VStr ("Filter(users, " ++
                               Script.key_filter (RT := Fixtures.host) (VStr "id")
                                 (VStr "7") ++ ")");
                       Script.method := VUndefined |})]).
  apply (first_match_by_shape (RT := Fixtures.host)
           {| code := 200; content := VNull; rowsReturned := VNum (num_of_Z 0) |});
    reflexivity.
Defined.

(** X13. [main.js] counts rows in an array and nowhere else: a body
    that parses to anything but an array is returned with
    [rowsReturned] 0.  So the answer to an [add], [update] or [delete],
    an object that holds the rows under [rows], is reported with 0 rows
    by the script and with the number of those rows by the library. *)
Theorem script_counts_arrays_only {RT : Runtime} (r : HTTPResponse) (v : value)
    (tr : trace) :
  JSON_parse (getContentText r) = Ok v ->
  isArray v = false ->
  Script.interpret r tr =
    (Return {| code := getResponseCode r; content := v;
               rowsReturned := VNum (num_of_nat 0) |}, tr) /\
  forall fields rows,
    v = VObj fields -> lookup "rows" fields = Some (VArr rows) ->
    Library.interpret r tr =
      (Return {| code := getResponseCode r; content := v;
                 rowsReturned := VNum (num_of_nat (List.length rows)) |}, tr).
Proof.
  intros Hparse Harr. split.
  - rewrite (script_interpret_parsed r v tr Hparse).
    destruct v; try reflexivity. discriminate Harr.
  - intros fields rows -> Hrows. rewrite interpret_returns.
    unfold Spec.api_response_of. rewrite Hparse. cbn [Spec.content_of Spec.row_count].
    now rewrite Hrows.
Qed.

Lemma script_counts_arrays_only_witness :
  Script.interpret (RT := Fixtures.host_more)
    {| getResponseCode := 200; getContentText := "ack" |} [] =
    (Return {| code := 200;
               content := VObj [("rows", VArr [VObj [("id", VStr "9")]])];
               rowsReturned := VNum (num_of_nat 0) |}, []) /\
  Library.interpret (RT := Fixtures.host_more)
    {| getResponseCode := 200; getContentText := "ack" |} [] =
    (Return {| code := 200;
               content := VObj [("rows", VArr [VObj [("id", VStr "9")]])];
               rowsReturned := VNum (num_of_nat 1) |}, []).
Proof.
  destruct (script_counts_arrays_only (RT := Fixtures.host_more)
              {| getResponseCode := 200; getContentText := "ack" |}
              (VObj [("rows", VArr [VObj [("id", VStr "9")]])]) [] eq_refl eq_refl)
    as [Hscript Hlibrary].
  split; [exact Hscript |].
  exact (Hlibrary _ _ eq_refl eq_refl).
Defined.

(* ================================================================= *)
(** ** The first script *)

(** After its loop, [makeRequest] of the first script adds no event. *)
Lemma legacy_after_response {RT : Runtime} (J : Legacy.JSONParser_binding)
    (cfg : Legacy.CONFIG) (T : transport) (fuel : nat) (p : Legacy.params)
    (tr : trace) :
  Legacy.makeRequest J cfg T fuel p tr =
    match retry_loop T (Legacy.options_of cfg p) (Legacy.maxRetries cfg) fuel 0 tr with
    | (Return (Some r), tr') =>
        match Legacy.parsed_or_text J (getContentText r) with
        | Ok v =>
            (Return {| code := getResponseCode r;
                       content := v;
                       rowsReturned := match v with
                                       | VArr elems =>
                                           VNum (num_of_nat (List.length elems))
                                       | _ => VNum (num_of_Z 0)
                                       end |}, tr')
        | Throw e => (Raise e, tr')
        end
    | (Return None, tr') =>
        (Raise (TypeError
                  "Cannot read properties of undefined (reading 'getResponseCode')"),
         tr')
    | (Raise e, tr') => (Raise e, tr')
    | (Diverge, tr') => (Diverge, tr')
    end.
Proof.
  unfold Legacy.makeRequest, bind at 1.
  destruct (retry_loop T (Legacy.options_of cfg p) (Legacy.maxRetries cfg) fuel 0 tr)
    as [[[r |] | e |] tr']; try reflexivity.
  unfold bind, lift.
  destruct (Legacy.parsed_or_text J (getContentText r)) as [v | e]; [| reflexivity].
  destruct v; reflexivity.
Qed.

Lemma legacy_makeRequest_calls {RT : Runtime} (J : Legacy.JSONParser_binding)
    (cfg : Legacy.CONFIG) (T : transport) (fuel : nat) (p : Legacy.params)
    (tr : trace) :
  exists evs,
    snd (Legacy.makeRequest J cfg T fuel p tr) = (tr ++ evs)%list /\
    forall rq, In (Fetch rq) evs -> rq = Legacy.options_of cfg p.
Proof.
  destruct (retry_loop_same_request T (Legacy.options_of cfg p) (Legacy.maxRetries cfg)
              fuel 0 tr) as (evs & Htr & Hrq).
  exists evs. split; [| exact Hrq].
  rewrite legacy_after_response.
  destruct (retry_loop T (Legacy.options_of cfg p) (Legacy.maxRetries cfg) fuel 0 tr)
    as [[[r |] | e |] tr']; try exact Htr.
  destruct (Legacy.parsed_or_text J (getContentText r)); exact Htr.
Qed.

(** [Array.prototype.find] over records, under the callback of
    [findByKey], for a key that the prototypes give to no record that
    lacks it. *)
Lemma array_find_records {RT : Runtime} (key : string) (keyValue : value)
    (rows : list value) :
  forallb Spec.is_record rows = true ->
  (forall r, In r rows -> own_property r key = None -> Inherited r key = None) ->
  Legacy.array_find
    (fun r => rbind (get_member r key) (fun field => Ok (strict_eq field keyValue)))
    rows =
  Ok (match List.find (fun r => strict_eq (Spec.column key r) keyValue) rows with
      | Some r => r
      | None => VUndefined
      end).
Proof.
  induction rows as [| r rows IH]; intros Hrec Hplain; [reflexivity |].
  cbn [forallb] in Hrec. apply andb_true_iff in Hrec. destruct Hrec as [Hr Hrows].
  assert (Hrest : forall r', In r' rows -> own_property r' key = None ->
                             Inherited r' key = None)
    by (intros r' Hin; apply Hplain; now right).
  specialize (Hplain r (or_introl eq_refl)).
  destruct r as [ | | b | m | s | l | fields | native ]; try discriminate Hr.
  cbn [Legacy.array_find List.find Spec.column]. unfold get_member at 1.
  cbn [own_property] in *.
  destruct (lookup key fields) as [x |]; [| rewrite (Hplain eq_refl)]; cbn [rbind];
    (match goal with
     | |- context [strict_eq ?a keyValue] => destruct (strict_eq a keyValue)
     end; [reflexivity | now apply IH]).
Qed.

(** The same, for a key that no record holds itself and that the
    prototypes give to each: what they give is equal to no datum. *)
Lemma array_find_inherited {RT : Runtime} (key : string) (keyValue : value)
    (rows : list value) :
  is_native keyValue = false ->
  (forall r, In r rows ->
     Spec.is_record r = true /\ own_property r key = None /\ Inherited r key <> None) ->
  Legacy.array_find
    (fun r => rbind (get_member r key) (fun field => Ok (strict_eq field keyValue)))
    rows = Ok VUndefined.
Proof.
  intros Hdatum. induction rows as [| r rows IH]; intros Hrows; [reflexivity |].
  destruct (Hrows r (or_introl eq_refl)) as (Hr & Hown & Hgiven).
  destruct r as [ | | b | m | s | l | fields | native ]; try discriminate Hr.
  cbn [Legacy.array_find]. unfold get_member at 1. rewrite Hown.
  destruct (Inherited (VObj fields) key) as [name |]; [| now destruct Hgiven].
  assert (Hne : strict_eq (if name =? "Array.prototype" then VArr [] else VNative name)
                  keyValue = false).
  { destruct (name =? "Array.prototype"); destruct keyValue; try reflexivity;
      discriminate Hdatum. }
  cbn [rbind]. rewrite Hne. apply IH. intros r' Hin. apply Hrows. now right.
Qed.

(** X14. [findByKey] of the first script reads the whole table and
    picks on the client.  When [findAll] returns a result whose code is
    not 200, that result is returned as it is.  When the code is 200
    and the content is an array of records, the events are those of
    [findAll] and [rowsReturned] stays the number of rows of the table.
    For a key column that the prototypes give to no record that lacks
    it, the content returned is the first record whose field under
    that column is strictly equal to [keyValue], so that the text of a
    number never matches the number, or null when there is none.  For
    a key column that no record holds itself and that the prototypes
    give to every record, such as [constructor], the content returned
    is null, whatever datum [keyValue] is, [undefined] included. *)
Theorem legacy_findByKey_picks_on_the_client {RT : Runtime}
    (J : Legacy.JSONParser_binding) (cfg : Legacy.CONFIG) (T : transport) (fuel : nat)
    (t keyColumn keyValue : value) (tr tr' : trace) (result : ApiResponse) :
  Legacy.findAll J cfg T fuel t tr = (Return result, tr') ->
  (code result <> 200%Z ->
   Legacy.findByKey J cfg T fuel t keyColumn keyValue tr = (Return result, tr')) /\
  (forall rows,
     code result = 200%Z ->
     content result = VArr rows ->
     forallb Spec.is_record rows = true ->
     ((forall r, In r rows -> own_property r (ToString keyColumn) = None ->
                    Inherited r (ToString keyColumn) = None) ->
      Legacy.findByKey J cfg T fuel t keyColumn keyValue tr =
        (Return {| code := 200;
                   content := Spec.first_with_key (ToString keyColumn) keyValue rows;
                   rowsReturned := VNum (num_of_nat (List.length rows)) |}, tr')) /\
     ((forall r, In r rows ->
         own_property r (ToString keyColumn) = None /\
         Inherited r (ToString keyColumn) <> None) ->
      is_native keyValue = false ->
      Legacy.findByKey J cfg T fuel t keyColumn keyValue tr =
        (Return {| code := 200;
                   content := VNull;
                   rowsReturned := VNum (num_of_nat (List.length rows)) |}, tr'))).
Proof.
  intros Hall. split.
  - intros Hcode. unfold Legacy.findByKey, bind at 1. rewrite Hall.
    apply Z.eqb_neq in Hcode. now rewrite Hcode.
  - intros rows Hcode Hcontent Hrec.
    assert (Hcount : rowsReturned result = VNum (num_of_nat (List.length rows))).
    { unfold Legacy.findAll in Hall. rewrite legacy_after_response in Hall.
      destruct (retry_loop T _ (Legacy.maxRetries cfg) fuel 0 tr)
        as [[[r |] | e |] tr0]; try discriminate Hall.
      destruct (Legacy.parsed_or_text J (getContentText r)) as [v | e];
        [| discriminate Hall].
      inversion Hall; subst. cbn [content] in Hcontent. subst v. reflexivity. }
    split.
    + intros Hplain.
      unfold Legacy.findByKey, bind at 1. rewrite Hall, Hcode, Hcontent.
      cbn [Z.eqb Pos.eqb negb Legacy.find_method].
      unfold bind, lift. rewrite (array_find_records _ _ _ Hrec Hplain).
      unfold ret. rewrite Hcount. unfold Spec.first_with_key.
      destruct (List.find
                  (fun r => strict_eq (Spec.column (ToString keyColumn) r) keyValue)
                  rows) as [r |] eqn:Hfind; [| reflexivity].
      apply find_some in Hfind. destruct Hfind as [Hin _].
      rewrite forallb_forall in Hrec. specialize (Hrec r Hin).
      destruct r; try discriminate Hrec. reflexivity.
    + intros Hgiven Hdatum.
      unfold Legacy.findByKey, bind at 1. rewrite Hall, Hcode, Hcontent.
      cbn [Z.eqb Pos.eqb negb Legacy.find_method].
      unfold bind, lift. rewrite (array_find_inherited _ _ _ Hdatum).
      * unfold ret. now rewrite Hcount.
      * intros r Hin. rewrite forallb_forall in Hrec.
        split; [now apply Hrec | now apply Hgiven].
Qed.

Lemma legacy_findByKey_picks_on_the_client_witness :
  Legacy.findByKey (RT := Fixtures.host_more) (Legacy.Parser Fixtures.parse_more)
    Legacy.CONFIG_initial Fixtures.serving_users 2 (VStr "users") (VStr "id")
    (VStr "8") [] =
    (Return {| code := 200;
               content := VObj [("id", VStr "8"); ("name", VStr "Bob")];
               rowsReturned := VNum (num_of_nat 2) |},
     [Fetch (Legacy.options_of (RT := Fixtures.host_more) Legacy.CONFIG_initial
               {| Legacy.table := VStr "users";
                  Legacy.action := VStr "Find";
                  Legacy.rows := VUndefined;
                  Legacy.method := VUndefined |})]) /\
  Legacy.findByKey (RT := Fixtures.host_more) (Legacy.Parser Fixtures.parse_more)
    Legacy.CONFIG_initial Fixtures.serving_users 2 (VStr "users") (VStr "id")
    (VNum (num_of_Z 8)) [] =
    (Return {| code := 200;
               content := VNull;
               rowsReturned := VNum (num_of_nat 2) |},
     [Fetch (Legacy.options_of (RT := Fixtures.host_more) Legacy.CONFIG_initial
               {| Legacy.table := VStr "users";
                  Legacy.action := VStr "Find";
                  Legacy.rows := VUndefined;
                  Legacy.method := VUndefined |})]) /\
  Legacy.findByKey (RT := Fixtures.host_more) (Legacy.Parser Fixtures.parse_more)
    Legacy.CONFIG_initial Fixtures.serving_users 2 (VStr "users") (VStr "constructor")
    VUndefined [] =
    (Return {| code := 200;
               content := VNull;
               rowsReturned := VNum (num_of_nat 2) |},
     [Fetch (Legacy.options_of (RT := Fixtures.host_more) Legacy.CONFIG_initial
               {| Legacy.table := VStr "users";
                  Legacy.action := VStr "Find";
                  Legacy.rows := VUndefined;
                  Legacy.method := VUndefined |})]).
Proof.
  split; [| split].
  - destruct (legacy_findByKey_picks_on_the_client (RT := Fixtures.host_more)
                (Legacy.Parser Fixtures.parse_more) Legacy.CONFIG_initial
                Fixtures.serving_users 2 (VStr "users") (VStr "id") (VStr "8") [] _ _
                eq_refl) as (_ & Hpick).
    destruct (Hpick _ eq_refl eq_refl eq_refl) as [Hplain _].
    apply Hplain. intros r [<- | [<- | []]] _; reflexivity.
  - destruct (legacy_findByKey_picks_on_the_client (RT := Fixtures.host_more)
                (Legacy.Parser Fixtures.parse_more) Legacy.CONFIG_initial
                Fixtures.serving_users 2 (VStr "users") (VStr "id") (VNum (num_of_Z 8))
                [] _ _ eq_refl) as (_ & Hpick).
    destruct (Hpick _ eq_refl eq_refl eq_refl) as [Hplain _].
    apply Hplain. intros r [<- | [<- | []]] _; reflexivity.
  - destruct (legacy_findByKey_picks_on_the_client (RT := Fixtures.host_more)
                (Legacy.Parser Fixtures.parse_more) Legacy.CONFIG_initial
                Fixtures.serving_users 2 (VStr "users") (VStr "constructor") VUndefined
                [] _ _ eq_refl) as (_ & Hpick).
    destruct (Hpick _ eq_refl eq_refl eq_refl) as [_ Hgiven].
    apply Hgiven; [| reflexivity].
    intros r [<- | [<- | []]]; (split; [reflexivity | discriminate]).
Defined.

(** X15. The first script reads the body through a global [JSONParser]
    that it does not define.  Once a call is answered: where no such
    global is declared the script throws a [ReferenceError], whatever
    the status; where it is declared and nullish the body text is the
    content, with no rows counted, and [findByKey] on a code of 200
    throws, a text having no [find]; where it is a parser, what the
    parser throws is thrown, a nullish parse falls back to the body
    text, and any other parse is the content, counted when it is an
    array. *)
Theorem first_script_needs_its_parser {RT : Runtime} (cfg : Legacy.CONFIG)
    (T : transport) (fuel : nat) (p : Legacy.params) (r : HTTPResponse) (tr : trace) :
  num_lt (num_of_nat 0) (ToNumber (Legacy.maxRetries cfg)) = true ->
  T (calls tr) (Legacy.options_of cfg p) = Responds r ->
  let tr' := (tr ++ [Fetch (Legacy.options_of cfg p)])%list in
  let text := {| code := getResponseCode r;
                 content := VStr (getContentText r);
                 rowsReturned := VNum (num_of_Z 0) |} in
  Legacy.makeRequest Legacy.Undeclared cfg T (S fuel) p tr =
    (Raise (Exn "ReferenceError" "JSONParser is not defined"), tr') /\
  Legacy.makeRequest Legacy.Nullish cfg T (S fuel) p tr = (Return text, tr') /\
  (forall toParsed e,
     toParsed (getContentText r) = Throw e ->
     Legacy.makeRequest (Legacy.Parser toParsed) cfg T (S fuel) p tr = (Raise e, tr')) /\
  (forall toParsed v,
     toParsed (getContentText r) = Ok v ->
     Legacy.makeRequest (Legacy.Parser toParsed) cfg T (S fuel) p tr =
       (Return (match v with
                | VUndefined | VNull => text
                | VArr elems =>
                    {| code := getResponseCode r;
                       content := v;
                       rowsReturned := VNum (num_of_nat (List.length elems)) |}
                | _ =>
                    {| code := getResponseCode r;
                       content := v;
                       rowsReturned := VNum (num_of_Z 0) |}
                end), tr')) /\
  (forall t keyColumn keyValue,
     p = {| Legacy.table := t;
            Legacy.action := VStr "Find";
            Legacy.rows := VUndefined;
            Legacy.method := VUndefined |} ->
     getResponseCode r = 200%Z ->
     Legacy.findByKey Legacy.Nullish cfg T (S fuel) t keyColumn keyValue tr =
       (Raise (TypeError "result.content.find is not a function"), tr')).
Proof.
  intros Hceiling Hanswer tr' text.
  assert (Hloop : retry_loop T (Legacy.options_of cfg p) (Legacy.maxRetries cfg)
                    (S fuel) 0 tr = (Return (Some r), tr')).
  { rewrite retry_loop_turn, Hceiling, Hanswer. reflexivity. }
  assert (Hnullish : Legacy.makeRequest Legacy.Nullish cfg T (S fuel) p tr =
                       (Return text, tr')).
  { rewrite legacy_after_response, Hloop. reflexivity. }
  split; [| split; [| split; [| split]]].
  - rewrite legacy_after_response, Hloop. reflexivity.
  - exact Hnullish.
  - intros toParsed e Hthrow. rewrite legacy_after_response, Hloop.
    cbn [Legacy.parsed_or_text]. now rewrite Hthrow.
  - intros toParsed v Hparse. rewrite legacy_after_response, Hloop.
    cbn [Legacy.parsed_or_text]. rewrite Hparse.
    destruct v; reflexivity.
  - intros t keyColumn keyValue Hp Hcode.
    unfold Legacy.findByKey, Legacy.findAll, bind at 1.
    rewrite <- Hp, Hnullish. unfold text at 1. cbn [code content].
    rewrite Hcode. reflexivity.
Qed.

Lemma first_script_needs_its_parser_witness :
  Legacy.findAll (RT := Fixtures.host_more) Legacy.Undeclared Legacy.CONFIG_initial
    Fixtures.serving_users 1 (VStr "users") [] =
    (Raise (Exn "ReferenceError" "JSONParser is not defined"),
     [Fetch (Legacy.options_of (RT := Fixtures.host_more) Legacy.CONFIG_initial
               {| Legacy.table := VStr "users";
                  Legacy.action := VStr "Find";
                  Legacy.rows := VUndefined;
                  Legacy.method := VUndefined |})]) /\
  Legacy.findByKey (RT := Fixtures.host_more) Legacy.Nullish Legacy.CONFIG_initial
    Fixtures.serving_users 1 (VStr "users") (VStr "id") (VStr "8") [] =
    (Raise (TypeError "result.content.find is not a function"),
     [Fetch (Legacy.options_of (RT := Fixtures.host_more) Legacy.CONFIG_initial
               {| Legacy.table := VStr "users";
                  Legacy.action := VStr "Find";
                  Legacy.rows := VUndefined;
                  Legacy.method := VUndefined |})]).
Proof.
  destruct (first_script_needs_its_parser (RT := Fixtures.host_more)
              Legacy.CONFIG_initial Fixtures.serving_users 0
              {| Legacy.table := VStr "users";
                 Legacy.action := VStr "Find";
                 Legacy.rows := VUndefined;
                 Legacy.method := VUndefined |}
              {| getResponseCode := 200; getContentText := "users" |} []
              eq_refl eq_refl) as (Hundeclared & _ & _ & _ & Hfind).
  split; [exact Hundeclared |].
  exact (Hfind (VStr "users") (VStr "id") (VStr "8") eq_refl eq_refl).
Defined.

(* ================================================================= *)
(** ** Where the scripts send their calls *)

Lemma every_call_lift_bind {A B : Type} (P : request -> Prop) (r : result A)
    (k : A -> M B) (tr : trace) :
  (forall a, r = Ok a -> Spec.every_call P (k a) tr) ->
  Spec.every_call P (a <- lift r ;; k a) tr.
Proof.
  intros Hk. destruct r as [a | e].
  - exact (Hk a eq_refl).
  - exists []. split; [symmetry; apply app_nil_r | intros rq []].
Qed.

Lemma first_match_is_silent {RT : Runtime} (result : ApiResponse) (tr : trace) :
  snd (Script.first_match result tr) = tr.
Proof.
  unfold Script.first_match.
  destruct (negb (code result =? 200)%Z); [reflexivity |].
  unfold bind, lift.
  destruct (get_member (content result) "length") as [len | e]; [| reflexivity].
  unfold ret at 1.
  destruct (num_gt (ToNumber len) (num_of_Z 0)); [| reflexivity].
  destruct (get_member (content result) "0"); reflexivity.
Qed.

Lemma script_calls_go_to {RT : Runtime} (cfg : Script.CONFIG) (T : transport)
    (fuel : nat) (p : Script.params) (tr : trace) :
  Script.method p = VUndefined ->
  Spec.every_call
    (Spec.table_action "www.appsheet.com" "98c5f507-7163-4f46-ab8b-f946a9839222"
       (Script.apiKey cfg) (Script.table p))
    (Script.makeRequest cfg T fuel p) tr.
Proof.
  intros Hmethod.
  destruct (script_makeRequest_calls cfg T fuel p tr) as (evs & Htr & Hrq).
  exists evs. split; [exact Htr |].
  intros rq Hin. rewrite (Hrq rq Hin).
  unfold Spec.table_action, Script.options_of. rewrite Hmethod.
  repeat split.
Qed.

Lemma legacy_calls_go_to {RT : Runtime} (J : Legacy.JSONParser_binding)
    (cfg : Legacy.CONFIG) (T : transport) (fuel : nat) (p : Legacy.params)
    (tr : trace) :
  Legacy.method p = VUndefined ->
  Spec.every_call
    (Spec.table_action EmptyString EmptyString (Legacy.apiKey cfg) (Legacy.table p))
    (Legacy.makeRequest J cfg T fuel p) tr.
Proof.
  intros Hmethod.
  destruct (legacy_makeRequest_calls J cfg T fuel p tr) as (evs & Htr & Hrq).
  exists evs. split; [exact Htr |].
  intros rq Hin. rewrite (Hrq rq Hin).
  unfold Spec.table_action, Legacy.options_of. rewrite Hmethod.
  repeat split.
Qed.

(** X16. Both scripts compute [BASE_URL] once, when they are loaded, and
    read the key at each call.  So whatever the caller has stored in
    the exported [_config] since, region and application included,
    every call of every operation of [main.js] goes to the table's
    action under [www.appsheet.com] and the application the file names,
    and every call of the first script goes to the address with the
    empty host and the empty application that the file holds; the
    [ApplicationAccessKey] header is the [apiKey] that [_config] holds
    at the call. *)
Theorem destination_is_fixed_at_load {RT : Runtime} (T : transport) (fuel : nat)
    (t : value) (tr : trace) :
  (forall cfg : Script.CONFIG,
     let sent := @Spec.every_call ApiResponse
                   (Spec.table_action "www.appsheet.com"
                      "98c5f507-7163-4f46-ab8b-f946a9839222" (Script.apiKey cfg) t) in
     (forall f c d n, sent (Script.find cfg T fuel t f c d n) tr) /\
     (forall keyColumn keyValue,
        sent (Script.findByKey cfg T fuel t keyColumn keyValue) tr) /\
     (forall records, sent (Script.add cfg T fuel t records) tr) /\
     (forall records, sent (Script.update cfg T fuel t records) tr) /\
     (forall records, sent (Script.deleteRows cfg T fuel t records) tr)) /\
  (forall (J : Legacy.JSONParser_binding) (cfg : Legacy.CONFIG),
     let sent := @Spec.every_call ApiResponse
                   (Spec.table_action EmptyString EmptyString (Legacy.apiKey cfg) t) in
     sent (Legacy.findAll J cfg T fuel t) tr /\
     (forall keyColumn keyValue,
        sent (Legacy.findByKey J cfg T fuel t keyColumn keyValue) tr) /\
     (forall records, sent (Legacy.add J cfg T fuel t records) tr) /\
     (forall records, sent (Legacy.update J cfg T fuel t records) tr) /\
     (forall records, sent (Legacy.deleteRows J cfg T fuel t records) tr)).
Proof.
  split.
  - intros cfg sent. subst sent.
    assert (Hfind : forall f c d n,
              Spec.every_call
                (Spec.table_action "www.appsheet.com"
                   "98c5f507-7163-4f46-ab8b-f946a9839222" (Script.apiKey cfg) t)
                (Script.find cfg T fuel t f c d n) tr).
    { intros f c d n. unfold Script.find. apply every_call_lift_bind.
      intros sel _.
      exact (script_calls_go_to cfg T fuel
               {| Script.table := t; Script.action := VStr "Find";
                  Script.rows := VUndefined; Script.selector := VStr sel;
                  Script.method := VUndefined |} tr eq_refl). }
    split; [exact Hfind |]. split; [| split; [| split]].
    + intros keyColumn keyValue.
      destruct (Hfind (VStr (Script.key_filter keyColumn keyValue)) VUndefined
                  VUndefined VUndefined) as (evs & Htr & Hrq).
      exists evs. split; [| exact Hrq].
      unfold Script.findByKey, bind.
      destruct (Script.find cfg T fuel t (VStr (Script.key_filter keyColumn keyValue))
                  VUndefined VUndefined VUndefined tr) as [[result | e |] tr0];
        try exact Htr.
      rewrite first_match_is_silent. exact Htr.
    + intros records.
      exact (script_calls_go_to cfg T fuel
               {| Script.table := t; Script.action := VStr "Add";
                  Script.rows := Script.normalizeRecords records;
                  Script.selector := VUndefined;
                  Script.method := VUndefined |} tr eq_refl).
    + intros records.
      exact (script_calls_go_to cfg T fuel
               {| Script.table := t; Script.action := VStr "Edit";
                  Script.rows := Script.normalizeRecords records;
                  Script.selector := VUndefined;
                  Script.method := VUndefined |} tr eq_refl).
    + intros records.
      exact (script_calls_go_to cfg T fuel
               {| Script.table := t; Script.action := VStr "Delete";
                  Script.rows := Script.normalizeRecords records;
                  Script.selector := VUndefined;
                  Script.method := VUndefined |} tr eq_refl).
  - intros J cfg sent. subst sent.
    assert (Hall : Spec.every_call
                     (Spec.table_action EmptyString EmptyString (Legacy.apiKey cfg) t)
                     (Legacy.findAll J cfg T fuel t) tr).
    { exact (legacy_calls_go_to J cfg T fuel
               {| Legacy.table := t; Legacy.action := VStr "Find";
                  Legacy.rows := VUndefined; Legacy.method := VUndefined |} tr
               eq_refl). }
    split; [exact Hall |]. split; [| split; [| split]].
    + intros keyColumn keyValue. destruct Hall as (evs & Htr & Hrq).
      exists evs. split; [| exact Hrq].
      unfold Legacy.findByKey, bind at 1.
      destruct (Legacy.findAll J cfg T fuel t tr) as [[result | e |] tr0];
        try exact Htr.
      destruct (negb (code result =? 200)%Z); [exact Htr |].
      unfold bind, lift.
      destruct (Legacy.find_method (content result) _); exact Htr.
    + intros records.
      exact (legacy_calls_go_to J cfg T fuel
               {| Legacy.table := t; Legacy.action := VStr "Add";
                  Legacy.rows := Legacy.normalizeRecords records;
                  Legacy.method := VUndefined |} tr eq_refl).
    + intros records.
      exact (legacy_calls_go_to J cfg T fuel
               {| Legacy.table := t; Legacy.action := VStr "Edit";
                  Legacy.rows := Legacy.normalizeRecords records;
                  Legacy.method := VUndefined |} tr eq_refl).
    + intros records.
      exact (legacy_calls_go_to J cfg T fuel
               {| Legacy.table := t; Legacy.action := VStr "Delete";
                  Legacy.rows := Legacy.normalizeRecords records;
                  Legacy.method := VUndefined |} tr eq_refl).
Qed.

(** X17. The first script never sends a selector.  At every attempt,
    [findAll] sends the action [Find] with no rows, and so does
    [findByKey], whatever the key column and the key value; [add],
    [update] and [deleteRows] send their action with the normalized
    records; the payload holds [Action] and [Rows] and nothing else. *)
Theorem first_script_payloads {RT : Runtime} (J : Legacy.JSONParser_binding)
    (cfg : Legacy.CONFIG) (T : transport) (fuel : nat) (t : value) (tr : trace) :
  let carries (action rows : value) :=
    @Spec.every_call ApiResponse
      (fun rq => req_payload rq =
                 JSON_stringify (VObj [("Action", action); ("Rows", rows)])) in
  carries (VStr "Find") (VArr []) (Legacy.findAll J cfg T fuel t) tr /\
  (forall keyColumn keyValue,
     carries (VStr "Find") (VArr [])
       (Legacy.findByKey J cfg T fuel t keyColumn keyValue) tr /\
     snd (Legacy.findByKey J cfg T fuel t keyColumn keyValue tr) =
       snd (Legacy.findAll J cfg T fuel t tr)) /\
  (forall records,
     carries (VStr "Add") (Legacy.normalizeRecords records)
       (Legacy.add J cfg T fuel t records) tr /\
     carries (VStr "Edit") (Legacy.normalizeRecords records)
       (Legacy.update J cfg T fuel t records) tr /\
     carries (VStr "Delete") (Legacy.normalizeRecords records)
       (Legacy.deleteRows J cfg T fuel t records) tr).
Proof.
  intros carries. subst carries.
  assert (Hrows : forall records,
            default_to (VArr []) (Legacy.normalizeRecords records) =
            Legacy.normalizeRecords records).
  { intros records. unfold Legacy.normalizeRecords.
    destruct (truthy records) eqn:Ht; simpl; [| reflexivity].
    destruct records; try reflexivity; discriminate Ht. }
  assert (Hsent : forall p,
            Spec.every_call
              (fun rq => req_payload rq =
                         JSON_stringify
                           (VObj [("Action", Legacy.action p);
                                  ("Rows", default_to (VArr []) (Legacy.rows p))]))
              (Legacy.makeRequest J cfg T fuel p) tr).
  { intros p. destruct (legacy_makeRequest_calls J cfg T fuel p tr) as (evs & Htr & Hrq).
    exists evs. split; [exact Htr |]. intros rq Hin. now rewrite (Hrq rq Hin). }
  assert (Hsame : forall keyColumn keyValue,
            snd (Legacy.findByKey J cfg T fuel t keyColumn keyValue tr) =
            snd (Legacy.findAll J cfg T fuel t tr)).
  { intros keyColumn keyValue. unfold Legacy.findByKey, bind at 1.
    destruct (Legacy.findAll J cfg T fuel t tr) as [[result | e |] tr0];
      try reflexivity.
    destruct (negb (code result =? 200)%Z); [reflexivity |].
    unfold bind, lift.
    destruct (Legacy.find_method (content result) _); reflexivity. }
  assert (Hall := Hsent {| Legacy.table := t; Legacy.action := VStr "Find";
                           Legacy.rows := VUndefined; Legacy.method := VUndefined |}).
  split; [exact Hall |]. split.
  - intros keyColumn keyValue. split; [| apply Hsame].
    destruct Hall as (evs & Htr & Hrq). exists evs. split; [| exact Hrq].
    rewrite Hsame. exact Htr.
  - intros records.
    split; [| split].
    + assert (H := Hsent {| Legacy.table := t; Legacy.action := VStr "Add";
                            Legacy.rows := Legacy.normalizeRecords records;
                            Legacy.method := VUndefined |}).
      cbn [Legacy.action Legacy.rows] in H. rewrite Hrows in H. exact H.
    + assert (H := Hsent {| Legacy.table := t; Legacy.action := VStr "Edit";
                            Legacy.rows := Legacy.normalizeRecords records;
                            Legacy.method := VUndefined |}).
      cbn [Legacy.action Legacy.rows] in H. rewrite Hrows in H. exact H.
    + assert (H := Hsent {| Legacy.table := t; Legacy.action := VStr "Delete";
                            Legacy.rows := Legacy.normalizeRecords records;
                            Legacy.method := VUndefined |}).
      cbn [Legacy.action Legacy.rows] in H. rewrite Hrows in H. exact H.
Qed.
